(** * jackmidiola: JACK MIDI to OLA DMX bridge

    A shallow embedding of [midiola.cpp].  The globals of the program are
    gathered in one record, [State]; every function of the program that
    touches them becomes a function [State -> option State], where [None]
    stands for an access outside the array of universe buffers or outside
    a frame (the program performs no bounds check of its own) or for
    [exit(1)] during start-up.

    Machine integers are integers of [Z] with the wrap-around of their C++
    type written out ([wrap8] for [uint8_t], [wrap16] for [uint16_t]). *)

From Stdlib Require Import ZArith Lia Bool List.
From stdpp Require Import base option list strings.

Local Open Scope Z_scope.

(** ** Machine integers *)

Definition wrap8 (x : Z) : Z := x mod 256.
Definition wrap16 (x : Z) : Z := x mod 65536.

(** ** Constants and enumerations of the source *)

Definition MAX_MIDI_UNIVERSE : Z := 32.

Inductive MIDI_MODE :=
| MIDI_MODE_CC7
| MIDI_MODE_CC14
| MIDI_MODE_NRPN7
| MIDI_MODE_NRPN14.

Definition MIDI_CMD_DATA_MSB : Z := 6.
Definition MIDI_CMD_DATA_LSB : Z := 38.
Definition MIDI_CMD_INC : Z := 96.
Definition MIDI_CMD_DEC : Z := 97.
Definition MIDI_CMD_NRPN_LSB : Z := 98.
Definition MIDI_CMD_NRPN_MSB : Z := 99.
Definition MIDI_CMD_NULL : Z := 127.

(** ** The universe frame *)

(** Modelled from the spec: the frame type [ola::DmxBuffer] and its methods
    [Blackout], [Get] and [SetChannel] belong to the OLA library and are not
    part of the repository.  Following the data model of the spec, a frame
    is the ordered sequence of its 512 byte slots; blackout zero-fills it,
    get-slot reads one slot, set-slot overwrites one slot.  The spec
    promises no bounds enforcement by the store, so an access outside the
    frame is kept apart as a fault ([None]). *)
Abbreviation DmxBuffer := (list Z).

Definition DMX_UNIVERSE_SIZE : nat := 512.

Definition Blackout (b : DmxBuffer) : DmxBuffer := replicate DMX_UNIVERSE_SIZE 0.

Definition Get (b : DmxBuffer) (channel : Z) : option Z :=
  if channel <? 0 then None else b !! Z.to_nat channel.

Definition SetChannel (b : DmxBuffer) (channel data : Z) : option DmxBuffer :=
  if (0 <=? channel) && (channel <? Z.of_nat (length b))
  then Some (<[Z.to_nat channel := data]> b)
  else None.

(** A frame as the program creates it, before any event. *)
Definition fresh_buffer : DmxBuffer := replicate DMX_UNIVERSE_SIZE 0.

(** ** Global state *)

(** The globals of [midiola.cpp] that the translation engine reads or
    writes.  [g_olaClient] stands for the streaming client: the log of the
    [SendDmx] requests made so far, oldest first, each a universe number
    with the full frame that was passed. *)
Record State := mkState {
  g_enableNote : bool;
  g_enableCC : bool;
  g_universeBase : Z;
  g_universe : Z;
  g_bufferIndex : Z;
  g_mode : MIDI_MODE;
  g_midiChannels : Z;
  g_nrpnParam : Z;
  g_nrpnVal : Z;
  g_slot : Z;
  g_dmxBuffer : list DmxBuffer;
  g_olaClient : list (Z * DmxBuffer)
}.

Definition set_enableNote (v : bool) (s : State) : State :=
  mkState v (g_enableCC s) (g_universeBase s) (g_universe s) (g_bufferIndex s)
          (g_mode s) (g_midiChannels s) (g_nrpnParam s) (g_nrpnVal s) (g_slot s)
          (g_dmxBuffer s) (g_olaClient s).

Definition set_enableCC (v : bool) (s : State) : State :=
  mkState (g_enableNote s) v (g_universeBase s) (g_universe s) (g_bufferIndex s)
          (g_mode s) (g_midiChannels s) (g_nrpnParam s) (g_nrpnVal s) (g_slot s)
          (g_dmxBuffer s) (g_olaClient s).

Definition set_universeBase (v : Z) (s : State) : State :=
  mkState (g_enableNote s) (g_enableCC s) v (g_universe s) (g_bufferIndex s)
          (g_mode s) (g_midiChannels s) (g_nrpnParam s) (g_nrpnVal s) (g_slot s)
          (g_dmxBuffer s) (g_olaClient s).

Definition set_universe (v : Z) (s : State) : State :=
  mkState (g_enableNote s) (g_enableCC s) (g_universeBase s) v (g_bufferIndex s)
          (g_mode s) (g_midiChannels s) (g_nrpnParam s) (g_nrpnVal s) (g_slot s)
          (g_dmxBuffer s) (g_olaClient s).

Definition set_bufferIndex (v : Z) (s : State) : State :=
  mkState (g_enableNote s) (g_enableCC s) (g_universeBase s) (g_universe s) v
          (g_mode s) (g_midiChannels s) (g_nrpnParam s) (g_nrpnVal s) (g_slot s)
          (g_dmxBuffer s) (g_olaClient s).

Definition set_mode (v : MIDI_MODE) (s : State) : State :=
  mkState (g_enableNote s) (g_enableCC s) (g_universeBase s) (g_universe s)
          (g_bufferIndex s) v (g_midiChannels s) (g_nrpnParam s) (g_nrpnVal s)
          (g_slot s) (g_dmxBuffer s) (g_olaClient s).

Definition set_midiChannels (v : Z) (s : State) : State :=
  mkState (g_enableNote s) (g_enableCC s) (g_universeBase s) (g_universe s)
          (g_bufferIndex s) (g_mode s) v (g_nrpnParam s) (g_nrpnVal s)
          (g_slot s) (g_dmxBuffer s) (g_olaClient s).

Definition set_nrpnParam (v : Z) (s : State) : State :=
  mkState (g_enableNote s) (g_enableCC s) (g_universeBase s) (g_universe s)
          (g_bufferIndex s) (g_mode s) (g_midiChannels s) v (g_nrpnVal s)
          (g_slot s) (g_dmxBuffer s) (g_olaClient s).

Definition set_nrpnVal (v : Z) (s : State) : State :=
  mkState (g_enableNote s) (g_enableCC s) (g_universeBase s) (g_universe s)
          (g_bufferIndex s) (g_mode s) (g_midiChannels s) (g_nrpnParam s) v
          (g_slot s) (g_dmxBuffer s) (g_olaClient s).

Definition set_slot (v : Z) (s : State) : State :=
  mkState (g_enableNote s) (g_enableCC s) (g_universeBase s) (g_universe s)
          (g_bufferIndex s) (g_mode s) (g_midiChannels s) (g_nrpnParam s)
          (g_nrpnVal s) v (g_dmxBuffer s) (g_olaClient s).

Definition set_dmxBuffer (v : list DmxBuffer) (s : State) : State :=
  mkState (g_enableNote s) (g_enableCC s) (g_universeBase s) (g_universe s)
          (g_bufferIndex s) (g_mode s) (g_midiChannels s) (g_nrpnParam s)
          (g_nrpnVal s) (g_slot s) v (g_olaClient s).

Definition set_olaClient (v : list (Z * DmxBuffer)) (s : State) : State :=
  mkState (g_enableNote s) (g_enableCC s) (g_universeBase s) (g_universe s)
          (g_bufferIndex s) (g_mode s) (g_midiChannels s) (g_nrpnParam s)
          (g_nrpnVal s) (g_slot s) (g_dmxBuffer s) v.

(** The static initialisers of the globals. *)
Definition globals0 : State :=
  {| g_enableNote := false;
     g_enableCC := false;
     g_universeBase := 1;
     g_universe := 1;
     g_bufferIndex := 0;
     g_mode := MIDI_MODE_CC7;
     g_midiChannels := 0xffff;
     g_nrpnParam := 0;
     g_nrpnVal := 0;
     g_slot := 0;
     g_dmxBuffer := replicate (Z.to_nat MAX_MIDI_UNIVERSE) fresh_buffer;
     g_olaClient := [] |}.

(** ** Access to the current frame *)

(** [g_dmxBuffer[g_bufferIndex]]: an index outside the array of 32 frames
    is a fault. *)
Definition current_buffer (s : State) : option DmxBuffer :=
  if g_bufferIndex s <? 0 then None
  else g_dmxBuffer s !! Z.to_nat (g_bufferIndex s).

(** [g_dmxBuffer[g_bufferIndex].Get(slot)] *)
Definition dmx_Get (slot : Z) (s : State) : option Z :=
  b ← current_buffer s; Get b slot.

(** [g_dmxBuffer[g_bufferIndex].SetChannel(slot, data)] *)
Definition dmx_SetChannel (slot data : Z) (s : State) : option State :=
  b ← current_buffer s;
  b' ← SetChannel b slot data;
  Some (set_dmxBuffer (<[Z.to_nat (g_bufferIndex s) := b']> (g_dmxBuffer s)) s).

(** [g_dmxBuffer[g_bufferIndex].Blackout()] *)
Definition dmx_Blackout (s : State) : option State :=
  b ← current_buffer s;
  Some (set_dmxBuffer (<[Z.to_nat (g_bufferIndex s) := Blackout b]> (g_dmxBuffer s)) s).

(** [g_olaClient->SendDmx(g_universe, g_dmxBuffer[g_bufferIndex])] *)
Definition ola_SendDmx (s : State) : option State :=
  b ← current_buffer s;
  Some (set_olaClient (g_olaClient s ++ [(g_universe s, b)]) s).

(** ** The four resolvers *)

Definition cc7 (channel cc val : Z) (s : State) : option State :=
  let s := set_universe (wrap8 (channel + g_universeBase s)) s in
  let s := set_bufferIndex channel s in
  let val := wrap8 (Z.shiftl val 1) in
  s ← dmx_SetChannel cc val s;
  ola_SendDmx s.

Definition cc14 (channel cc val : Z) (s : State) : option State :=
  if 65 <? cc then Some s
  else
    let offset := wrap8 (cc mod 32) in
    let base := wrap8 (channel * 32) in
    let s := set_slot (wrap16 (offset + base)) s in
    curVal ← dmx_Get (g_slot s) s;
    if 31 <? cc then
      (* LSB *)
      let curVal := if 63 <? val then Z.lor curVal 0x01 else Z.land curVal 0xfe in
      s ← dmx_SetChannel (g_slot s) curVal s;
      ola_SendDmx s
    else
      (* MSB *)
      let curVal := Z.land curVal 0x01 in
      let curVal := wrap8 (Z.lor curVal (Z.shiftl val 1)) in
      dmx_SetChannel (g_slot s) curVal s.

(** The two parameter-selection cases, which [nrpnCC7] and [nrpnCC14] share
    word for word. *)
Definition nrpn_LSB (val : Z) (s : State) : State :=
  let s := set_nrpnParam (wrap16 (Z.lor (Z.land (g_nrpnParam s) 0x3f80) val)) s in
  let s := set_slot (g_nrpnParam s mod 512) s in
  let s := set_bufferIndex (wrap8 (g_nrpnParam s / 512)) s in
  set_universe (wrap8 (g_bufferIndex s + g_universeBase s)) s.

Definition nrpn_MSB (val : Z) (s : State) : State :=
  let s := set_nrpnParam (wrap16 (Z.lor (Z.land (g_nrpnParam s) 0x7f) (Z.shiftl val 7))) s in
  let s := set_slot (g_nrpnParam s mod 512) s in
  let s := set_bufferIndex (wrap8 (g_nrpnParam s / 512)) s in
  set_universe (wrap8 (g_bufferIndex s + g_universeBase s)) s.

(** [if (g_nrpnVal < 255) { SetChannel(g_slot, ++g_nrpnVal); SendDmx }] *)
Definition nrpn_INC (s : State) : option State :=
  if g_nrpnVal s <? 255 then
    let s := set_nrpnVal (wrap8 (g_nrpnVal s + 1)) s in
    s ← dmx_SetChannel (g_slot s) (g_nrpnVal s) s;
    ola_SendDmx s
  else Some s.

(** [if (g_nrpnVal > 0) { SetChannel(g_slot, --g_nrpnVal); SendDmx }] *)
Definition nrpn_DEC (s : State) : option State :=
  if 0 <? g_nrpnVal s then
    let s := set_nrpnVal (wrap8 (g_nrpnVal s - 1)) s in
    s ← dmx_SetChannel (g_slot s) (g_nrpnVal s) s;
    ola_SendDmx s
  else Some s.

Definition nrpnCC7 (channel cc val : Z) (s : State) : option State :=
  if cc =? MIDI_CMD_NRPN_LSB then Some (nrpn_LSB val s)
  else if cc =? MIDI_CMD_NRPN_MSB then Some (nrpn_MSB val s)
  else if cc =? MIDI_CMD_DATA_MSB then
    let s := set_nrpnVal (wrap8 (Z.shiftl val 1)) s in
    s ← dmx_SetChannel (g_slot s) (g_nrpnVal s) s;
    ola_SendDmx s
  else if cc =? MIDI_CMD_INC then nrpn_INC s
  else if cc =? MIDI_CMD_DEC then
    let s := set_slot (g_nrpnParam s mod 512) s in
    nrpn_DEC s
  else Some s.

Definition nrpnCC14 (channel cc val : Z) (s : State) : option State :=
  if cc =? MIDI_CMD_NRPN_LSB then Some (nrpn_LSB val s)
  else if cc =? MIDI_CMD_NRPN_MSB then Some (nrpn_MSB val s)
  else if cc =? MIDI_CMD_DATA_MSB then
    Some (set_nrpnVal (wrap8 (Z.lor (Z.land (g_nrpnVal s) 0x01) (Z.shiftl val 1))) s)
  else if cc =? MIDI_CMD_DATA_LSB then
    let s := if 63 <? val
             then set_nrpnVal (Z.lor (g_nrpnVal s) 0x01) s
             else set_nrpnVal (Z.land (g_nrpnVal s) 0xfe) s in
    s ← dmx_SetChannel (g_slot s) (g_nrpnVal s) s;
    ola_SendDmx s
  else if cc =? MIDI_CMD_INC then nrpn_INC s
  else if cc =? MIDI_CMD_DEC then nrpn_DEC s
  else Some s.

(** ** The real-time callback *)

(** A MIDI event as the callback reads it: the first three bytes of the
    event buffer. *)
Record MidiEvent := mkEvent {
  status : Z;
  data1 : Z;
  data2 : Z
}.

(** The resolver that the [switch (g_mode)] of the callback selects. *)
Definition resolver (m : MIDI_MODE) : Z -> Z -> Z -> State -> option State :=
  match m with
  | MIDI_MODE_CC7 => cc7
  | MIDI_MODE_CC14 => cc14
  | MIDI_MODE_NRPN7 => nrpnCC7
  | MIDI_MODE_NRPN14 => nrpnCC14
  end.

(** The body of the event loop for one event that was retrieved. *)
Definition processEvent (ev : MidiEvent) (s : State) : option State :=
  let cmd := Z.land (status ev) 0xf0 in
  if g_enableCC s && (cmd =? 0xb0) then
    let chan := Z.land (status ev) 0x0f in
    if Z.land (Z.shiftl 1 chan) (g_midiChannels s) =? 0 then Some s
    else resolver (g_mode s) chan (data1 ev) (data2 ev) s
  else if g_enableNote s && (cmd =? 0x90) then
    let chan := Z.land (status ev) 0x0f in
    if Z.land (Z.shiftl 1 chan) (g_midiChannels s) =? 0 then Some s
    else cc7 chan (data1 ev) (data2 ev) s
  else Some s.

(** One processing cycle.  The batch lists the events of the cycle in
    order; [None] is an event for which [jack_midi_event_get] reports an
    error, which the loop skips. *)
Fixpoint onJackProcess (batch : list (option MidiEvent)) (s : State) : option State :=
  match batch with
  | [] => Some s
  | None :: rest => onJackProcess rest s
  | Some ev :: rest => s' ← processEvent ev s; onJackProcess rest s'
  end.

(** A sequence of controller messages [(channel, cc, val)] handed to one
    resolver, one after the other. *)
Fixpoint feed (h : Z -> Z -> Z -> State -> option State)
         (msgs : list (Z * Z * Z)) (s : State) : option State :=
  match msgs with
  | [] => Some s
  | (channel, cc, val) :: rest => s' ← h channel cc val s; feed h rest s'
  end.

(** ** Start-up *)

(** The command-line options that configure the engine, already split by
    [getopt_long] and converted by [atoi]: [-m] with one of the four mode
    names (the search for the name is [optMode] below), [-u] with a
    number, [-c], [-n] and [-x] with a number.  Of the ways in which
    [parseCommandLine] ends the program only the one of [-x] is part of
    this type; [-V], [-j], [-v], [-h], a missing argument and an unknown
    mode name are not. *)
Inductive CliOption :=
| OptMode (m : MIDI_MODE)
| OptUniverse (u : Z)
| OptCC
| OptNote
| OptExclude (chan : Z).

(** The [-x] case of [parseCommandLine]; [None] is [exit(1)]. *)
Definition excludeChannel (chan : Z) (s : State) : option State :=
  if (chan <? 1) || (16 <? chan) then None
  else
    let mask := wrap16 (Z.shiftl 1 (chan - 1)) in
    let mask := wrap16 (Z.lnot mask) in
    Some (set_midiChannels (Z.land (g_midiChannels s) mask) s).

Definition applyOption (o : CliOption) (s : State) : option State :=
  match o with
  | OptMode m => Some (set_mode m s)
  | OptUniverse u =>
      let s := set_universe (wrap8 u) s in
      Some (set_universeBase (g_universe s) s)
  | OptCC => Some (set_enableCC true s)
  | OptNote => Some (set_enableNote true s)
  | OptExclude chan => excludeChannel chan s
  end.

Fixpoint parseCommandLine (opts : list CliOption) (s : State) : option State :=
  match opts with
  | [] => Some s
  | o :: rest => s' ← applyOption o s; parseCommandLine rest s'
  end.

(** The body of the initialisation loop of [main].  The loop variable
    [universe] does not occur in it. *)
Definition initBody (universe : Z) (s : State) : option State :=
  s ← dmx_Blackout s;
  ola_SendDmx s.

(** [for (uint8_t universe = 0; universe < MAX_MIDI_UNIVERSE; ++universe)] *)
Fixpoint initLoop (n : nat) (universe : Z) (s : State) : option State :=
  match n with
  | O => Some s
  | S n' => s' ← initBody universe s; initLoop n' (universe + 1) s'
  end.

(** [main] up to the point where the callback is registered. *)
Definition main (opts : list CliOption) : option State :=
  s ← parseCommandLine opts globals0;
  let s := if negb (g_enableNote s) && negb (g_enableCC s)
           then set_enableCC true s else s in
  initLoop (Z.to_nat MAX_MIDI_UNIVERSE) 0 s.

(** ** Console output and option arguments *)

(** The verbosity level and what was written to the two output streams so
    far.  A message is the text that [vfprintf] produces from a format and
    its arguments. *)
Record Console := mkConsole {
  g_verbose : Z;
  stdout : list string;
  stderr : list string
}.

Definition debug (msg : string) (c : Console) : Console :=
  if 2 <? g_verbose c
  then mkConsole (g_verbose c) (stdout c) (stderr c ++ [msg])
  else c.

Definition info (msg : string) (c : Console) : Console :=
  if 1 <? g_verbose c
  then mkConsole (g_verbose c) (stdout c ++ [msg]) (stderr c)
  else c.

Definition error (msg : string) (c : Console) : Console :=
  if g_verbose c =? 0
  then c
  else mkConsole (g_verbose c) (stdout c) (stderr c ++ ["ERROR: "; msg]).

(** How the handling of one option ends: the option loop goes on with a
    result, or the program leaves through [exit] with what the console
    holds by then. *)
Inductive Outcome (A : Type) :=
| Continue (a : A)
| Exit (code : Z) (c : Console).

Arguments Continue {A} a.
Arguments Exit {A} code c.

Definition newline : string := String (Ascii.ascii_of_nat 10) EmptyString.

(** The [-V] case of [parseCommandLine]; [optarg] is what [atoi] makes of
    the argument, where there is one. *)
Definition optVerbose (optarg : option Z) (c : Console) : Outcome Console :=
  match optarg with
  | Some v =>
      let c := mkConsole (wrap8 v) (stdout c) (stderr c) in
      if g_verbose c <=? 3 then Continue c
      else Exit 1 (error ("Verbose must be in range 0..3" +:+ newline) c)
  | None => Exit 1 (error ("Verbose must be in range 0..3" +:+ newline) c)
  end.

Definition modeNames : list string := ["cc7"; "cc14"; "nrpn7"; "nrpn14"].

(** The search loop of the [-m] case from index [i] on: [names] is what is
    left of [modeNames], [g_mode] the value held so far. *)
Fixpoint modeSearch (optarg : string) (names : list string) (i g_mode : Z) : Z :=
  match names with
  | [] => g_mode
  | name :: rest =>
      if String.eqb optarg name then wrap8 i
      else modeSearch optarg rest (i + 1) g_mode
  end.

(** The [-m] case of [parseCommandLine]: the new [g_mode], or the exit. *)
Definition optMode (optarg : option string) (c : Console) : Outcome Z :=
  let g_mode := wrap8 (-1) in
  let g_mode := match optarg with
                | Some a => modeSearch a modeNames 0 g_mode
                | None => g_mode
                end in
  if g_mode <=? 3 then Continue g_mode
  else Exit 1 (error ("Invalid mode. Expects: cc7, cc14, nrpn7 or nrpn14"
                      +:+ newline) c).

(** The enumeration value of a mode. *)
Definition mode_index (m : MIDI_MODE) : Z :=
  match m with
  | MIDI_MODE_CC7 => 0
  | MIDI_MODE_CC14 => 1
  | MIDI_MODE_NRPN7 => 2
  | MIDI_MODE_NRPN14 => 3
  end.

(** The loop of [main] that lists the enabled channels, from channel
    [chan] on for [n] turns: the calls of [info] it makes, each with its
    format and its argument. *)
Fixpoint channelLoop (n : nat) (chan : Z) (comma : bool) (g_midiChannels : Z)
  : list (string * Z) :=
  match n with
  | O => []
  | S n' =>
      if Z.land (Z.shiftl 1 chan) g_midiChannels =? 0
      then channelLoop n' (chan + 1) comma g_midiChannels
      else if comma
           then (", %u", chan + 1) :: channelLoop n' (chan + 1) comma g_midiChannels
           else ("%u", chan + 1) :: channelLoop n' (chan + 1) true g_midiChannels
  end.

Definition listChannels (g_midiChannels : Z) : list (string * Z) :=
  channelLoop 16 0 false g_midiChannels.

(** A comma-separated list of numbers as [info] calls. *)
Definition comma_separated (comma : bool) (l : list Z) : list (string * Z) :=
  match l with
  | [] => []
  | n :: rest =>
      ((if comma then ", %u" else "%u"), n) :: map (fun m => (", %u", m)) rest
  end.

(** The channels 1..16, from [first] on, whose bit is set in the mask. *)
Definition enabled_channels (first : Z) (n : nat) (mask : Z) : list Z :=
  List.filter (fun chan => Z.testbit mask (chan - 1)) (seqZ first (Z.of_nat n)).

(** ** States of the C++ types *)

Definition is_byte (x : Z) : bool := (0 <=? x) && (x <? 256).
Definition is_word16 (x : Z) : bool := (0 <=? x) && (x <? 65536).

Definition frame_ok (b : DmxBuffer) : bool :=
  Nat.eqb (length b) DMX_UNIVERSE_SIZE && forallb is_byte b.

(** Every global holds a value of its declared type, and the store holds
    [MAX_MIDI_UNIVERSE] frames of 512 bytes. *)
Definition well_typedb (s : State) : bool :=
  is_byte (g_universeBase s) && is_byte (g_universe s) &&
  is_byte (g_bufferIndex s) && is_word16 (g_midiChannels s) &&
  is_word16 (g_nrpnParam s) && is_byte (g_nrpnVal s) &&
  is_word16 (g_slot s) &&
  Nat.eqb (length (g_dmxBuffer s)) (Z.to_nat MAX_MIDI_UNIVERSE) &&
  forallb frame_ok (g_dmxBuffer s).

Definition well_typed (s : State) : Prop := well_typedb s = true.

Definition Frame (b : DmxBuffer) : Prop :=
  length b = DMX_UNIVERSE_SIZE /\ Forall (fun x => 0 <= x < 256) b.

Record WT (s : State) : Prop := mkWT {
  wt_universeBase : 0 <= g_universeBase s < 256;
  wt_universe : 0 <= g_universe s < 256;
  wt_bufferIndex : 0 <= g_bufferIndex s < 256;
  wt_midiChannels : 0 <= g_midiChannels s < 65536;
  wt_nrpnParam : 0 <= g_nrpnParam s < 65536;
  wt_nrpnVal : 0 <= g_nrpnVal s < 256;
  wt_slot : 0 <= g_slot s < 65536;
  wt_store : length (g_dmxBuffer s) = 32%nat;
  wt_frames : Forall Frame (g_dmxBuffer s)
}.

(** ** The addressing invariant of the NRPN modes *)

Definition nrpn_inv (s : State) : Prop :=
  g_slot s = g_nrpnParam s mod 512 /\
  g_bufferIndex s = g_nrpnParam s / 512 /\
  g_universe s = wrap8 (g_bufferIndex s + g_universeBase s).

(** The frame stored at a buffer index, and one slot of it. *)
Definition frame_at (i : Z) (s : State) : option DmxBuffer :=
  if i <? 0 then None else g_dmxBuffer s !! Z.to_nat i.

Definition slot_at (i slot : Z) (s : State) : option Z :=
  b ← frame_at i s; Get b slot.

(** The requests that reached the lighting network between two states. *)
Definition sent_since (s s' : State) (l : list (Z * DmxBuffer)) : Prop :=
  g_olaClient s' = g_olaClient s ++ l.

(** ** Vocabulary of the statements *)

(** The state after [SetChannel(slot, v)] on the current frame [b]. *)
Definition written (slot v : Z) (b : DmxBuffer) (s : State) : State :=
  set_dmxBuffer
    (<[Z.to_nat (g_bufferIndex s) := <[Z.to_nat slot := v]> b]> (g_dmxBuffer s)) s.

(** The state after [SendDmx] of the frame [b] to the current universe. *)
Definition emitted (b : DmxBuffer) (s : State) : State :=
  set_olaClient (g_olaClient s ++ [(g_universe s, b)]) s.

(** A state the program really reaches: the one [main] hands to the
    callback when it is started without options. *)
Definition started : State := default globals0 (main []).

(** The slot that [cc14] computes from channel and controller number:
    [offset] and [base] are [uint8_t], [g_slot] is [uint16_t]. *)
Definition cc14_slot (channel cc : Z) : Z :=
  wrap16 (wrap8 (cc mod 32) + wrap8 (channel * 32)).

(** What holds of the globals until the callback runs. *)
Record boot_inv (s : State) : Prop := mkBoot {
  boot_universe : g_universe s = g_universeBase s;
  boot_bufferIndex : g_bufferIndex s = 0;
  boot_nrpnParam : g_nrpnParam s = 0;
  boot_nrpnVal : g_nrpnVal s = 0;
  boot_slot : g_slot s = 0;
  boot_WT : WT s
}.

(** How many of the logged requests went to universe [u]. *)
Definition count_sent (u : Z) (log : list (Z * DmxBuffer)) : nat :=
  length (List.filter (fun r => fst r =? u) log).

(** The two modes whose resolver is parameter-addressed. *)
Definition is_nrpn (m : MIDI_MODE) : bool :=
  match m with
  | MIDI_MODE_NRPN7 | MIDI_MODE_NRPN14 => true
  | _ => false
  end.

(** The state after the pending value [v] was stored in the addressed slot
    of the current frame [b] and the frame was sent. *)
Definition stored (v : Z) (b : DmxBuffer) (s : State) : State :=
  emitted (<[Z.to_nat (g_slot s) := v]> b)
          (written (g_slot s) v b (set_nrpnVal v s)).

(** [s'] is [s] after the pending value became [v], was written to [slot]
    of the current frame, and that frame was sent to the current
    universe. *)
Definition stores (s s' : State) (slot v : Z) : Prop :=
  g_nrpnVal s' = v /\
  slot_at (g_bufferIndex s) slot s' = Some v /\
  exists b', frame_at (g_bufferIndex s) s' = Some b' /\
             sent_since s s' [(g_universe s, b')].

(** [s'] has the pending value, the frames and the log of [s]. *)
Definition untouched (s s' : State) : Prop :=
  g_nrpnVal s' = g_nrpnVal s /\
  g_dmxBuffer s' = g_dmxBuffer s /\
  g_olaClient s' = g_olaClient s.

(** A state of the NRPN modes: typed, addressed by its parameter, and the
    parameter a 14-bit number. *)
Record nrpn_ok (s : State) : Prop := mkOk {
  ok_WT : WT s;
  ok_inv : nrpn_inv s;
  ok_param : g_nrpnParam s <= 16383
}.

(** The two things a value message can do. *)
Inductive value_step (s : State) : State -> Prop :=
| step_pending v :
    0 <= v < 256 -> value_step s (set_nrpnVal v s)
| step_stored v b :
    0 <= v < 256 -> current_buffer s = Some b -> Frame b ->
    value_step s (stored v b s).

(** The 7-bit values of a message sequence. *)
Definition seven_bit (msgs : list (Z * Z * Z)) : Prop :=
  Forall (fun msg => 0 <= snd msg < 128) msgs.

(** The address that the NRPN resolvers compute from their parameter: the
    invariant and the bounds it implies.  [base] is the universe base. *)
Definition addressed (base : Z) (s : State) : Prop :=
  g_bufferIndex s = g_nrpnParam s / 512 /\
  g_slot s = g_nrpnParam s mod 512 /\
  g_universe s = wrap8 (g_bufferIndex s + base) /\
  (base + 31 <= 255 -> g_universe s = g_bufferIndex s + base) /\
  0 <= g_nrpnParam s <= 16383 /\
  0 <= g_bufferIndex s < 32 /\
  0 <= g_slot s < 512.

(** Messages that select no parameter. *)
Definition no_selection (msgs : list (Z * Z * Z)) : Prop :=
  Forall (fun msg => snd (fst msg) <> MIDI_CMD_NRPN_LSB /\
                     snd (fst msg) <> MIDI_CMD_NRPN_MSB) msgs.

(** Messages that are neither [DATA_LSB] nor [INC] nor [DEC]. *)
Definition no_outlet (msgs : list (Z * Z * Z)) : Prop :=
  Forall (fun msg => snd (fst msg) <> MIDI_CMD_DATA_LSB /\
                     snd (fst msg) <> MIDI_CMD_INC /\
                     snd (fst msg) <> MIDI_CMD_DEC) msgs.

(** The clause of the spec that [DATA_LSB] is the only outlet: once a
    [DATA_MSB] value is buffered, nothing is sent before a [DATA_LSB]
    message arrives. *)
Definition sent_at_DATA_LSB_only : Prop :=
  forall s ch val rest s',
    nrpn_ok s ->
    Forall (fun msg => snd (fst msg) <> MIDI_CMD_DATA_LSB) rest ->
    feed nrpnCC14 ((ch, MIDI_CMD_DATA_MSB, val) :: rest) s = Some s' ->
    g_olaClient s' = g_olaClient s.


(** The state [main] hands to the callback in NRPN7 mode with channel 5
    excluded. *)
Definition started_without_5 : State :=
  default globals0 (main [OptMode MIDI_MODE_NRPN7; OptExclude 5]).

(** The state [main] hands to the callback in mode [m] when the first
    universe is 250 ([-u 250]). *)
Definition started_at_250 (m : MIDI_MODE) : State :=
  default globals0 (main [OptMode m; OptUniverse 250]).

(** The addressing invariant with the universe number as the plain sum of
    buffer index and first universe, not reduced to the eight bits of the
    universe counter. *)
Definition nrpn_inv_plain (s : State) : Prop :=
  g_slot s = g_nrpnParam s mod 512 /\
  g_bufferIndex s = g_nrpnParam s / 512 /\
  g_universe s = g_bufferIndex s + g_universeBase s.

(** What the resolvers rely on without checking it: a buffer index inside
    the 32 frames, a slot inside a frame, a parameter of 14 bits. *)
Record bounded (s : State) : Prop := mkBounded {
  bd_WT : WT s;
  bd_bufferIndex : g_bufferIndex s < 32;
  bd_slot : g_slot s < 512;
  bd_param : g_nrpnParam s <= 16383
}.

(** An event whose two data bytes are MIDI data bytes. *)
Definition data_bytes (ev : MidiEvent) : Prop :=
  0 <= data1 ev < 128 /\ 0 <= data2 ev < 128.

(** ** Vocabulary of the further properties *)

(** The callback over several processing cycles, one batch of events for
    each. *)
Fixpoint cycles (batches : list (list (option MidiEvent))) (s : State)
  : option State :=
  match batches with
  | [] => Some s
  | batch :: rest => s' ← onJackProcess batch s; cycles rest s'
  end.

(** A batch whose events, where they could be retrieved, carry MIDI data
    bytes. *)
Definition midi_batch (batch : list (option MidiEvent)) : Prop :=
  Forall (fun e => match e with
                   | Some ev => data_bytes ev
                   | None => True
                   end) batch.

(** The part of the globals that start-up fixes. *)
Definition same_config (s s' : State) : Prop :=
  g_mode s' = g_mode s /\
  g_universeBase s' = g_universeBase s /\
  g_midiChannels s' = g_midiChannels s /\
  g_enableCC s' = g_enableCC s /\
  g_enableNote s' = g_enableNote s.

(** Everything but the log of requests. *)
Definition same_but_log (s s' : State) : Prop :=
  same_config s s' /\
  g_universe s' = g_universe s /\
  g_bufferIndex s' = g_bufferIndex s /\
  g_nrpnParam s' = g_nrpnParam s /\
  g_nrpnVal s' = g_nrpnVal s /\
  g_slot s' = g_slot s /\
  g_dmxBuffer s' = g_dmxBuffer s.

(** The three assignments that follow a parameter selection, for the new
    parameter [p]. *)
Definition readdress (p : Z) (s : State) : State :=
  let s := set_nrpnParam p s in
  let s := set_slot (g_nrpnParam s mod 512) s in
  let s := set_bufferIndex (wrap8 (g_nrpnParam s / 512)) s in
  set_universe (wrap8 (g_bufferIndex s + g_universeBase s)) s.

(** The addressed slot holds the pending value. *)
Definition slot_is_pending (s : State) : Prop :=
  slot_at (g_bufferIndex s) (g_slot s) s = Some (g_nrpnVal s).

(** Options that are no [-u]; options that are no [-m]. *)
Definition no_universe_option (opts : list CliOption) : Prop :=
  Forall (fun o => match o with OptUniverse _ => False | _ => True end) opts.

Definition no_mode_option (opts : list CliOption) : Prop :=
  Forall (fun o => match o with OptMode _ => False | _ => True end) opts.

(** * Properties *)

(** ** Arithmetic of the bit operations *)

Lemma is_byte_spec x : is_byte x = true <-> 0 <= x < 256.
Proof. unfold is_byte. rewrite andb_true_iff, Z.leb_le, Z.ltb_lt. tauto. Qed.

Lemma is_word16_spec x : is_word16 x = true <-> 0 <= x < 65536.
Proof. unfold is_word16. rewrite andb_true_iff, Z.leb_le, Z.ltb_lt. tauto. Qed.

Lemma wrap8_small x : 0 <= x < 256 -> wrap8 x = x.
Proof. intros. unfold wrap8. apply Z.mod_small. lia. Qed.

Lemma wrap16_small x : 0 <= x < 65536 -> wrap16 x = x.
Proof. intros. unfold wrap16. apply Z.mod_small. lia. Qed.

Lemma wrap8_range x : 0 <= wrap8 x < 256.
Proof. unfold wrap8. apply Z.mod_pos_bound. lia. Qed.

Lemma wrap16_range x : 0 <= wrap16 x < 65536.
Proof. unfold wrap16. apply Z.mod_pos_bound. lia. Qed.

Lemma shiftl1_double x : Z.shiftl x 1 = 2 * x.
Proof. rewrite Z.shiftl_mul_pow2 by lia. change (2 ^ 1) with 2. lia. Qed.

Lemma shiftl7_mul x : Z.shiftl x 7 = 128 * x.
Proof. rewrite Z.shiftl_mul_pow2 by lia. change (2 ^ 7) with 128. lia. Qed.

(** A bitwise or of two numbers without a common bit is their sum. *)
Lemma lor_disjoint_add a b : Z.land a b = 0 -> Z.lor a b = a + b.
Proof.
  intros H. rewrite <- Z.lxor_lor by exact H.
  symmetry. apply Z.add_nocarry_lxor. exact H.
Qed.

Lemma land_0x7f a : Z.land a 0x7f = a mod 128.
Proof. change 0x7f with (Z.ones 7). rewrite Z.land_ones by lia. reflexivity. Qed.

Lemma land_1 a : Z.land a 1 = a mod 2.
Proof. change 1 with (Z.ones 1) at 1. rewrite Z.land_ones by lia. reflexivity. Qed.

(** Masking with [0x3f80] keeps bits 7 to 13. *)
Lemma land_0x3f80 a : Z.land a 0x3f80 = 128 * ((a / 128) mod 128).
Proof.
  change 0x3f80 with (Z.shiftl (Z.ones 7) 7).
  change 128 with (2 ^ 7).
  rewrite <- Z.land_ones, <- Z.shiftr_div_pow2 by lia.
  rewrite Z.mul_comm, <- Z.shiftl_mul_pow2 by lia.
  apply Z.bits_inj'. intros n Hn.
  rewrite Z.land_spec.
  destruct (Z.lt_ge_cases n 7) as [Hlt | Hge].
  - rewrite !Z.shiftl_spec_low by lia. apply andb_false_r.
  - rewrite !Z.shiftl_spec by lia.
    rewrite Z.land_spec, Z.shiftr_spec by lia.
    replace (n - 7 + 7) with n by lia. reflexivity.
Qed.

Lemma byte_high_bits a n : 0 <= a < 256 -> 8 <= n -> Z.testbit a n = false.
Proof.
  intros Ha Hn.
  destruct (Z.eq_dec a 0) as [-> | Ha0]; [apply Z.testbit_0_l |].
  apply Z.bits_above_log2; [lia |].
  apply Z.lt_le_trans with 8; [| exact Hn].
  apply Z.log2_lt_pow2; [lia |]. change (2 ^ 8) with 256. lia.
Qed.

(** Masking with [0xfe] clears bit 0 of a byte and keeps its other bits. *)
Lemma land_0xfe a : 0 <= a < 256 -> Z.land a 0xfe = 2 * (a / 2).
Proof.
  intros Ha. apply Z.bits_inj'. intros n Hn.
  rewrite Z.land_spec.
  destruct (Z.eq_dec n 0) as [-> | Hne].
  - rewrite Z.testbit_even_0. apply andb_false_r.
  - replace n with (Z.succ (n - 1)) at 3 by lia.
    rewrite Z.testbit_even_succ by lia.
    rewrite Z.div2_bits by lia.
    replace (Z.succ (n - 1)) with n by lia.
    destruct (Z.lt_ge_cases n 8) as [Hlt | Hge].
    + assert (n = 1 \/ n = 2 \/ n = 3 \/ n = 4 \/ n = 5 \/ n = 6 \/ n = 7)
        as Hcases by lia.
      destruct Hcases as [-> | [-> | [-> | [-> | [-> | [-> | ->]]]]]];
        apply andb_true_r.
    + rewrite (byte_high_bits a n) by lia. reflexivity.
Qed.

(** Or-ing with [0x01] sets bit 0 and keeps the other bits. *)
Lemma lor_0x01 a : Z.lor a 0x01 = 2 * (a / 2) + 1.
Proof.
  apply Z.bits_inj'. intros n Hn.
  rewrite Z.lor_spec.
  destruct (Z.eq_dec n 0) as [-> | Hne].
  - rewrite Z.testbit_odd_0. apply orb_true_r.
  - replace n with (Z.succ (n - 1)) at 3 by lia.
    rewrite Z.testbit_odd_succ by lia.
    rewrite Z.div2_bits by lia.
    replace (Z.succ (n - 1)) with n by lia.
    replace n with (Z.succ (n - 1)) at 2 by lia.
    change 1 with (2 * 0 + 1) at 1.
    rewrite Z.testbit_odd_succ by lia.
    rewrite Z.testbit_0_l. apply orb_false_r.
Qed.

(** ** Typing *)

Lemma frame_ok_Frame b : frame_ok b = true <-> Frame b.
Proof.
  unfold frame_ok, Frame.
  rewrite andb_true_iff, Nat.eqb_eq, forallb_forall, List.Forall_forall.
  split; intros [Hl Hb]; (split; [exact Hl |]); intros x Hx;
    apply is_byte_spec; auto.
Qed.

Lemma well_typed_WT s : well_typed s <-> WT s.
Proof.
  unfold well_typed, well_typedb.
  rewrite !andb_true_iff, !is_byte_spec, !is_word16_spec, Nat.eqb_eq.
  rewrite forallb_forall.
  split.
  - intros [[[[[[[[H1 H2] H3] H4] H5] H6] H7] H8] H9].
    constructor; try assumption.
    apply List.Forall_forall. intros b Hb. apply frame_ok_Frame. auto.
  - intros [H1 H2 H3 H4 H5 H6 H7 H8 H9].
    repeat split; try lia; try exact H8.
    intros b Hb. apply frame_ok_Frame.
    rewrite List.Forall_forall in H9. auto.
Qed.

(** ** The frame operations inside their bounds *)

Lemma Frame_Get b slot :
  Frame b -> 0 <= slot < 512 -> exists x, Get b slot = Some x /\ 0 <= x < 256.
Proof.
  intros [Hl Hb] Hs. unfold Get.
  destruct (Z.ltb_spec slot 0) as [? | _]; [lia |].
  destruct (lookup_lt_is_Some_2 b (Z.to_nat slot)) as [x Hx].
  { rewrite Hl. unfold DMX_UNIVERSE_SIZE. lia. }
  exists x. split; [exact Hx |].
  exact (Forall_lookup_1 _ _ _ _ Hb Hx).
Qed.

Lemma Frame_SetChannel b slot v :
  Frame b -> 0 <= slot < 512 ->
  SetChannel b slot v = Some (<[Z.to_nat slot := v]> b).
Proof.
  intros [Hl _] Hs. unfold SetChannel. rewrite Hl.
  destruct (Z.leb_spec 0 slot) as [_ | ?]; [| lia].
  destruct (Z.ltb_spec slot (Z.of_nat DMX_UNIVERSE_SIZE)) as [_ | H]; [reflexivity |].
  unfold DMX_UNIVERSE_SIZE in H. lia.
Qed.

Lemma Frame_insert b slot v :
  Frame b -> 0 <= v < 256 -> Frame (<[Z.to_nat slot := v]> b).
Proof.
  intros [Hl Hb] Hv. split.
  - rewrite length_insert. exact Hl.
  - apply Forall_insert; assumption.
Qed.

(** Round trip of the store: a slot that was written reads back the value,
    and the other slots keep theirs. *)
Lemma Get_insert_eq b slot v :
  Frame b -> 0 <= slot < 512 -> Get (<[Z.to_nat slot := v]> b) slot = Some v.
Proof.
  intros [Hl _] Hs. unfold Get.
  destruct (Z.ltb_spec slot 0) as [? | _]; [lia |].
  apply list_lookup_insert_eq. rewrite Hl. unfold DMX_UNIVERSE_SIZE. lia.
Qed.

Lemma Get_insert_ne b slot slot' v :
  0 <= slot -> 0 <= slot' -> slot <> slot' ->
  Get (<[Z.to_nat slot := v]> b) slot' = Get b slot'.
Proof.
  intros Hs Hs' Hne. unfold Get.
  destruct (Z.ltb_spec slot' 0) as [? | _]; [lia |].
  apply list_lookup_insert_ne. lia.
Qed.

Lemma Frame_Blackout b : Frame (Blackout b).
Proof.
  split.
  - apply length_replicate.
  - apply Forall_replicate. lia.
Qed.

(** ** The current frame of a well-typed state *)

Lemma current_buffer_Frame s :
  WT s -> g_bufferIndex s < 32 ->
  exists b, current_buffer s = Some b /\ Frame b.
Proof.
  intros Hwt Hbi. unfold current_buffer.
  pose proof (wt_bufferIndex s Hwt) as Hr.
  destruct (Z.ltb_spec (g_bufferIndex s) 0) as [? | _]; [lia |].
  destruct (lookup_lt_is_Some_2 (g_dmxBuffer s) (Z.to_nat (g_bufferIndex s)))
    as [b Hb].
  { rewrite (wt_store s Hwt). lia. }
  exists b. split; [exact Hb |].
  exact (Forall_lookup_1 _ _ _ _ (wt_frames s Hwt) Hb).
Qed.

Lemma current_buffer_frame_at s :
  current_buffer s = frame_at (g_bufferIndex s) s.
Proof. reflexivity. Qed.

Lemma dmx_SetChannel_written s b slot v :
  current_buffer s = Some b -> Frame b -> 0 <= slot < 512 ->
  dmx_SetChannel slot v s = Some (written slot v b s).
Proof.
  intros Hb Hf Hs. unfold dmx_SetChannel. rewrite Hb. simpl.
  rewrite (Frame_SetChannel b slot v Hf Hs). reflexivity.
Qed.

Lemma current_buffer_written s b slot v :
  current_buffer s = Some b ->
  current_buffer (written slot v b s) = Some (<[Z.to_nat slot := v]> b).
Proof.
  unfold current_buffer, written. destruct s; simpl.
  destruct (g_bufferIndex0 <? 0); [discriminate |].
  intros Hb. apply list_lookup_insert_eq.
  apply lookup_lt_is_Some. eauto.
Qed.

Lemma ola_SendDmx_emitted s b :
  current_buffer s = Some b -> ola_SendDmx s = Some (emitted b s).
Proof. intros Hb. unfold ola_SendDmx. rewrite Hb. reflexivity. Qed.

(** [SetChannel] followed by [SendDmx], as the resolvers chain them. *)
Lemma write_and_send s b slot v :
  current_buffer s = Some b -> Frame b -> 0 <= slot < 512 ->
  (s' ← dmx_SetChannel slot v s; ola_SendDmx s') =
  Some (emitted (<[Z.to_nat slot := v]> b) (written slot v b s)).
Proof.
  intros Hb Hf Hs.
  rewrite (dmx_SetChannel_written s b slot v Hb Hf Hs). simpl.
  apply ola_SendDmx_emitted. apply current_buffer_written. exact Hb.
Qed.

Lemma WT_written s b slot v :
  WT s -> Frame b -> 0 <= v < 256 -> WT (written slot v b s).
Proof.
  intros [H1 H2 H3 H4 H5 H6 H7 H8 H9] Hf Hv.
  destruct s; constructor; simpl in *; try assumption.
  - rewrite length_insert. exact H8.
  - apply Forall_insert; [exact H9 |]. apply Frame_insert; assumption.
Qed.

Lemma WT_emitted s b : WT s -> WT (emitted b s).
Proof. intros []. destruct s; constructor; assumption. Qed.

Lemma frame_at_written_ne s b slot v i :
  0 <= g_bufferIndex s -> i <> g_bufferIndex s ->
  frame_at i (written slot v b s) = frame_at i s.
Proof.
  intros H0 Hne. unfold frame_at, written. destruct s; simpl in *.
  destruct (i <? 0) eqn:Hi; [reflexivity |].
  apply Z.ltb_ge in Hi.
  apply list_lookup_insert_ne. lia.
Qed.

(** ** CC7 *)

(** The state that [cc7] reaches, written out. *)
Lemma cc7_run s channel cc val b :
  0 <= channel -> frame_at channel s = Some b -> Frame b -> 0 <= cc < 512 ->
  cc7 channel cc val s =
  Some (emitted (<[Z.to_nat cc := wrap8 (Z.shiftl val 1)]> b)
         (written cc (wrap8 (Z.shiftl val 1)) b
           (set_bufferIndex channel
             (set_universe (wrap8 (channel + g_universeBase s)) s)))).
Proof.
  intros Hc Hb Hf Hcc. unfold cc7.
  apply write_and_send; [| exact Hf | exact Hcc].
  destruct s; exact Hb.
Qed.

Lemma frame_at_Frame s i :
  WT s -> 0 <= i < 32 -> exists b, frame_at i s = Some b /\ Frame b.
Proof.
  intros Hwt Hi. unfold frame_at.
  destruct (Z.ltb_spec i 0) as [? | _]; [lia |].
  destruct (lookup_lt_is_Some_2 (g_dmxBuffer s) (Z.to_nat i)) as [b Hb].
  { rewrite (wt_store s Hwt). lia. }
  exists b. split; [exact Hb |].
  exact (Forall_lookup_1 _ _ _ _ (wt_frames s Hwt) Hb).
Qed.

(** A Note-On event on an enabled channel goes to [cc7], whatever the
    mode. *)
Lemma processEvent_note s chan note velocity :
  0 <= chan < 16 ->
  g_enableNote s = true ->
  Z.land (Z.shiftl 1 chan) (g_midiChannels s) <> 0 ->
  processEvent (mkEvent (0x90 + chan) note velocity) s = cc7 chan note velocity s.
Proof.
  intros Hc Hn Hm. unfold processEvent. simpl status. simpl data1. simpl data2.
  assert (Z.land (144 + chan) 0xf0 = 0x90 /\ Z.land (144 + chan) 0x0f = chan)
    as [-> ->].
  { assert (chan = 0 \/ chan = 1 \/ chan = 2 \/ chan = 3 \/ chan = 4 \/ chan = 5 \/
            chan = 6 \/ chan = 7 \/ chan = 8 \/ chan = 9 \/ chan = 10 \/
            chan = 11 \/ chan = 12 \/ chan = 13 \/ chan = 14 \/ chan = 15)
      as Hcases by lia.
    repeat (destruct Hcases as [-> | Hcases]; [split; reflexivity |]).
    subst chan. split; reflexivity. }
  rewrite Hn.
  change (144 =? 176) with false. rewrite andb_false_r.
  change (144 =? 144) with true. simpl andb.
  destruct (Z.eqb_spec (Z.land (Z.shiftl 1 chan) (g_midiChannels s)) 0);
    [contradiction | reflexivity].
Qed.

(** The test [((1 << chan) & g_midiChannels) == 0] of the callback reads
    bit [chan] of the enable mask. *)
Lemma mask_test chan m :
  0 <= chan -> (Z.land (Z.shiftl 1 chan) m =? 0) = negb (Z.testbit m chan).
Proof.
  intros Hc.
  assert (Hbit : forall n, 0 <= n ->
            Z.testbit (Z.shiftl 1 chan) n = (n =? chan)).
  { intros n Hn. rewrite Z.shiftl_spec by exact Hn.
    destruct (Z.eqb_spec n chan) as [-> | Hne].
    - rewrite Z.sub_diag. reflexivity.
    - destruct (Z.lt_ge_cases n chan).
      + apply Z.testbit_neg_r. lia.
      + replace (n - chan) with (Z.succ (n - chan - 1)) by lia.
        change 1 with (2 * 0 + 1).
        rewrite Z.testbit_odd_succ by lia. apply Z.testbit_0_l. }
  destruct (Z.testbit m chan) eqn:Hm; simpl.
  - apply Z.eqb_neq. intros H0.
    assert (Z.testbit (Z.land (Z.shiftl 1 chan) m) chan = true) as Ht.
    { rewrite Z.land_spec, Hbit, Z.eqb_refl, Hm by exact Hc. reflexivity. }
    rewrite H0, Z.testbit_0_l in Ht. discriminate.
  - apply Z.eqb_eq. apply Z.bits_inj'. intros n Hn.
    rewrite Z.land_spec, Hbit, Z.testbit_0_l by exact Hn.
    destruct (Z.eqb_spec n chan) as [-> | _]; [| reflexivity].
    rewrite Hm. reflexivity.
Qed.

Lemma slot_at_frame i slot s b :
  frame_at i s = Some b -> slot_at i slot s = Get b slot.
Proof. intros H. unfold slot_at. rewrite H. reflexivity. Qed.

(** X23.  A CC7 message on channel [c] with controller [k] and value [v]
    (all inside their MIDI ranges) writes the byte [2 * v], which lies in
    0..254, to slot [k] of the frame at buffer index [c], leaves every
    other slot and frame as it was, and emits that full frame at once to
    universe [(c + universeBase) mod 256], the sum in the [uint8_t]
    universe counter; this is [c + universeBase] whenever that number does
    not exceed 255.  A Note-On event that the callback dispatches with
    note number [k] and velocity [v] does the same. *)
Theorem cc7_writes_and_emits s c k v :
  well_typed s -> 0 <= c < 16 -> 0 <= k < 128 -> 0 <= v < 128 ->
  exists b s',
    frame_at c s = Some b /\
    cc7 c k v s = Some s' /\
    0 <= 2 * v <= 254 /\
    g_bufferIndex s' = c /\
    g_universe s' = wrap8 (c + g_universeBase s) /\
    (c + g_universeBase s <= 255 -> g_universe s' = c + g_universeBase s) /\
    frame_at c s' = Some (<[Z.to_nat k := 2 * v]> b) /\
    slot_at c k s' = Some (2 * v) /\
    (forall k', 0 <= k' -> k' <> k -> slot_at c k' s' = slot_at c k' s) /\
    (forall i, i <> c -> frame_at i s' = frame_at i s) /\
    sent_since s s' [(g_universe s', <[Z.to_nat k := 2 * v]> b)] /\
    (g_enableNote s = true -> Z.testbit (g_midiChannels s) c = true ->
     processEvent (mkEvent (0x90 + c) k v) s = Some s').
Proof.
  intros Hwt%well_typed_WT Hc Hk Hv.
  destruct (frame_at_Frame s c Hwt ltac:(lia)) as (b & Hb & Hf).
  assert (Hval : wrap8 (Z.shiftl v 1) = 2 * v).
  { rewrite shiftl1_double. apply wrap8_small. lia. }
  pose proof (cc7_run s c k v b ltac:(lia) Hb Hf ltac:(lia)) as Hrun.
  rewrite Hval in Hrun.
  pose proof (wt_universeBase s Hwt) as Hbase.
  eexists b, _. split; [exact Hb |]. split; [exact Hrun |].
  assert (Hat : frame_at c
            (emitted (<[Z.to_nat k := 2 * v]> b)
              (written k (2 * v) b
                (set_bufferIndex c
                  (set_universe (wrap8 (c + g_universeBase s)) s)))) =
          Some (<[Z.to_nat k := 2 * v]> b)).
  { unfold frame_at in *. destruct s; simpl in *.
    destruct (c <? 0); [discriminate |].
    apply list_lookup_insert_eq. apply lookup_lt_is_Some. eauto. }
  split; [lia |].
  split; [destruct s; reflexivity |].
  split; [destruct s; reflexivity |].
  split.
  { intros Hsum. destruct s; simpl in *. apply wrap8_small. lia. }
  split; [exact Hat |].
  split.
  { rewrite (slot_at_frame _ _ _ _ Hat). apply Get_insert_eq; [exact Hf | lia]. }
  split.
  { intros k' Hk' Hne.
    rewrite (slot_at_frame _ _ _ _ Hat), (slot_at_frame _ _ _ _ Hb).
    apply Get_insert_ne; lia. }
  split.
  { intros i Hi. unfold frame_at. destruct s; simpl.
    destruct (Z.ltb_spec i 0); [reflexivity |].
    apply list_lookup_insert_ne. lia. }
  split; [unfold sent_since; destruct s; reflexivity |].
  intros Hnote Hbit. rewrite <- Hrun.
  apply processEvent_note; [lia | exact Hnote |].
  intros H0. apply Z.eqb_eq in H0.
  rewrite mask_test, Hbit in H0 by lia. discriminate.
Qed.

Lemma cc7_writes_and_emits_witness :
  well_typed started /\
  exists s', cc7 3 10 64 started = Some s' /\
             slot_at 3 10 s' = Some 128 /\
             g_universe s' = 4.
Proof.
  split; [vm_compute; reflexivity |].
  destruct (cc7_writes_and_emits started 3 10 64)
    as (b & s' & _ & Hrun & _ & _ & Hu & _ & _ & Hslot & _);
    [vm_compute; reflexivity | lia | lia | lia |].
  exists s'. split; [exact Hrun |]. split; [exact Hslot |]. exact Hu.
Defined.

(** C2.  Started with [-u 250] in CC7 mode, the Control-Change message
    with controller 0 and value 100 on channel 15 (status [0xbf]) writes
    200 to slot 0 of frame 15 and emits that frame at once, but to
    universe 9 and not to universe 15 + 250 = 265: the sum is taken in the
    [uint8_t] universe counter.  On channel 6 the frame goes to
    universe 0. *)
Theorem cc7_universe_wraps_at_250 :
  main [OptMode MIDI_MODE_CC7; OptUniverse 250] =
    Some (started_at_250 MIDI_MODE_CC7) /\
  g_universeBase (started_at_250 MIDI_MODE_CC7) = 250 /\
  (exists s',
     processEvent (mkEvent 0xbf 0 100) (started_at_250 MIDI_MODE_CC7) = Some s' /\
     cc7 15 0 100 (started_at_250 MIDI_MODE_CC7) = Some s' /\
     slot_at 15 0 s' = Some 200 /\
     15 + g_universeBase (started_at_250 MIDI_MODE_CC7) = 265 /\
     g_universe s' = 9 /\
     sent_since (started_at_250 MIDI_MODE_CC7) s'
       [(9, <[0%nat := 200]> (replicate DMX_UNIVERSE_SIZE 0))]) /\
  (exists s',
     processEvent (mkEvent 0xb6 0 100) (started_at_250 MIDI_MODE_CC7) = Some s' /\
     cc7 6 0 100 (started_at_250 MIDI_MODE_CC7) = Some s' /\
     slot_at 6 0 s' = Some 200 /\
     6 + g_universeBase (started_at_250 MIDI_MODE_CC7) = 256 /\
     g_universe s' = 0 /\
     sent_since (started_at_250 MIDI_MODE_CC7) s'
       [(0, <[0%nat := 200]> (replicate DMX_UNIVERSE_SIZE 0))]).
Proof.
  split; [vm_compute; reflexivity |].
  split; [vm_compute; reflexivity |].
  split; eexists; (split; [vm_compute; reflexivity |]);
    repeat split; vm_compute; reflexivity.
Qed.


(** ** CC14 *)

Lemma cc14_slot_value channel cc :
  0 <= channel -> 0 <= cc ->
  cc14_slot channel cc = cc mod 32 + (channel * 32) mod 256.
Proof.
  intros Hc Hk. unfold cc14_slot, wrap8, wrap16.
  pose proof (Z.mod_pos_bound cc 32 ltac:(lia)).
  pose proof (Z.mod_pos_bound (channel * 32) 256 ltac:(lia)).
  rewrite (Z.mod_small (cc mod 32) 256) by lia.
  apply Z.mod_small. lia.
Qed.

Lemma cc14_slot_range channel cc :
  0 <= channel -> 0 <= cc -> 0 <= cc14_slot channel cc < 512.
Proof.
  intros Hc Hk. rewrite cc14_slot_value by assumption.
  pose proof (Z.mod_pos_bound cc 32 ltac:(lia)).
  pose proof (Z.mod_pos_bound (channel * 32) 256 ltac:(lia)).
  lia.
Qed.

Lemma current_buffer_set_slot v s :
  current_buffer (set_slot v s) = current_buffer s.
Proof. destruct s; reflexivity. Qed.

Lemma cc14_ignored channel cc val s :
  65 < cc -> cc14 channel cc val s = Some s.
Proof.
  intros H. unfold cc14.
  destruct (Z.ltb_spec 65 cc); [reflexivity | lia].
Qed.

(** The most-significant phase: the slot is rebuilt, nothing is sent. *)
Lemma cc14_msb_run s channel cc val b old :
  cc <= 31 ->
  current_buffer s = Some b -> Frame b ->
  0 <= cc14_slot channel cc < 512 ->
  Get b (cc14_slot channel cc) = Some old ->
  cc14 channel cc val s =
  Some (written (cc14_slot channel cc)
          (wrap8 (Z.lor (Z.land old 0x01) (Z.shiftl val 1))) b
          (set_slot (cc14_slot channel cc) s)).
Proof.
  intros Hcc Hb Hf Hs Hold. unfold cc14.
  destruct (Z.ltb_spec 65 cc); [lia |].
  fold (cc14_slot channel cc).
  unfold dmx_Get. rewrite current_buffer_set_slot, Hb. simpl.
  replace (g_slot (set_slot (cc14_slot channel cc) s))
    with (cc14_slot channel cc) by (destruct s; reflexivity).
  rewrite Hold. simpl.
  destruct (Z.ltb_spec 31 cc); [lia |].
  apply dmx_SetChannel_written; [| exact Hf | exact Hs].
  rewrite current_buffer_set_slot. exact Hb.
Qed.

(** The least-significant phase: bit 0 follows the value, the frame is
    sent. *)
Lemma cc14_lsb_run s channel cc val b old :
  31 < cc <= 65 ->
  current_buffer s = Some b -> Frame b ->
  0 <= cc14_slot channel cc < 512 ->
  Get b (cc14_slot channel cc) = Some old ->
  cc14 channel cc val s =
  Some (emitted
          (<[Z.to_nat (cc14_slot channel cc) :=
               if 63 <? val then Z.lor old 0x01 else Z.land old 0xfe]> b)
          (written (cc14_slot channel cc)
             (if 63 <? val then Z.lor old 0x01 else Z.land old 0xfe) b
             (set_slot (cc14_slot channel cc) s))).
Proof.
  intros Hcc Hb Hf Hs Hold. unfold cc14.
  destruct (Z.ltb_spec 65 cc); [lia |].
  fold (cc14_slot channel cc).
  unfold dmx_Get. rewrite current_buffer_set_slot, Hb. simpl.
  replace (g_slot (set_slot (cc14_slot channel cc) s))
    with (cc14_slot channel cc) by (destruct s; reflexivity).
  rewrite Hold. simpl.
  destruct (Z.ltb_spec 31 cc); [| lia].
  apply write_and_send; [| exact Hf | exact Hs].
  rewrite current_buffer_set_slot. exact Hb.
Qed.

(** The byte that the most-significant phase stores. *)
Lemma msb_byte old val :
  0 <= old < 256 -> 0 <= val < 128 ->
  wrap8 (Z.lor (Z.land old 0x01) (Z.shiftl val 1)) =
  Z.lor (Z.land old 0x01) (Z.shiftl val 1) /\
  Z.lor (Z.land old 0x01) (Z.shiftl val 1) = old mod 2 + 2 * val.
Proof.
  intros Ho Hv. rewrite land_1, shiftl1_double.
  assert (Hsum : Z.lor (old mod 2) (2 * val) = old mod 2 + 2 * val).
  { apply lor_disjoint_add.
    pose proof (Z.mod_pos_bound old 2 ltac:(lia)).
    assert (old mod 2 = 0 \/ old mod 2 = 1) as [-> | ->] by lia.
    - apply Z.land_0_l.
    - rewrite Z.land_comm, land_1, Z.mul_comm. apply Z.mod_mul. lia. }
  rewrite Hsum. split; [| reflexivity].
  apply wrap8_small. pose proof (Z.mod_pos_bound old 2 ltac:(lia)). lia.
Qed.

(** The byte that the least-significant phase stores. *)
Lemma lsb_byte old val :
  0 <= old < 256 ->
  (if 63 <? val then Z.lor old 0x01 else Z.land old 0xfe) =
  2 * (old / 2) + (if 63 <? val then 1 else 0).
Proof.
  intros Ho. destruct (63 <? val).
  - apply lor_0x01.
  - rewrite land_0xfe by exact Ho. lia.
Qed.

Lemma lsb_byte_range old val :
  0 <= old < 256 ->
  0 <= (if 63 <? val then Z.lor old 0x01 else Z.land old 0xfe) < 256.
Proof.
  intros Ho. rewrite lsb_byte by exact Ho.
  pose proof (Z.div_mod old 2 ltac:(lia)).
  pose proof (Z.mod_pos_bound old 2 ltac:(lia)).
  destruct (63 <? val); lia.
Qed.

Lemma frame_at_written s b slot v :
  current_buffer s = Some b ->
  frame_at (g_bufferIndex s) (written slot v b s) = Some (<[Z.to_nat slot := v]> b).
Proof. intros Hb. rewrite <- (current_buffer_written s b slot v Hb). reflexivity. Qed.

Lemma frame_at_emitted i b s : frame_at i (emitted b s) = frame_at i s.
Proof. destruct s; reflexivity. Qed.

(** C4.  In CC14 mode, from a state of the program whose buffer index
    is valid: a controller number 0..31 stores
    [(existing bit 0) | (value << 1)] in the target slot and sends nothing;
    a controller number 32..65 sets bit 0 of the target slot when the value
    exceeds 63 and clears it otherwise, keeping the other bits, and then
    sends the full frame; a controller number above 65 changes nothing.
    Controller 5 with value 100 followed by controller 37 with value 80 on
    channel 0 leaves slot 5 at 201, and only the second message sends. *)
Theorem cc14_two_phase s :
  well_typed s -> g_bufferIndex s < 32 ->
  (forall c k v, 0 <= c < 16 -> 0 <= k < 128 -> 0 <= v < 128 ->
     exists b old,
       current_buffer s = Some b /\
       Get b (cc14_slot c k) = Some old /\
       (k <= 31 ->
        exists s', cc14 c k v s = Some s' /\
          frame_at (g_bufferIndex s) s' =
            Some (<[Z.to_nat (cc14_slot c k) :=
                      Z.lor (Z.land old 0x01) (Z.shiftl v 1)]> b) /\
          slot_at (g_bufferIndex s) (cc14_slot c k) s' =
            Some (Z.lor (Z.land old 0x01) (Z.shiftl v 1)) /\
          sent_since s s' []) /\
       (32 <= k <= 65 ->
        exists s' new, cc14 c k v s = Some s' /\
          new = (if 63 <? v then Z.lor old 0x01 else Z.land old 0xfe) /\
          new = 2 * (old / 2) + (if 63 <? v then 1 else 0) /\
          frame_at (g_bufferIndex s) s' =
            Some (<[Z.to_nat (cc14_slot c k) := new]> b) /\
          slot_at (g_bufferIndex s) (cc14_slot c k) s' = Some new /\
          sent_since s s'
            [(g_universe s, <[Z.to_nat (cc14_slot c k) := new]> b)]) /\
       (65 < k -> cc14 c k v s = Some s)) /\
  (exists s1 s2 b2,
     cc14 0 5 100 s = Some s1 /\
     cc14 0 37 80 s1 = Some s2 /\
     sent_since s s1 [] /\
     frame_at (g_bufferIndex s) s2 = Some b2 /\
     Get b2 5 = Some 201 /\
     slot_at (g_bufferIndex s) 5 s2 = Some 201 /\
     sent_since s1 s2 [(g_universe s, b2)]).
Proof.
  intros Hwt%well_typed_WT Hbi.
  destruct (current_buffer_Frame s Hwt Hbi) as (b & Hb & Hf).
  split.
  - intros c k v Hc Hk Hv.
    pose proof (cc14_slot_range c k ltac:(lia) ltac:(lia)) as Hs.
    destruct (Frame_Get b (cc14_slot c k) Hf Hs) as (old & Hold & Hbyte).
    exists b, old. split; [exact Hb |]. split; [exact Hold |].
    split; [| split].
    + intros Hmsb.
      pose proof (cc14_msb_run s c k v b old Hmsb Hb Hf Hs Hold) as Hrun.
      destruct (msb_byte old v Hbyte Hv) as [Hw _]. rewrite Hw in Hrun.
      eexists. split; [exact Hrun |].
      assert (Hat : frame_at (g_bufferIndex s)
                (written (cc14_slot c k) (Z.lor (Z.land old 1) (Z.shiftl v 1)) b
                   (set_slot (cc14_slot c k) s)) =
              Some (<[Z.to_nat (cc14_slot c k) :=
                        Z.lor (Z.land old 1) (Z.shiftl v 1)]> b)).
      { apply (frame_at_written (set_slot (cc14_slot c k) s)).
        rewrite current_buffer_set_slot. exact Hb. }
      split; [exact Hat |].
      split; [rewrite (slot_at_frame _ _ _ _ Hat);
              apply Get_insert_eq; assumption |].
      unfold sent_since. destruct s; simpl. symmetry. apply app_nil_r.
    + intros Hlsb.
      pose proof (cc14_lsb_run s c k v b old ltac:(lia) Hb Hf Hs Hold) as Hrun.
      eexists. exists (if 63 <? v then Z.lor old 1 else Z.land old 254).
      split; [exact Hrun |]. split; [reflexivity |].
      split; [apply lsb_byte; exact Hbyte |].
      assert (Hat : frame_at (g_bufferIndex s)
                (emitted
                   (<[Z.to_nat (cc14_slot c k) :=
                        if 63 <? v then Z.lor old 1 else Z.land old 254]> b)
                   (written (cc14_slot c k)
                      (if 63 <? v then Z.lor old 1 else Z.land old 254) b
                      (set_slot (cc14_slot c k) s))) =
              Some (<[Z.to_nat (cc14_slot c k) :=
                        if 63 <? v then Z.lor old 1 else Z.land old 254]> b)).
      { rewrite frame_at_emitted.
        apply (frame_at_written (set_slot (cc14_slot c k) s)).
        rewrite current_buffer_set_slot. exact Hb. }
      split; [exact Hat |].
      split; [rewrite (slot_at_frame _ _ _ _ Hat);
              apply Get_insert_eq; assumption |].
      unfold sent_since. destruct s; reflexivity.
    + intros Hbig. apply cc14_ignored. exact Hbig.
  - assert (Hs : 0 <= cc14_slot 0 5 < 512) by (vm_compute; split; congruence).
    destruct (Frame_Get b (cc14_slot 0 5) Hf Hs) as (old & Hold & Hbyte).
    pose proof (cc14_msb_run s 0 5 100 b old ltac:(lia) Hb Hf Hs Hold) as Hrun1.
    destruct (msb_byte old 100 Hbyte ltac:(lia)) as [Hw Hv1].
    rewrite Hw, Hv1 in Hrun1.
    set (v1 := old mod 2 + 2 * 100) in *.
    set (b1 := <[Z.to_nat (cc14_slot 0 5) := v1]> b) in *.
    set (s1 := written (cc14_slot 0 5) v1 b (set_slot (cc14_slot 0 5) s)) in *.
    assert (Hv1r : 0 <= v1 < 256).
    { subst v1. pose proof (Z.mod_pos_bound old 2 ltac:(lia)). lia. }
    assert (Hb1 : current_buffer s1 = Some b1).
    { apply current_buffer_written. rewrite current_buffer_set_slot. exact Hb. }
    assert (Hf1 : Frame b1) by (apply Frame_insert; assumption).
    assert (Hold1 : Get b1 (cc14_slot 0 37) = Some v1).
    { change (cc14_slot 0 37) with (cc14_slot 0 5).
      apply Get_insert_eq; assumption. }
    pose proof (cc14_lsb_run s1 0 37 80 b1 v1 ltac:(lia) Hb1 Hf1 Hs Hold1)
      as Hrun2.
    change (63 <? 80) with true in Hrun2. cbv iota in Hrun2.
    assert (Hv2 : Z.lor v1 1 = 201).
    { rewrite lor_0x01. subst v1.
      pose proof (Z.mod_pos_bound old 2 ltac:(lia)).
      replace ((old mod 2 + 2 * 100) / 2) with 100; [reflexivity |].
      apply Z.div_unique with (old mod 2); lia. }
    rewrite Hv2 in Hrun2.
    change (cc14_slot 0 37) with (cc14_slot 0 5) in Hrun2.
    assert (Hbi1 : g_bufferIndex s1 = g_bufferIndex s)
      by (destruct s; reflexivity).
    assert (Hat : frame_at (g_bufferIndex s)
              (emitted (<[Z.to_nat (cc14_slot 0 5) := 201]> b1)
                 (written (cc14_slot 0 5) 201 b1
                    (set_slot (cc14_slot 0 5) s1))) =
            Some (<[Z.to_nat (cc14_slot 0 5) := 201]> b1)).
    { rewrite frame_at_emitted, <- Hbi1.
      apply (frame_at_written (set_slot (cc14_slot 0 5) s1)).
      rewrite current_buffer_set_slot. exact Hb1. }
    eexists s1, _, _.
    split; [exact Hrun1 |]. split; [exact Hrun2 |].
    split; [unfold sent_since; destruct s; simpl; symmetry; apply app_nil_r |].
    split; [exact Hat |].
    split; [apply (Get_insert_eq b1 (cc14_slot 0 5) 201 Hf1 Hs) |].
    split; [rewrite (slot_at_frame _ _ _ _ Hat);
            apply (Get_insert_eq b1 (cc14_slot 0 5) 201 Hf1 Hs) |].
    unfold sent_since. destruct s; reflexivity.
Qed.

Lemma cc14_two_phase_witness :
  well_typed started /\ g_bufferIndex started < 32 /\
  exists s1 s2,
    cc14 0 5 100 started = Some s1 /\
    cc14 0 37 80 s1 = Some s2 /\
    slot_at 0 5 s2 = Some 201.
Proof.
  split; [vm_compute; reflexivity |].
  split; [vm_compute; reflexivity |].
  destruct (cc14_two_phase started) as [_ (s1 & s2 & b2 & H1 & H2 & _ & _ & _ & H3 & _)];
    [vm_compute; reflexivity | vm_compute; reflexivity |].
  exists s1, s2. split; [exact H1 |]. split; [exact H2 |]. exact H3.
Defined.

(** C3.  On channel 8 the slot offset [channel * 32 = 256] does not fit the
    [uint8_t] variable [base] and wraps to 0: controller 0 on channel 8
    targets slot 0, the slot of channel 0, and slot 256 is not written. *)
Theorem cc14_channel_8_targets_slot_0 :
  exists s',
    cc14 8 0 100 started = Some s' /\
    g_slot s' = 0 /\
    0 mod 32 + 8 * 32 = 256 /\
    slot_at (g_bufferIndex started) 0 s' = Some 200 /\
    slot_at (g_bufferIndex started) 256 s' = Some 0.
Proof.
  eexists. split; [vm_compute; reflexivity |].
  repeat split.
Qed.

(** The slot of [cc14] for every channel: the offset is [channel * 32] on
    channels 0..7 and [(channel - 8) * 32] on channels 8..15. *)
Lemma cc14_slot_by_channel c k :
  0 <= c < 16 -> 0 <= k ->
  cc14_slot c k = k mod 32 + (if c <? 8 then c * 32 else (c - 8) * 32).
Proof.
  intros Hc Hk. rewrite cc14_slot_value by lia. f_equal.
  destruct (Z.ltb_spec c 8).
  - apply Z.mod_small. lia.
  - symmetry. apply Z.mod_unique_pos with 1; lia.
Qed.

(** ** Start-up *)

Lemma land_word16 a b : 0 <= a < 65536 -> 0 <= Z.land a b < 65536.
Proof.
  intros Ha.
  assert (Hm : Z.land a b = Z.land a b mod 2 ^ 16).
  { rewrite <- Z.land_ones by lia.
    rewrite <- Z.land_assoc, (Z.land_comm b), Z.land_assoc.
    rewrite Z.land_ones by lia.
    rewrite (Z.mod_small a) by (change (2 ^ 16) with 65536; lia).
    reflexivity. }
  rewrite Hm. change (2 ^ 16) with 65536. apply Z.mod_pos_bound. lia.
Qed.

Lemma WT_globals0 : WT globals0.
Proof. apply well_typed_WT. vm_compute. reflexivity. Qed.

Lemma boot_inv_globals0 : boot_inv globals0.
Proof. constructor; try reflexivity. exact WT_globals0. Qed.

Lemma applyOption_boot o s s' :
  boot_inv s -> applyOption o s = Some s' ->
  boot_inv s' /\ g_olaClient s' = g_olaClient s /\ g_dmxBuffer s' = g_dmxBuffer s.
Proof.
  intros [Hu Hbi Hp Hv Hsl [W1 W2 W3 W4 W5 W6 W7 W8 W9]] Hrun.
  assert (Hmask : forall m, 0 <= Z.land (g_midiChannels s) m < 65536)
    by (intros m; apply land_word16; exact W4).
  destruct o; simpl in Hrun;
    [| | | | unfold excludeChannel in Hrun;
             destruct ((chan <? 1) || (16 <? chan)); [discriminate |]];
    injection Hrun as <-; destruct s; simpl in *;
    (split; [| split; reflexivity]);
    (constructor; simpl; try assumption; try reflexivity);
    (constructor; simpl; try assumption; try apply wrap8_range; try apply Hmask).
Qed.

Lemma parseCommandLine_boot opts : forall s s',
  boot_inv s -> parseCommandLine opts s = Some s' ->
  boot_inv s' /\ g_olaClient s' = g_olaClient s /\ g_dmxBuffer s' = g_dmxBuffer s.
Proof.
  induction opts as [| o rest IH]; intros s s' Hinv Hrun; simpl in Hrun.
  - injection Hrun as <-. auto.
  - destruct (applyOption o s) as [s1 |] eqn:Ho; [| discriminate].
    simpl in Hrun.
    destruct (applyOption_boot o s s1 Hinv Ho) as (Hinv1 & Hl1 & Hd1).
    destruct (IH s1 s' Hinv1 Hrun) as (Hinv' & Hl' & Hd').
    split; [exact Hinv' |]. split; congruence.
Qed.

(** One turn of the initialisation loop: the current frame, whatever the
    loop variable, is zero-filled and sent to the current universe. *)
Lemma initBody_run universe s b :
  current_buffer s = Some b ->
  initBody universe s =
  Some (emitted (Blackout b)
          (set_dmxBuffer
             (<[Z.to_nat (g_bufferIndex s) := Blackout b]> (g_dmxBuffer s)) s)).
Proof.
  intros Hb. unfold initBody, dmx_Blackout. rewrite Hb. simpl.
  apply ola_SendDmx_emitted.
  unfold current_buffer in *. destruct s; simpl in *.
  destruct (g_bufferIndex0 <? 0); [discriminate |].
  apply list_lookup_insert_eq. apply lookup_lt_is_Some. eauto.
Qed.

(** The whole loop: every turn hits the same frame and the same universe. *)
Lemma initLoop_run n : forall universe s b,
  current_buffer s = Some b ->
  initLoop (S n) universe s =
  Some (set_olaClient
          (g_olaClient s ++ replicate (S n) (g_universe s, Blackout b))
          (set_dmxBuffer
             (<[Z.to_nat (g_bufferIndex s) := Blackout b]> (g_dmxBuffer s)) s)).
Proof.
  induction n as [| n IH]; intros universe s b Hb.
  - simpl initLoop. rewrite (initBody_run universe s b Hb). reflexivity.
  - change (initLoop (S (S n)) universe s)
      with (s' ← initBody universe s; initLoop (S n) (universe + 1) s').
    rewrite (initBody_run universe s b Hb). cbn [mbind option_bind].
    rewrite (IH _ _ (Blackout b)).
    + f_equal. destruct s; unfold emitted, set_olaClient, set_dmxBuffer; simpl.
      rewrite list_insert_insert_eq, <- app_assoc. reflexivity.
    + unfold current_buffer in *. destruct s; simpl in *.
      destruct (g_bufferIndex0 <? 0); [discriminate |].
      apply list_lookup_insert_eq. apply lookup_lt_is_Some. eauto.
Qed.

(** The state that [main] hands to the callback. *)
Lemma main_boot opts s :
  main opts = Some s ->
  boot_inv s /\
  g_olaClient s =
    replicate 32 (g_universeBase s, replicate DMX_UNIVERSE_SIZE 0) /\
  g_dmxBuffer s = replicate 32 (replicate DMX_UNIVERSE_SIZE 0).
Proof.
  unfold main. intros Hrun.
  destruct (parseCommandLine opts globals0) as [s1 |] eqn:Hparse;
    [| discriminate].
  cbn [mbind option_bind] in Hrun.
  destruct (parseCommandLine_boot opts globals0 s1 boot_inv_globals0 Hparse)
    as (Hinv1 & Hl1 & Hd1).
  set (s2 := if negb (g_enableNote s1) && negb (g_enableCC s1)
             then set_enableCC true s1 else s1) in *.
  assert (Hinv2 : boot_inv s2 /\ g_olaClient s2 = [] /\
                  g_dmxBuffer s2 = replicate 32 fresh_buffer).
  { subst s2. destruct (negb (g_enableNote s1) && negb (g_enableCC s1)).
    - destruct Hinv1 as [? ? ? ? ? []]. destruct s1; simpl in *.
      split; [| split; assumption].
      constructor; simpl; try assumption. constructor; simpl; assumption.
    - split; [exact Hinv1 |]. split; assumption. }
  destruct Hinv2 as ([Hu Hbi Hp Hv Hsl Hwt] & Hl2 & Hd2).
  destruct (current_buffer_Frame s2 Hwt ltac:(lia)) as (b & Hb & Hf).
  change (Z.to_nat MAX_MIDI_UNIVERSE) with (S 31) in Hrun.
  rewrite (initLoop_run 31 0 s2 b Hb) in Hrun. injection Hrun as <-.
  rewrite Hl2, Hd2, Hbi, Hu.
  destruct Hwt as [W1 W2 W3 W4 W5 W6 W7 W8 W9].
  destruct s2; simpl in *. subst.
  split; [| split; reflexivity].
  constructor; simpl; try reflexivity.
  constructor; simpl; try assumption; reflexivity.
Qed.

(** [main] reaches the callback whenever every excluded channel is one of
    1..16. *)
Lemma parseCommandLine_total opts : forall s,
  Forall (fun o => match o with
                   | OptExclude chan => 1 <= chan <= 16
                   | _ => True
                   end) opts ->
  exists s', parseCommandLine opts s = Some s'.
Proof.
  induction opts as [| o rest IH]; intros s Hok.
  - exists s. reflexivity.
  - inversion Hok as [| o' rest' Ho Hrest]; subst.
    assert (exists s1, applyOption o s = Some s1) as [s1 Hs1].
    { destruct o; simpl; eauto.
      unfold excludeChannel.
      destruct (Z.ltb_spec chan 1); [lia |].
      destruct (Z.ltb_spec 16 chan); [lia |]. simpl. eauto. }
    destruct (IH s1 Hrest) as [s' Hs'].
    exists s'. simpl. rewrite Hs1. exact Hs'.
Qed.

Lemma main_total opts :
  Forall (fun o => match o with
                   | OptExclude chan => 1 <= chan <= 16
                   | _ => True
                   end) opts ->
  exists s, main opts = Some s.
Proof.
  intros Hok.
  destruct (parseCommandLine_total opts globals0 Hok) as [s1 Hs1].
  destruct (parseCommandLine_boot opts globals0 s1 boot_inv_globals0 Hs1)
    as (Hinv1 & _ & _).
  unfold main. rewrite Hs1. cbn [mbind option_bind].
  set (s2 := if negb (g_enableNote s1) && negb (g_enableCC s1)
             then set_enableCC true s1 else s1).
  assert (Hb : exists b, current_buffer s2 = Some b).
  { destruct Hinv1 as [_ Hbi _ _ _ Hwt].
    destruct (current_buffer_Frame s1 Hwt ltac:(lia)) as (b & Hb & _).
    exists b. subst s2.
    destruct (negb (g_enableNote s1) && negb (g_enableCC s1)); [| exact Hb].
    destruct s1; exact Hb. }
  destruct Hb as [b Hb].
  change (Z.to_nat MAX_MIDI_UNIVERSE) with (S 31).
  rewrite (initLoop_run 31 0 s2 b Hb). eauto.
Qed.

(** C8.  Started without options (first universe 1), the initialisation
    loop zero-fills and sends the frame at buffer index 0 in each of its 32
    turns: universe 1 receives 32 all-zero frames and universes 2..32
    receive none. *)
Theorem main_sends_first_universe_only :
  exists s,
    main [] = Some s /\
    g_universeBase s = 1 /\
    g_olaClient s = replicate 32 (1, replicate DMX_UNIVERSE_SIZE 0) /\
    count_sent 1 (g_olaClient s) = 32%nat /\
    Forall (fun i => count_sent (1 + Z.of_nat i) (g_olaClient s) = 0%nat)
           (seq 1 31).
Proof.
  eexists. split; [vm_compute; reflexivity |].
  split; [reflexivity |]. split; [reflexivity |]. split; [reflexivity |].
  repeat constructor.
Qed.

(** ** CC14 leaves the universe alone *)

(** C5.  A CC14 message leaves the current universe number and the current
    buffer index untouched, as it does the configuration, the NRPN
    parameter and pending value, and every frame but the current one; what
    it sends, if anything, is the current frame to the current universe.
    Out of [main] that pair is universe [universeBase] with buffer index
    0. *)
Theorem cc14_keeps_universe s c k v :
  well_typed s -> g_bufferIndex s < 32 ->
  0 <= c < 16 -> 0 <= k < 128 -> 0 <= v < 128 ->
  exists s',
    cc14 c k v s = Some s' /\
    g_universe s' = g_universe s /\
    g_bufferIndex s' = g_bufferIndex s /\
    g_universeBase s' = g_universeBase s /\
    g_mode s' = g_mode s /\
    g_midiChannels s' = g_midiChannels s /\
    g_enableCC s' = g_enableCC s /\
    g_enableNote s' = g_enableNote s /\
    g_nrpnParam s' = g_nrpnParam s /\
    g_nrpnVal s' = g_nrpnVal s /\
    (forall i, i <> g_bufferIndex s -> frame_at i s' = frame_at i s) /\
    (sent_since s s' [] \/
     exists b', frame_at (g_bufferIndex s) s' = Some b' /\
                sent_since s s' [(g_universe s, b')]) /\
    (forall opts s0, main opts = Some s0 ->
       g_universe s0 = g_universeBase s0 /\ g_bufferIndex s0 = 0).
Proof.
  intros Hwt%well_typed_WT Hbi Hc Hk Hv.
  destruct (current_buffer_Frame s Hwt Hbi) as (b & Hb & Hf).
  pose proof (cc14_slot_range c k ltac:(lia) ltac:(lia)) as Hs.
  destruct (Frame_Get b (cc14_slot c k) Hf Hs) as (old & Hold & Hbyte).
  pose proof (wt_bufferIndex s Hwt) as Hbi0.
  assert (Hmain : forall opts s0, main opts = Some s0 ->
            g_universe s0 = g_universeBase s0 /\ g_bufferIndex s0 = 0).
  { intros opts s0 Hs0. destruct (main_boot opts s0 Hs0) as ([] & _). auto. }
  destruct (Z.le_gt_cases k 31) as [Hmsb | Hhigh];
    [| destruct (Z.le_gt_cases k 65) as [Hlsb | Hbig]].
  - eexists. split; [exact (cc14_msb_run s c k v b old Hmsb Hb Hf Hs Hold) |].
    do 9 (split; [destruct s; reflexivity |]).
    split.
    { intros i Hi.
      rewrite (frame_at_written_ne (set_slot (cc14_slot c k) s)).
      - destruct s; reflexivity.
      - destruct s; simpl in *; lia.
      - destruct s; exact Hi. }
    split; [| exact Hmain].
    left. unfold sent_since. destruct s; simpl. symmetry. apply app_nil_r.
  - eexists.
    split; [exact (cc14_lsb_run s c k v b old ltac:(lia) Hb Hf Hs Hold) |].
    do 9 (split; [destruct s; reflexivity |]).
    split.
    { intros i Hi. rewrite frame_at_emitted.
      rewrite (frame_at_written_ne (set_slot (cc14_slot c k) s)).
      - destruct s; reflexivity.
      - destruct s; simpl in *; lia.
      - destruct s; exact Hi. }
    split; [| exact Hmain].
    right. eexists. split.
    + rewrite frame_at_emitted.
      apply (frame_at_written (set_slot (cc14_slot c k) s)).
      rewrite current_buffer_set_slot. exact Hb.
    + unfold sent_since. destruct s; reflexivity.
  - exists s. split; [apply cc14_ignored; lia |].
    do 9 (split; [reflexivity |]).
    split; [reflexivity |].
    split; [| exact Hmain].
    left. unfold sent_since. symmetry. apply app_nil_r.
Qed.

Lemma cc14_keeps_universe_witness :
  well_typed started /\ g_bufferIndex started < 32 /\
  exists s',
    cc14 1 37 80 started = Some s' /\
    g_universe s' = g_universe started /\
    g_bufferIndex s' = g_bufferIndex started.
Proof.
  split; [vm_compute; reflexivity |].
  split; [vm_compute; reflexivity |].
  destruct (cc14_keeps_universe started 1 37 80)
    as (s' & Hrun & Hu & Hbi & _);
    [vm_compute; reflexivity | vm_compute; reflexivity | lia | lia | lia |].
  exists s'. split; [exact Hrun |]. split; [exact Hu | exact Hbi].
Defined.

(** ** NRPN parameter selection *)

Lemma low_bits_disjoint hi lo : 0 <= lo < 128 -> Z.land (128 * hi) lo = 0.
Proof.
  intros Hlo. apply Z.bits_inj'. intros n Hn.
  rewrite Z.land_spec, Z.testbit_0_l.
  rewrite <- shiftl7_mul.
  destruct (Z.lt_ge_cases n 7) as [Hlt | Hge].
  - rewrite Z.shiftl_spec_low by lia. reflexivity.
  - destruct (Z.eq_dec lo 0) as [-> | Hne];
      [rewrite Z.testbit_0_l; apply andb_false_r |].
    rewrite (Z.bits_above_log2 lo n); [apply andb_false_r | lia |].
    apply Z.lt_le_trans with 7; [| exact Hge].
    apply Z.log2_lt_pow2; [lia |]. change (2 ^ 7) with 128. lia.
Qed.

(** [NRPN_LSB]: the low 7 bits of the parameter become the value. *)
Lemma param_after_LSB p val :
  0 <= p <= 16383 -> 0 <= val < 128 ->
  wrap16 (Z.lor (Z.land p 0x3f80) val) = Z.lor (Z.land p 0x3f80) val /\
  Z.lor (Z.land p 0x3f80) val = 128 * (p / 128) + val /\
  0 <= 128 * (p / 128) + val <= 16383.
Proof.
  intros Hp Hv.
  assert (Hq : 0 <= p / 128 < 128).
  { split; [apply Z.div_pos; lia | apply Z.div_lt_upper_bound; lia]. }
  rewrite land_0x3f80, (Z.mod_small (p / 128)) by exact Hq.
  rewrite lor_disjoint_add by (apply low_bits_disjoint; exact Hv).
  split; [apply wrap16_small; lia |]. split; [reflexivity | lia].
Qed.

(** [NRPN_MSB]: bits 7 to 13 of the parameter become the value. *)
Lemma param_after_MSB p val :
  0 <= p -> 0 <= val < 128 ->
  wrap16 (Z.lor (Z.land p 0x7f) (Z.shiftl val 7)) =
    Z.lor (Z.land p 0x7f) (Z.shiftl val 7) /\
  Z.lor (Z.land p 0x7f) (Z.shiftl val 7) = p mod 128 + 128 * val /\
  0 <= p mod 128 + 128 * val <= 16383.
Proof.
  intros Hp Hv.
  pose proof (Z.mod_pos_bound p 128 ltac:(lia)) as Hm.
  rewrite land_0x7f, shiftl7_mul.
  rewrite lor_disjoint_add
    by (rewrite Z.land_comm; apply low_bits_disjoint; exact Hm).
  split; [apply wrap16_small; lia |]. split; [reflexivity | lia].
Qed.

(** Both selection cases end with the same three assignments, which
    establish the addressing invariant whatever the new parameter is. *)
Lemma nrpn_LSB_inv val s : nrpn_inv (nrpn_LSB val s).
Proof.
  unfold nrpn_inv, nrpn_LSB. destruct s; simpl.
  split; [reflexivity |]. split; [| reflexivity].
  apply wrap8_small.
  pose proof (wrap16_range (Z.lor (Z.land g_nrpnParam0 16256) val)) as Hr.
  split; [apply Z.div_pos; lia | apply Z.div_lt_upper_bound; lia].
Qed.

Lemma nrpn_MSB_inv val s : nrpn_inv (nrpn_MSB val s).
Proof.
  unfold nrpn_inv, nrpn_MSB. destruct s; simpl.
  split; [reflexivity |]. split; [| reflexivity].
  apply wrap8_small.
  pose proof (wrap16_range (Z.lor (Z.land g_nrpnParam0 127) (Z.shiftl val 7)))
    as Hr.
  split; [apply Z.div_pos; lia | apply Z.div_lt_upper_bound; lia].
Qed.

Lemma nrpn_LSB_WT val s : WT s -> WT (nrpn_LSB val s).
Proof.
  intros [W1 W2 W3 W4 W5 W6 W7 W8 W9]. unfold nrpn_LSB.
  destruct s; constructor; simpl in *; try assumption;
    try apply wrap8_range; try apply wrap16_range.
  pose proof (Z.mod_pos_bound
                (wrap16 (Z.lor (Z.land g_nrpnParam0 16256) val)) 512
                ltac:(lia)). lia.
Qed.

Lemma nrpn_MSB_WT val s : WT s -> WT (nrpn_MSB val s).
Proof.
  intros [W1 W2 W3 W4 W5 W6 W7 W8 W9]. unfold nrpn_MSB.
  destruct s; constructor; simpl in *; try assumption;
    try apply wrap8_range; try apply wrap16_range.
  pose proof (Z.mod_pos_bound
                (wrap16 (Z.lor (Z.land g_nrpnParam0 127) (Z.shiftl val 7))) 512
                ltac:(lia)). lia.
Qed.

Lemma nrpn_LSB_param val s :
  g_nrpnParam (nrpn_LSB val s) =
  wrap16 (Z.lor (Z.land (g_nrpnParam s) 0x3f80) val).
Proof. destruct s; reflexivity. Qed.

Lemma nrpn_MSB_param val s :
  g_nrpnParam (nrpn_MSB val s) =
  wrap16 (Z.lor (Z.land (g_nrpnParam s) 0x7f) (Z.shiftl val 7)).
Proof. destruct s; reflexivity. Qed.

(** Where a parameter of at most 14 bits points. *)
Lemma address_in_bounds s :
  nrpn_inv s -> 0 <= g_nrpnParam s <= 16383 ->
  0 <= g_bufferIndex s < 32 /\ 0 <= g_slot s < 512.
Proof.
  intros (Hs & Hb & _) Hp. rewrite Hs, Hb.
  pose proof (Z.mod_pos_bound (g_nrpnParam s) 512 ltac:(lia)).
  split; [| lia].
  split; [apply Z.div_pos; lia | apply Z.div_lt_upper_bound; lia].
Qed.

Lemma resolver_NRPN_LSB m channel val s :
  is_nrpn m = true ->
  resolver m channel MIDI_CMD_NRPN_LSB val s = Some (nrpn_LSB val s).
Proof. destruct m; try discriminate; reflexivity. Qed.

Lemma resolver_NRPN_MSB m channel val s :
  is_nrpn m = true ->
  resolver m channel MIDI_CMD_NRPN_MSB val s = Some (nrpn_MSB val s).
Proof. destruct m; try discriminate; reflexivity. Qed.

(** ** NRPN value messages *)

Lemma set_nrpnVal_same s : set_nrpnVal (g_nrpnVal s) s = s.
Proof. destruct s; reflexivity. Qed.

Lemma store_pending s b v :
  current_buffer s = Some b -> Frame b -> 0 <= g_slot s < 512 ->
  (s' ← dmx_SetChannel (g_slot (set_nrpnVal v s))
                        (g_nrpnVal (set_nrpnVal v s)) (set_nrpnVal v s);
   ola_SendDmx s') = Some (stored v b s).
Proof.
  intros Hb Hf Hs.
  replace (g_slot (set_nrpnVal v s)) with (g_slot s)
    by (destruct s; reflexivity).
  replace (g_nrpnVal (set_nrpnVal v s)) with v by (destruct s; reflexivity).
  apply (write_and_send (set_nrpnVal v s) b (g_slot s) v); [| exact Hf | exact Hs].
  destruct s; exact Hb.
Qed.

Lemma nrpn_INC_run s b :
  current_buffer s = Some b -> Frame b -> 0 <= g_slot s < 512 ->
  0 <= g_nrpnVal s ->
  nrpn_INC s = if g_nrpnVal s <? 255
               then Some (stored (g_nrpnVal s + 1) b s)
               else Some s.
Proof.
  intros Hb Hf Hs Hv. unfold nrpn_INC.
  destruct (Z.ltb_spec (g_nrpnVal s) 255); [| reflexivity].
  cbv zeta. rewrite wrap8_small by lia.
  apply store_pending; assumption.
Qed.

Lemma nrpn_DEC_run s b :
  current_buffer s = Some b -> Frame b -> 0 <= g_slot s < 512 ->
  g_nrpnVal s < 256 ->
  nrpn_DEC s = if 0 <? g_nrpnVal s
               then Some (stored (g_nrpnVal s - 1) b s)
               else Some s.
Proof.
  intros Hb Hf Hs Hv. unfold nrpn_DEC.
  destruct (Z.ltb_spec 0 (g_nrpnVal s)); [| reflexivity].
  cbv zeta. rewrite wrap8_small by lia.
  apply store_pending; assumption.
Qed.

Lemma nrpnCC7_DATA_MSB_run s channel val b :
  current_buffer s = Some b -> Frame b -> 0 <= g_slot s < 512 ->
  nrpnCC7 channel MIDI_CMD_DATA_MSB val s =
  Some (stored (wrap8 (Z.shiftl val 1)) b s).
Proof. intros Hb Hf Hs. apply (store_pending s b _ Hb Hf Hs). Qed.

Lemma nrpnCC14_DATA_MSB_run s channel val :
  nrpnCC14 channel MIDI_CMD_DATA_MSB val s =
  Some (set_nrpnVal
          (wrap8 (Z.lor (Z.land (g_nrpnVal s) 0x01) (Z.shiftl val 1))) s).
Proof. reflexivity. Qed.

Lemma nrpnCC14_DATA_LSB_run s channel val b :
  current_buffer s = Some b -> Frame b -> 0 <= g_slot s < 512 ->
  nrpnCC14 channel MIDI_CMD_DATA_LSB val s =
  Some (stored (if 63 <? val then Z.lor (g_nrpnVal s) 0x01
                else Z.land (g_nrpnVal s) 0xfe) b s).
Proof.
  intros Hb Hf Hs.
  change (nrpnCC14 channel MIDI_CMD_DATA_LSB val s)
    with (let s1 := if 63 <? val
                    then set_nrpnVal (Z.lor (g_nrpnVal s) 0x01) s
                    else set_nrpnVal (Z.land (g_nrpnVal s) 0xfe) s in
          s' ← dmx_SetChannel (g_slot s1) (g_nrpnVal s1) s1; ola_SendDmx s').
  cbv zeta. destruct (63 <? val); apply (store_pending s b _ Hb Hf Hs).
Qed.

Lemma nrpnCC7_unhandled channel cc val s :
  cc <> MIDI_CMD_NRPN_LSB -> cc <> MIDI_CMD_NRPN_MSB ->
  cc <> MIDI_CMD_DATA_MSB -> cc <> MIDI_CMD_INC -> cc <> MIDI_CMD_DEC ->
  nrpnCC7 channel cc val s = Some s.
Proof.
  intros H1 H2 H3 H4 H5. unfold nrpnCC7.
  destruct (Z.eqb_spec cc MIDI_CMD_NRPN_LSB); [contradiction |].
  destruct (Z.eqb_spec cc MIDI_CMD_NRPN_MSB); [contradiction |].
  destruct (Z.eqb_spec cc MIDI_CMD_DATA_MSB); [contradiction |].
  destruct (Z.eqb_spec cc MIDI_CMD_INC); [contradiction |].
  destruct (Z.eqb_spec cc MIDI_CMD_DEC); [contradiction | reflexivity].
Qed.

Lemma nrpnCC14_unhandled channel cc val s :
  cc <> MIDI_CMD_NRPN_LSB -> cc <> MIDI_CMD_NRPN_MSB ->
  cc <> MIDI_CMD_DATA_MSB -> cc <> MIDI_CMD_DATA_LSB ->
  cc <> MIDI_CMD_INC -> cc <> MIDI_CMD_DEC ->
  nrpnCC14 channel cc val s = Some s.
Proof.
  intros H1 H2 H3 H4 H5 H6. unfold nrpnCC14.
  destruct (Z.eqb_spec cc MIDI_CMD_NRPN_LSB); [contradiction |].
  destruct (Z.eqb_spec cc MIDI_CMD_NRPN_MSB); [contradiction |].
  destruct (Z.eqb_spec cc MIDI_CMD_DATA_MSB); [contradiction |].
  destruct (Z.eqb_spec cc MIDI_CMD_DATA_LSB); [contradiction |].
  destruct (Z.eqb_spec cc MIDI_CMD_INC); [contradiction |].
  destruct (Z.eqb_spec cc MIDI_CMD_DEC); [contradiction | reflexivity].
Qed.

(** What [stored] does to the globals. *)
Lemma stored_facts v b s :
  current_buffer s = Some b -> Frame b -> 0 <= g_slot s < 512 ->
  0 <= g_bufferIndex s ->
  g_nrpnVal (stored v b s) = v /\
  g_nrpnParam (stored v b s) = g_nrpnParam s /\
  g_slot (stored v b s) = g_slot s /\
  g_bufferIndex (stored v b s) = g_bufferIndex s /\
  g_universe (stored v b s) = g_universe s /\
  g_universeBase (stored v b s) = g_universeBase s /\
  frame_at (g_bufferIndex s) (stored v b s) =
    Some (<[Z.to_nat (g_slot s) := v]> b) /\
  slot_at (g_bufferIndex s) (g_slot s) (stored v b s) = Some v /\
  (forall i, i <> g_bufferIndex s ->
     frame_at i (stored v b s) = frame_at i s) /\
  sent_since s (stored v b s)
    [(g_universe s, <[Z.to_nat (g_slot s) := v]> b)].
Proof.
  intros Hb Hf Hs Hbi.
  assert (Hat : frame_at (g_bufferIndex s) (stored v b s) =
                Some (<[Z.to_nat (g_slot s) := v]> b)).
  { unfold stored. rewrite frame_at_emitted.
    apply (frame_at_written (set_nrpnVal v s)). destruct s; exact Hb. }
  do 6 (split; [destruct s; reflexivity |]).
  split; [exact Hat |].
  split; [rewrite (slot_at_frame _ _ _ _ Hat); apply Get_insert_eq; assumption |].
  split; [| unfold sent_since; destruct s; reflexivity].
  intros i Hi. unfold stored. rewrite frame_at_emitted.
  rewrite (frame_at_written_ne (set_nrpnVal v s)).
  - destruct s; reflexivity.
  - destruct s; exact Hbi.
  - destruct s; exact Hi.
Qed.

Lemma WT_stored v b s :
  WT s -> Frame b -> 0 <= v < 256 -> WT (stored v b s).
Proof.
  intros Hwt Hf Hv. unfold stored. apply WT_emitted. apply WT_written.
  - destruct Hwt. destruct s; constructor; assumption.
  - exact Hf.
  - exact Hv.
Qed.

Lemma WT_set_nrpnVal v s : WT s -> 0 <= v < 256 -> WT (set_nrpnVal v s).
Proof. intros [] Hv. destruct s; constructor; assumption. Qed.

Lemma stored_stores s s1 b v :
  current_buffer s1 = Some b -> Frame b -> 0 <= g_slot s1 < 512 ->
  0 <= g_bufferIndex s1 ->
  g_bufferIndex s1 = g_bufferIndex s -> g_universe s1 = g_universe s ->
  g_olaClient s1 = g_olaClient s ->
  stores s (stored v b s1) (g_slot s1) v.
Proof.
  intros Hb Hf Hs Hbi Ebi Eu El.
  destruct (stored_facts v b s1 Hb Hf Hs Hbi)
    as (Hv & _ & _ & _ & _ & _ & Hat & Hslot & _ & Hsent).
  unfold stores. rewrite <- Ebi, <- Eu.
  split; [exact Hv |]. split; [exact Hslot |].
  eexists. split; [exact Hat |].
  unfold sent_since in *. rewrite <- El. exact Hsent.
Qed.

(** C7.  In both NRPN modes [INC] adds one to the pending value unless it
    is 255, and [DEC] subtracts one unless it is 0; when the value changes
    it is written to the addressed slot and the frame is sent, and when it
    does not, nothing is written or sent.  The [DEC] case of NRPN7 first
    recomputes the slot from the current parameter. *)
Theorem nrpn_inc_dec m s ch val :
  is_nrpn m = true -> well_typed s ->
  g_bufferIndex s < 32 -> g_slot s < 512 ->
  exists s_inc s_dec7 s_dec14,
    resolver m ch MIDI_CMD_INC val s = Some s_inc /\
    nrpnCC7 ch MIDI_CMD_DEC val s = Some s_dec7 /\
    nrpnCC14 ch MIDI_CMD_DEC val s = Some s_dec14 /\
    (g_nrpnVal s < 255 -> stores s s_inc (g_slot s) (g_nrpnVal s + 1)) /\
    (g_nrpnVal s = 255 -> s_inc = s) /\
    (0 < g_nrpnVal s -> stores s s_dec14 (g_slot s) (g_nrpnVal s - 1)) /\
    (g_nrpnVal s = 0 -> s_dec14 = s) /\
    g_slot s_dec7 = g_nrpnParam s mod 512 /\
    (0 < g_nrpnVal s ->
     stores s s_dec7 (g_nrpnParam s mod 512) (g_nrpnVal s - 1)) /\
    (g_nrpnVal s = 0 ->
     s_dec7 = set_slot (g_nrpnParam s mod 512) s /\ untouched s s_dec7).
Proof.
  intros Hm Hwt%well_typed_WT Hbi Hslot.
  destruct (current_buffer_Frame s Hwt Hbi) as (b & Hb & Hf).
  pose proof (wt_nrpnVal s Hwt) as Hv.
  pose proof (wt_slot s Hwt) as Hs0.
  pose proof (wt_bufferIndex s Hwt) as Hbi0.
  assert (Hs : 0 <= g_slot s < 512) by lia.
  set (s1 := set_slot (g_nrpnParam s mod 512) s).
  assert (Hb1 : current_buffer s1 = Some b)
    by (unfold s1; rewrite current_buffer_set_slot; exact Hb).
  assert (Hs1 : g_slot s1 = g_nrpnParam s mod 512) by (destruct s; reflexivity).
  assert (Hr1 : 0 <= g_slot s1 < 512).
  { rewrite Hs1. apply Z.mod_pos_bound. lia. }
  assert (Hv1 : g_nrpnVal s1 = g_nrpnVal s) by (destruct s; reflexivity).
  assert (Hbi1 : g_bufferIndex s1 = g_bufferIndex s) by (destruct s; reflexivity).
  assert (Hu1 : g_universe s1 = g_universe s) by (destruct s; reflexivity).
  assert (Hl1 : g_olaClient s1 = g_olaClient s) by (destruct s; reflexivity).
  assert (Hbi1' : 0 <= g_bufferIndex s1) by (rewrite Hbi1; lia).
  assert (Hinc : resolver m ch MIDI_CMD_INC val s = nrpn_INC s)
    by (destruct m; try discriminate; reflexivity).
  assert (Hdec7 : nrpnCC7 ch MIDI_CMD_DEC val s = nrpn_DEC s1) by reflexivity.
  assert (Hdec14 : nrpnCC14 ch MIDI_CMD_DEC val s = nrpn_DEC s) by reflexivity.
  rewrite Hinc, Hdec7, Hdec14.
  rewrite (nrpn_INC_run s b Hb Hf Hs ltac:(lia)).
  rewrite (nrpn_DEC_run s b Hb Hf Hs ltac:(lia)).
  rewrite (nrpn_DEC_run s1 b Hb1 Hf Hr1 ltac:(lia)).
  rewrite Hv1.
  destruct (Z.ltb_spec (g_nrpnVal s) 255) as [Hlt | Hge];
    destruct (Z.ltb_spec 0 (g_nrpnVal s)) as [Hpos | Hzero];
    do 3 eexists; (split; [reflexivity |]); (split; [reflexivity |]);
    (split; [reflexivity |]).
  all: split; [intros; try lia;
               apply (stored_stores s s b); auto; lia |].
  all: split; [intros; try lia; reflexivity |].
  all: split; [intros; try lia;
               apply (stored_stores s s b); auto; lia |].
  all: split; [intros; try lia; reflexivity |].
  all: split; [destruct s; reflexivity |].
  all: split; [intros; try lia; rewrite <- Hs1;
               exact (stored_stores s s1 b _ Hb1 Hf Hr1 Hbi1' Hbi1 Hu1 Hl1) |].
  all: intros; try lia.
  all: split; [reflexivity | destruct s; repeat split].
Qed.

Lemma nrpn_inc_dec_witness :
  is_nrpn MIDI_MODE_NRPN7 = true /\ well_typed started /\
  g_bufferIndex started < 32 /\ g_slot started < 512 /\
  exists s_inc s_dec,
    nrpnCC7 0 MIDI_CMD_INC 0 started = Some s_inc /\
    g_nrpnVal s_inc = 1 /\
    nrpnCC7 0 MIDI_CMD_DEC 0 started = Some s_dec /\
    g_olaClient s_dec = g_olaClient started.
Proof.
  split; [reflexivity |].
  split; [vm_compute; reflexivity |].
  split; [vm_compute; reflexivity |].
  split; [vm_compute; reflexivity |].
  destruct (nrpn_inc_dec MIDI_MODE_NRPN7 started 0 0)
    as (s_inc & s_dec7 & _ & Hinc & Hdec & _ & Hup & _ & _ & _ & _ & _ & Hsat);
    [reflexivity | vm_compute; reflexivity | vm_compute; reflexivity
     | vm_compute; reflexivity |].
  exists s_inc, s_dec7.
  split; [exact Hinc |].
  split; [destruct Hup as [Hv _]; [vm_compute; reflexivity | exact Hv] |].
  split; [exact Hdec |].
  destruct Hsat as [_ (_ & _ & Hlog)]; [vm_compute; reflexivity | exact Hlog].
Defined.

(** ** The NRPN resolvers on the states they reach *)

Lemma value_step_refl s : WT s -> value_step s s.
Proof.
  intros Hwt. rewrite <- (set_nrpnVal_same s) at 2.
  apply step_pending. exact (wt_nrpnVal s Hwt).
Qed.

Lemma set_slot_same s x : g_slot s = x -> set_slot x s = s.
Proof. intros <-. destruct s; reflexivity. Qed.

Lemma nrpn_ok_bounds s :
  nrpn_ok s -> 0 <= g_bufferIndex s < 32 /\ 0 <= g_slot s < 512.
Proof.
  intros [Hwt Hinv Hp]. apply address_in_bounds; [exact Hinv |].
  pose proof (wt_nrpnParam s Hwt). lia.
Qed.

(** Every message other than a parameter selection is a value step. *)
Lemma nrpn_value_step m s ch cc val :
  is_nrpn m = true -> nrpn_ok s ->
  cc <> MIDI_CMD_NRPN_LSB -> cc <> MIDI_CMD_NRPN_MSB ->
  exists s', resolver m ch cc val s = Some s' /\ value_step s s'.
Proof.
  intros Hm Hok Hn1 Hn2.
  destruct (nrpn_ok_bounds s Hok) as [Hbi Hs].
  destruct Hok as [Hwt Hinv Hp].
  destruct (current_buffer_Frame s Hwt ltac:(lia)) as (b & Hb & Hf).
  pose proof (wt_nrpnVal s Hwt) as Hv.
  assert (Hinc : exists s', nrpn_INC s = Some s' /\ value_step s s').
  { rewrite (nrpn_INC_run s b Hb Hf Hs ltac:(lia)).
    destruct (Z.ltb_spec (g_nrpnVal s) 255).
    - eexists. split; [reflexivity |]. apply step_stored; [lia | assumption..].
    - eexists. split; [reflexivity |]. apply value_step_refl. exact Hwt. }
  assert (Hdec : exists s', nrpn_DEC s = Some s' /\ value_step s s').
  { rewrite (nrpn_DEC_run s b Hb Hf Hs ltac:(lia)).
    destruct (Z.ltb_spec 0 (g_nrpnVal s)).
    - eexists. split; [reflexivity |]. apply step_stored; [lia | assumption..].
    - eexists. split; [reflexivity |]. apply value_step_refl. exact Hwt. }
  destruct (Z.eq_dec cc MIDI_CMD_DATA_MSB) as [-> | Hn3];
    [| destruct (Z.eq_dec cc MIDI_CMD_INC) as [-> | Hn4];
       [| destruct (Z.eq_dec cc MIDI_CMD_DEC) as [-> | Hn5]]].
  - destruct m; try discriminate; cbn [resolver].
    + rewrite (nrpnCC7_DATA_MSB_run s ch val b Hb Hf Hs).
      eexists. split; [reflexivity |].
      apply step_stored; [apply wrap8_range | assumption..].
    + eexists. split; [apply nrpnCC14_DATA_MSB_run |].
      apply step_pending. apply wrap8_range.
  - destruct m; try discriminate; cbn [resolver]; exact Hinc.
  - destruct m; try discriminate; cbn [resolver].
    + change (nrpnCC7 ch MIDI_CMD_DEC val s)
        with (nrpn_DEC (set_slot (g_nrpnParam s mod 512) s)).
      rewrite set_slot_same by apply Hinv. exact Hdec.
    + exact Hdec.
  - destruct m; try discriminate; cbn [resolver].
    + exists s. split; [apply nrpnCC7_unhandled; assumption |].
      apply value_step_refl. exact Hwt.
    + destruct (Z.eq_dec cc MIDI_CMD_DATA_LSB) as [-> | Hn6].
      * rewrite (nrpnCC14_DATA_LSB_run s ch val b Hb Hf Hs).
        eexists. split; [reflexivity |].
        apply step_stored; [apply lsb_byte_range; exact Hv | assumption..].
      * exists s. split; [apply nrpnCC14_unhandled; assumption |].
        apply value_step_refl. exact Hwt.
Qed.

(** A value step stays at the address and speaks to the current universe
    only. *)
Lemma value_step_effect s s' :
  nrpn_ok s -> value_step s s' ->
  nrpn_ok s' /\
  g_nrpnParam s' = g_nrpnParam s /\
  g_slot s' = g_slot s /\
  g_bufferIndex s' = g_bufferIndex s /\
  g_universe s' = g_universe s /\
  g_universeBase s' = g_universeBase s /\
  (forall i, i <> g_bufferIndex s -> frame_at i s' = frame_at i s) /\
  exists l, sent_since s s' l /\ Forall (fun r => fst r = g_universe s) l.
Proof.
  intros Hok Hstep.
  destruct (nrpn_ok_bounds s Hok) as [Hbi Hs].
  destruct Hok as [Hwt Hinv Hp].
  destruct Hstep as [v Hv | v b Hv Hb Hf].
  - split.
    { constructor; [apply WT_set_nrpnVal; assumption | |];
        destruct s; assumption. }
    do 5 (split; [destruct s; reflexivity |]).
    split; [intros; destruct s; reflexivity |].
    exists []. split; [| constructor].
    unfold sent_since. destruct s; simpl. symmetry. apply app_nil_r.
  - destruct (stored_facts v b s Hb Hf Hs ltac:(lia))
      as (_ & E1 & E2 & E3 & E4 & E5 & _ & _ & Hfr & Hsent).
    split.
    { constructor; [apply WT_stored; assumption | |].
      - unfold nrpn_inv. rewrite E1, E2, E3, E4, E5. exact Hinv.
      - rewrite E1. exact Hp. }
    do 5 (split; [assumption |]).
    split; [exact Hfr |].
    eexists. split; [exact Hsent |]. repeat constructor.
Qed.

(** Every NRPN-mode message with a 7-bit value keeps the state well
    addressed, without a fault. *)
Lemma nrpn_step m s ch cc val :
  is_nrpn m = true -> nrpn_ok s -> 0 <= val < 128 ->
  exists s', resolver m ch cc val s = Some s' /\ nrpn_ok s' /\
             g_universeBase s' = g_universeBase s.
Proof.
  intros Hm Hok Hval.
  destruct (Z.eq_dec cc MIDI_CMD_NRPN_LSB) as [-> | Hn1];
    [| destruct (Z.eq_dec cc MIDI_CMD_NRPN_MSB) as [-> | Hn2]].
  - exists (nrpn_LSB val s). split; [apply resolver_NRPN_LSB; exact Hm |].
    destruct Hok as [Hwt Hinv Hp]. pose proof (wt_nrpnParam s Hwt) as Hr.
    split; [| destruct s; reflexivity].
    constructor; [apply nrpn_LSB_WT; exact Hwt | apply nrpn_LSB_inv |].
    rewrite nrpn_LSB_param.
    destruct (param_after_LSB (g_nrpnParam s) val ltac:(lia) Hval)
      as (-> & -> & Hb). lia.
  - exists (nrpn_MSB val s). split; [apply resolver_NRPN_MSB; exact Hm |].
    destruct Hok as [Hwt Hinv Hp]. pose proof (wt_nrpnParam s Hwt) as Hr.
    split; [| destruct s; reflexivity].
    constructor; [apply nrpn_MSB_WT; exact Hwt | apply nrpn_MSB_inv |].
    rewrite nrpn_MSB_param.
    destruct (param_after_MSB (g_nrpnParam s) val ltac:(lia) Hval)
      as (-> & -> & Hb). lia.
  - destruct (nrpn_value_step m s ch cc val Hm Hok Hn1 Hn2) as (s' & Hrun & Hst).
    exists s'. split; [exact Hrun |].
    destruct (value_step_effect s s' Hok Hst) as (Hok' & _ & _ & _ & _ & Hb & _).
    split; assumption.
Qed.

Lemma nrpn_feed m msgs : forall s,
  is_nrpn m = true -> nrpn_ok s -> seven_bit msgs ->
  exists s', feed (resolver m) msgs s = Some s' /\ nrpn_ok s' /\
             g_universeBase s' = g_universeBase s.
Proof.
  induction msgs as [| [[ch cc] val] rest IH]; intros s Hm Hok Hmsgs.
  - exists s. auto.
  - inversion Hmsgs as [| ? ? Hval Hrest]; subst. simpl in Hval.
    destruct (nrpn_step m s ch cc val Hm Hok Hval) as (s1 & Hrun & Hok1 & Hb1).
    destruct (IH s1 Hm Hok1 Hrest) as (s' & Hfeed & Hok' & Hb').
    exists s'. simpl. rewrite Hrun. simpl.
    split; [exact Hfeed |]. split; [exact Hok' | congruence].
Qed.

Lemma main_nrpn_ok opts s : main opts = Some s -> nrpn_ok s.
Proof.
  intros Hmain. destruct (main_boot opts s Hmain) as ([Hu Hbi Hp Hv Hs Hwt] & _).
  constructor; [exact Hwt | | lia].
  unfold nrpn_inv. rewrite Hs, Hbi, Hp, Hu. repeat split.
  simpl. symmetry. apply wrap8_small. exact (wt_universeBase s Hwt).
Qed.

Lemma nrpn_ok_addressed s : nrpn_ok s -> addressed (g_universeBase s) s.
Proof.
  intros Hok. destruct (nrpn_ok_bounds s Hok) as [Hbi Hs].
  destruct Hok as [Hwt (Hslot & Hbuf & Hu) Hp].
  pose proof (wt_nrpnParam s Hwt). pose proof (wt_universeBase s Hwt).
  unfold addressed.
  split; [exact Hbuf |]. split; [exact Hslot |]. split; [exact Hu |].
  split; [intros Hb; rewrite Hu; apply wrap8_small; lia |].
  split; [lia |]. split; assumption.
Qed.

(** X24.  In NRPN7 and NRPN14 modes, from a state of the program whose
    parameter is a 14-bit number: [NRPN_LSB] (controller 98) replaces the
    low 7 bits of the parameter by the value, [NRPN_MSB] (controller 99)
    replaces bits 7 to 13 by the value shifted left by 7, and either one
    leaves buffer index = parameter / 512, slot = parameter mod 512 and
    universe = (buffer index + universe base) mod 256, the sum in the
    [uint8_t] universe counter, which is buffer index + universe base as
    long as universe base + 31 does not exceed 255.  Hence every
    message sequence with 7-bit values runs through the resolver without
    an access outside the 32 frames of 512 slots, from any addressed state
    and so from the state [main] starts with; and parameter 16383, reached
    by selecting 127 twice, is buffer index 31, slot 511. *)
Theorem nrpn_address_in_bounds m s ch val :
  is_nrpn m = true -> well_typed s -> g_nrpnParam s <= 16383 ->
  0 <= val < 128 ->
  (exists s',
     resolver m ch MIDI_CMD_NRPN_LSB val s = Some s' /\
     g_nrpnParam s' = Z.lor (Z.land (g_nrpnParam s) 0x3f80) val /\
     g_nrpnParam s' mod 128 = val /\
     g_nrpnParam s' / 128 = g_nrpnParam s / 128 /\
     addressed (g_universeBase s) s') /\
  (exists s',
     resolver m ch MIDI_CMD_NRPN_MSB val s = Some s' /\
     g_nrpnParam s' = Z.lor (Z.land (g_nrpnParam s) 0x7f) (Z.shiftl val 7) /\
     g_nrpnParam s' / 128 = val /\
     g_nrpnParam s' mod 128 = g_nrpnParam s mod 128 /\
     addressed (g_universeBase s) s') /\
  (nrpn_inv s -> forall msgs, seven_bit msgs ->
     exists s', feed (resolver m) msgs s = Some s' /\
                addressed (g_universeBase s) s') /\
  (forall opts s0 msgs, main opts = Some s0 -> seven_bit msgs ->
     exists s', feed (resolver m) msgs s0 = Some s' /\
                addressed (g_universeBase s0) s') /\
  (exists s',
     feed (resolver m)
          [(ch, MIDI_CMD_NRPN_MSB, 127); (ch, MIDI_CMD_NRPN_LSB, 127)] s =
       Some s' /\
     g_nrpnParam s' = 16383 /\ g_bufferIndex s' = 31 /\ g_slot s' = 511).
Proof.
  intros Hm Hwt%well_typed_WT Hp Hval.
  pose proof (wt_nrpnParam s Hwt) as Hr.
  pose proof (wt_universeBase s Hwt) as Hbase.
  assert (Haddr : forall s', WT s' -> nrpn_inv s' ->
            0 <= g_nrpnParam s' <= 16383 ->
            g_universeBase s' = g_universeBase s ->
            addressed (g_universeBase s) s').
  { intros s' W I P <-. apply nrpn_ok_addressed. constructor; [assumption.. | lia]. }
  split; [| split; [| split; [| split]]].
  - exists (nrpn_LSB val s). split; [apply resolver_NRPN_LSB; exact Hm |].
    destruct (param_after_LSB (g_nrpnParam s) val ltac:(lia) Hval)
      as (Hw & Hsum & Hb).
    assert (Hparam : g_nrpnParam (nrpn_LSB val s) =
                     Z.lor (Z.land (g_nrpnParam s) 0x3f80) val)
      by (rewrite nrpn_LSB_param; exact Hw).
    split; [exact Hparam |].
    split; [rewrite Hparam, Hsum; symmetry;
            apply Z.mod_unique_pos with (g_nrpnParam s / 128); lia |].
    split; [rewrite Hparam, Hsum; symmetry;
            apply Z.div_unique_pos with val; lia |].
    apply Haddr; [apply nrpn_LSB_WT; exact Hwt | apply nrpn_LSB_inv
                  | rewrite Hparam, Hsum; exact Hb | destruct s; reflexivity].
  - exists (nrpn_MSB val s). split; [apply resolver_NRPN_MSB; exact Hm |].
    destruct (param_after_MSB (g_nrpnParam s) val ltac:(lia) Hval)
      as (Hw & Hsum & Hb).
    pose proof (Z.mod_pos_bound (g_nrpnParam s) 128 ltac:(lia)) as Hlow.
    assert (Hparam : g_nrpnParam (nrpn_MSB val s) =
                     Z.lor (Z.land (g_nrpnParam s) 0x7f) (Z.shiftl val 7))
      by (rewrite nrpn_MSB_param; exact Hw).
    split; [exact Hparam |].
    split; [rewrite Hparam, Hsum; symmetry;
            apply Z.div_unique_pos with (g_nrpnParam s mod 128); lia |].
    split; [rewrite Hparam, Hsum; symmetry;
            apply Z.mod_unique_pos with val; lia |].
    apply Haddr; [apply nrpn_MSB_WT; exact Hwt | apply nrpn_MSB_inv
                  | rewrite Hparam, Hsum; exact Hb | destruct s; reflexivity].
  - intros Hinv msgs Hmsgs.
    destruct (nrpn_feed m msgs s Hm (mkOk s Hwt Hinv Hp) Hmsgs)
      as (s' & Hfeed & Hok' & Hb').
    exists s'. split; [exact Hfeed |].
    rewrite <- Hb'. apply nrpn_ok_addressed. exact Hok'.
  - intros opts s0 msgs Hmain Hmsgs.
    destruct (nrpn_feed m msgs s0 Hm (main_nrpn_ok opts s0 Hmain) Hmsgs)
      as (s' & Hfeed & Hok' & Hb').
    exists s'. split; [exact Hfeed |].
    rewrite <- Hb'. apply nrpn_ok_addressed. exact Hok'.
  - exists (nrpn_LSB 127 (nrpn_MSB 127 s)).
    split.
    { cbn [feed]. rewrite (resolver_NRPN_MSB m ch 127 s Hm).
      cbn [mbind option_bind].
      rewrite (resolver_NRPN_LSB m ch 127 _ Hm). reflexivity. }
    destruct (param_after_MSB (g_nrpnParam s) 127 ltac:(lia) ltac:(lia))
      as (Hw1 & Hsum1 & Hb1).
    pose proof (Z.mod_pos_bound (g_nrpnParam s) 128 ltac:(lia)) as Hlow.
    assert (Hp1 : g_nrpnParam (nrpn_MSB 127 s) = g_nrpnParam s mod 128 + 128 * 127)
      by (rewrite nrpn_MSB_param, Hw1; exact Hsum1).
    destruct (param_after_LSB (g_nrpnParam (nrpn_MSB 127 s)) 127
                ltac:(lia) ltac:(lia)) as (Hw2 & Hsum2 & Hb2).
    assert (Hp2 : g_nrpnParam (nrpn_LSB 127 (nrpn_MSB 127 s)) = 16383).
    { rewrite nrpn_LSB_param, Hw2, Hsum2, Hp1.
      replace ((g_nrpnParam s mod 128 + 128 * 127) / 128) with 127;
        [reflexivity |].
      apply Z.div_unique_pos with (g_nrpnParam s mod 128); lia. }
    destruct (nrpn_LSB_inv 127 (nrpn_MSB 127 s)) as (Hslot & Hbuf & _).
    split; [exact Hp2 |].
    split; [rewrite Hbuf, Hp2; reflexivity | rewrite Hslot, Hp2; reflexivity].
Qed.

Lemma nrpn_address_in_bounds_witness :
  is_nrpn MIDI_MODE_NRPN14 = true /\ well_typed started /\
  g_nrpnParam started <= 16383 /\
  exists s',
    feed nrpnCC14 [(0, MIDI_CMD_NRPN_MSB, 127); (0, MIDI_CMD_NRPN_LSB, 127)]
         started = Some s' /\
    g_nrpnParam s' = 16383 /\ g_bufferIndex s' = 31 /\ g_slot s' = 511.
Proof.
  split; [reflexivity |].
  split; [vm_compute; reflexivity |].
  split; [vm_compute; discriminate |].
  destruct (nrpn_address_in_bounds MIDI_MODE_NRPN14 started 0 10)
    as (_ & _ & _ & _ & Hlast);
    [reflexivity | vm_compute; reflexivity | vm_compute; discriminate | lia |].
  exact Hlast.
Defined.

(** C1.  Started with [-u 250] in an NRPN mode, [NRPN_MSB] 127 and
    [NRPN_LSB] 127 select parameter 16383, buffer index 31 and slot 511,
    but the universe is 25 and not 31 + 250 = 281: the sum of buffer index
    and universe base is taken in the [uint8_t] universe counter.  The
    value message that follows sends frame 31 to universe 25. *)
Theorem nrpn_universe_wraps_at_250 :
  (exists s',
     onJackProcess [Some (mkEvent 0xb0 MIDI_CMD_NRPN_MSB 127);
                    Some (mkEvent 0xb0 MIDI_CMD_NRPN_LSB 127)]
                   (started_at_250 MIDI_MODE_NRPN7) = Some s' /\
     feed nrpnCC7 [(0, MIDI_CMD_NRPN_MSB, 127); (0, MIDI_CMD_NRPN_LSB, 127)]
          (started_at_250 MIDI_MODE_NRPN7) = Some s' /\
     g_nrpnParam s' = 16383 /\ g_bufferIndex s' = 31 /\ g_slot s' = 511 /\
     g_universeBase s' = 250 /\
     g_bufferIndex s' + g_universeBase s' = 281 /\
     g_universe s' = 25 /\
     exists s'',
       nrpnCC7 0 MIDI_CMD_DATA_MSB 50 s' = Some s'' /\
       slot_at 31 511 s'' = Some 100 /\
       sent_since s' s''
         [(25, <[511%nat := 100]> (replicate DMX_UNIVERSE_SIZE 0))]) /\
  (exists s',
     onJackProcess [Some (mkEvent 0xb0 MIDI_CMD_NRPN_MSB 127);
                    Some (mkEvent 0xb0 MIDI_CMD_NRPN_LSB 127)]
                   (started_at_250 MIDI_MODE_NRPN14) = Some s' /\
     feed nrpnCC14 [(0, MIDI_CMD_NRPN_MSB, 127); (0, MIDI_CMD_NRPN_LSB, 127)]
          (started_at_250 MIDI_MODE_NRPN14) = Some s' /\
     g_nrpnParam s' = 16383 /\ g_bufferIndex s' = 31 /\ g_slot s' = 511 /\
     g_universeBase s' = 250 /\
     g_bufferIndex s' + g_universeBase s' = 281 /\
     g_universe s' = 25 /\
     exists s'',
       feed nrpnCC14 [(0, MIDI_CMD_DATA_MSB, 50); (0, MIDI_CMD_DATA_LSB, 0)] s' =
         Some s'' /\
       slot_at 31 511 s'' = Some 100 /\
       sent_since s' s''
         [(25, <[511%nat := 100]> (replicate DMX_UNIVERSE_SIZE 0))]).
Proof.
  split; eexists; (split; [vm_compute; reflexivity |]);
    (split; [vm_compute; reflexivity |]);
    (split; [vm_compute; reflexivity |]);
    (split; [vm_compute; reflexivity |]);
    (split; [vm_compute; reflexivity |]);
    (split; [vm_compute; reflexivity |]);
    (split; [vm_compute; reflexivity |]);
    (split; [vm_compute; reflexivity |]);
    eexists; (split; [vm_compute; reflexivity |]);
    split; vm_compute; reflexivity.
Qed.


(** ** The addressing invariant *)

(** A run of value messages stays where it started. *)
Lemma value_feed m msgs : forall s,
  is_nrpn m = true -> nrpn_ok s -> no_selection msgs ->
  exists s',
    feed (resolver m) msgs s = Some s' /\
    nrpn_ok s' /\
    g_nrpnParam s' = g_nrpnParam s /\
    g_slot s' = g_slot s /\
    g_bufferIndex s' = g_bufferIndex s /\
    g_universe s' = g_universe s /\
    g_universeBase s' = g_universeBase s /\
    (forall i, i <> g_bufferIndex s -> frame_at i s' = frame_at i s) /\
    exists l, sent_since s s' l /\ Forall (fun r => fst r = g_universe s) l.
Proof.
  induction msgs as [| [[ch cc] val] rest IH]; intros s Hm Hok Hmsgs.
  - exists s. split; [reflexivity |]. split; [exact Hok |].
    do 5 (split; [reflexivity |]). split; [reflexivity |].
    exists []. split; [| constructor].
    unfold sent_since. symmetry. apply app_nil_r.
  - inversion Hmsgs as [| ? ? [Hn1 Hn2] Hrest]; subst. simpl in Hn1, Hn2.
    destruct (nrpn_value_step m s ch cc val Hm Hok Hn1 Hn2) as (s1 & Hrun & Hst).
    destruct (value_step_effect s s1 Hok Hst)
      as (Hok1 & P1 & S1 & B1 & U1 & Ba1 & F1 & l1 & Hl1 & Hu1).
    destruct (IH s1 Hm Hok1 Hrest)
      as (s' & Hfeed & Hok' & P2 & S2 & B2 & U2 & Ba2 & F2 & l2 & Hl2 & Hu2).
    exists s'. simpl. rewrite Hrun. simpl.
    split; [exact Hfeed |]. split; [exact Hok' |].
    do 5 (split; [congruence |]).
    split.
    { intros i Hi. rewrite F2 by congruence. apply F1. exact Hi. }
    exists (l1 ++ l2). split.
    + unfold sent_since in *. rewrite Hl2, Hl1. symmetry. apply app_assoc.
    + apply Forall_app. split; [exact Hu1 |]. rewrite <- U1. exact Hu2.
Qed.

(** X25.  In the NRPN modes the invariant slot = parameter mod 512,
    buffer index = parameter / 512, universe = (buffer index + universe
    base) mod 256 (the sum in the [uint8_t] universe counter) holds in the
    state [main]
    starts with, where parameter, slot and buffer index are 0 and the
    universe is the universe base, and every message handled by the
    resolver of the mode preserves it.  The slot that the [DEC] case of
    NRPN7 recomputes is therefore the slot already held, and value
    messages that precede any parameter selection work on buffer index 0,
    slot 0 and the universe base. *)
Theorem nrpn_invariant m :
  is_nrpn m = true ->
  (forall opts s0, main opts = Some s0 ->
     nrpn_inv s0 /\ g_nrpnParam s0 = 0 /\ g_slot s0 = 0 /\
     g_bufferIndex s0 = 0 /\ g_universe s0 = g_universeBase s0) /\
  (forall s ch cc val,
     well_typed s -> nrpn_inv s -> g_nrpnParam s <= 16383 -> 0 <= val < 128 ->
     exists s', resolver m ch cc val s = Some s' /\
                well_typed s' /\ nrpn_inv s' /\ g_nrpnParam s' <= 16383) /\
  (forall s ch val,
     well_typed s -> nrpn_inv s -> g_nrpnParam s <= 16383 ->
     set_slot (g_nrpnParam s mod 512) s = s /\
     exists s', nrpnCC7 ch MIDI_CMD_DEC val s = Some s' /\ g_slot s' = g_slot s) /\
  (forall opts s0 msgs,
     main opts = Some s0 -> no_selection msgs ->
     exists s',
       feed (resolver m) msgs s0 = Some s' /\
       g_nrpnParam s' = 0 /\ g_bufferIndex s' = 0 /\ g_slot s' = 0 /\
       g_universe s' = g_universeBase s0 /\
       (forall i, i <> 0 -> frame_at i s' = frame_at i s0) /\
       exists l, sent_since s0 s' l /\
                 Forall (fun r => fst r = g_universeBase s0) l).
Proof.
  intros Hm.
  split; [| split; [| split]].
  - intros opts s0 Hmain.
    destruct (main_nrpn_ok opts s0 Hmain) as [_ Hinv _].
    destruct (main_boot opts s0 Hmain) as ([Hu Hbi Hp Hv Hs Hwt] & _).
    auto.
  - intros s ch cc val Hwt%well_typed_WT Hinv Hp Hval.
    destruct (nrpn_step m s ch cc val Hm (mkOk s Hwt Hinv Hp) Hval)
      as (s' & Hrun & [Hwt' Hinv' Hp'] & _).
    exists s'. split; [exact Hrun |].
    split; [apply well_typed_WT; exact Hwt' |]. split; assumption.
  - intros s ch val Hwt%well_typed_WT Hinv Hp.
    assert (Hsame : set_slot (g_nrpnParam s mod 512) s = s)
      by (apply set_slot_same; apply Hinv).
    split; [exact Hsame |].
    destruct (nrpn_value_step MIDI_MODE_NRPN7 s ch MIDI_CMD_DEC val
                eq_refl (mkOk s Hwt Hinv Hp))
      as (s' & Hrun & Hst); [discriminate | discriminate |].
    exists s'. split; [exact Hrun |].
    destruct (value_step_effect s s' (mkOk s Hwt Hinv Hp) Hst)
      as (_ & _ & Hslot & _). exact Hslot.
  - intros opts s0 msgs Hmain Hmsgs.
    destruct (main_boot opts s0 Hmain) as ([Hu Hbi Hp Hv Hs Hwt] & _).
    destruct (value_feed m msgs s0 Hm (main_nrpn_ok opts s0 Hmain) Hmsgs)
      as (s' & Hfeed & _ & P & S & B & U & _ & F & l & Hl & Hul).
    exists s'. split; [exact Hfeed |].
    split; [congruence |]. split; [congruence |]. split; [congruence |].
    split; [congruence |].
    split; [intros i Hi; apply F; congruence |].
    exists l. split; [exact Hl |]. rewrite <- Hu. exact Hul.
Qed.

Lemma nrpn_invariant_witness :
  is_nrpn MIDI_MODE_NRPN7 = true /\
  main [] = Some started /\
  nrpn_inv started /\
  exists s',
    feed nrpnCC7 [(0, MIDI_CMD_DATA_MSB, 50); (0, MIDI_CMD_INC, 0)] started =
      Some s' /\
    g_bufferIndex s' = 0 /\ g_slot s' = 0 /\
    g_universe s' = g_universeBase started.
Proof.
  split; [reflexivity |].
  split; [vm_compute; reflexivity |].
  destruct (nrpn_invariant MIDI_MODE_NRPN7 eq_refl) as (Hinit & _ & _ & Hpre).
  assert (Hmain : main [] = Some started) by (vm_compute; reflexivity).
  destruct (Hinit [] started Hmain) as (Hinv & _).
  split; [exact Hinv |].
  destruct (Hpre [] started
              [(0, MIDI_CMD_DATA_MSB, 50); (0, MIDI_CMD_INC, 0)] Hmain)
    as (s' & Hfeed & _ & Hbi & Hs & Hu & _).
  { repeat constructor; discriminate. }
  exists s'. split; [exact Hfeed |]. split; [exact Hbi |].
  split; [exact Hs | exact Hu].
Defined.

(** C10.  Started with [-u 250] in an NRPN mode, the invariant slot =
    parameter mod 512, buffer index = parameter / 512, universe = buffer
    index + universe base holds in the initial state (parameter 0, slot 0,
    buffer index 0, universe 250) and the handled message [NRPN_MSB] 127
    breaks it: buffer index and slot follow the parameter 16256, but the
    universe is 25, not 31 + 250, as the sum is taken in the [uint8_t]
    universe counter. *)
Theorem nrpn_invariant_breaks_at_250 :
  main [OptMode MIDI_MODE_NRPN7; OptUniverse 250] =
    Some (started_at_250 MIDI_MODE_NRPN7) /\
  main [OptMode MIDI_MODE_NRPN14; OptUniverse 250] =
    Some (started_at_250 MIDI_MODE_NRPN14) /\
  nrpn_inv_plain (started_at_250 MIDI_MODE_NRPN7) /\
  nrpn_inv_plain (started_at_250 MIDI_MODE_NRPN14) /\
  (exists s',
     processEvent (mkEvent 0xb0 MIDI_CMD_NRPN_MSB 127)
                  (started_at_250 MIDI_MODE_NRPN7) = Some s' /\
     nrpnCC7 0 MIDI_CMD_NRPN_MSB 127 (started_at_250 MIDI_MODE_NRPN7) = Some s' /\
     g_nrpnParam s' = 16256 /\
     g_slot s' = g_nrpnParam s' mod 512 /\
     g_bufferIndex s' = g_nrpnParam s' / 512 /\
     g_bufferIndex s' = 31 /\ g_universeBase s' = 250 /\ g_universe s' = 25 /\
     ~ nrpn_inv_plain s') /\
  (exists s',
     processEvent (mkEvent 0xb0 MIDI_CMD_NRPN_MSB 127)
                  (started_at_250 MIDI_MODE_NRPN14) = Some s' /\
     nrpnCC14 0 MIDI_CMD_NRPN_MSB 127 (started_at_250 MIDI_MODE_NRPN14) = Some s' /\
     g_nrpnParam s' = 16256 /\
     g_slot s' = g_nrpnParam s' mod 512 /\
     g_bufferIndex s' = g_nrpnParam s' / 512 /\
     g_bufferIndex s' = 31 /\ g_universeBase s' = 250 /\ g_universe s' = 25 /\
     ~ nrpn_inv_plain s').
Proof.
  split; [vm_compute; reflexivity |].
  split; [vm_compute; reflexivity |].
  split; [repeat split; vm_compute; reflexivity |].
  split; [repeat split; vm_compute; reflexivity |].
  split; eexists; (split; [vm_compute; reflexivity |]);
    (split; [vm_compute; reflexivity |]);
    (split; [vm_compute; reflexivity |]);
    (split; [vm_compute; reflexivity |]);
    (split; [vm_compute; reflexivity |]);
    (split; [vm_compute; reflexivity |]);
    (split; [vm_compute; reflexivity |]);
    (split; [vm_compute; reflexivity |]);
    intros (_ & _ & Hu); vm_compute in Hu; discriminate.
Qed.


(** ** NRPN14: when a pending value reaches the network *)

Lemma nrpnCC14_silent ch cc val s :
  cc <> MIDI_CMD_DATA_LSB -> cc <> MIDI_CMD_INC -> cc <> MIDI_CMD_DEC ->
  exists s', nrpnCC14 ch cc val s = Some s' /\
             g_dmxBuffer s' = g_dmxBuffer s /\
             g_olaClient s' = g_olaClient s.
Proof.
  intros H1 H2 H3. unfold nrpnCC14.
  destruct (Z.eqb_spec cc MIDI_CMD_NRPN_LSB);
    [eexists; split; [reflexivity | destruct s; split; reflexivity] |].
  destruct (Z.eqb_spec cc MIDI_CMD_NRPN_MSB);
    [eexists; split; [reflexivity | destruct s; split; reflexivity] |].
  destruct (Z.eqb_spec cc MIDI_CMD_DATA_MSB);
    [eexists; split; [reflexivity | destruct s; split; reflexivity] |].
  destruct (Z.eqb_spec cc MIDI_CMD_DATA_LSB); [contradiction |].
  destruct (Z.eqb_spec cc MIDI_CMD_INC); [contradiction |].
  destruct (Z.eqb_spec cc MIDI_CMD_DEC); [contradiction |].
  exists s. auto.
Qed.

Lemma nrpnCC14_silent_feed msgs : forall s,
  no_outlet msgs ->
  exists s', feed nrpnCC14 msgs s = Some s' /\
             g_dmxBuffer s' = g_dmxBuffer s /\
             g_olaClient s' = g_olaClient s.
Proof.
  induction msgs as [| [[ch cc] val] rest IH]; intros s Hmsgs.
  - exists s. auto.
  - inversion Hmsgs as [| ? ? (H1 & H2 & H3) Hrest]; subst. simpl in H1, H2, H3.
    destruct (nrpnCC14_silent ch cc val s H1 H2 H3) as (s1 & Hrun & Hd1 & Hl1).
    destruct (IH s1 Hrest) as (s' & Hfeed & Hd' & Hl').
    exists s'. simpl. rewrite Hrun. simpl.
    split; [exact Hfeed |]. split; congruence.
Qed.

Lemma app_singleton_neq {A} (l : list A) (x : A) : l ++ [x] <> l.
Proof.
  intros H. apply (f_equal length) in H.
  rewrite length_app in H. cbn [length] in H. lia.
Qed.

(** C6, as stated, fails: after [DATA_MSB] with value 50 an [INC] message
    writes and sends 101, the buffered value plus one, and no [DATA_LSB]
    message took part. *)
Lemma nrpn14_inc_sends_buffered_value :
  ~ sent_at_DATA_LSB_only /\
  exists s',
    feed nrpnCC14 [(0, MIDI_CMD_DATA_MSB, 50); (0, MIDI_CMD_INC, 0)] started =
      Some s' /\
    g_nrpnVal s' = 101 /\
    slot_at 0 0 s' = Some 101 /\
    sent_since started s'
      [(1, <[0%nat := 101]> (replicate DMX_UNIVERSE_SIZE 0))].
Proof.
  assert (Hrun : exists s',
            feed nrpnCC14 [(0, MIDI_CMD_DATA_MSB, 50); (0, MIDI_CMD_INC, 0)]
                 started = Some s' /\
            g_nrpnVal s' = 101 /\
            slot_at 0 0 s' = Some 101 /\
            sent_since started s'
              [(1, <[0%nat := 101]> (replicate DMX_UNIVERSE_SIZE 0))]).
  { eexists. split; [vm_compute; reflexivity |].
    split; [vm_compute; reflexivity |]. split; [vm_compute; reflexivity |].
    vm_compute. reflexivity. }
  split; [| exact Hrun].
  intros Hclaim. destruct Hrun as (s' & Hfeed & _ & _ & Hsent).
  assert (Hok : nrpn_ok started).
  { apply (main_nrpn_ok []). vm_compute. reflexivity. }
  assert (Hrest : Forall (fun msg : Z * Z * Z =>
                            snd (fst msg) <> MIDI_CMD_DATA_LSB)
                         [(0, MIDI_CMD_INC, 0)])
    by (constructor; [discriminate | constructor]).
  specialize (Hclaim started 0 50 _ s' Hok Hrest Hfeed).
  unfold sent_since in Hsent. rewrite Hclaim in Hsent.
  exact (app_singleton_neq _ _ (eq_sym Hsent)).
Qed.

(** C6, amended.  In NRPN14 mode [DATA_MSB] only buffers
    [(existing bit 0) | (value << 1)] as the pending value: no frame is
    written and nothing is sent.  [DATA_LSB] sets bit 0 of the pending
    value when the value exceeds 63 and clears it otherwise, writes the
    result to the addressed slot and sends the frame.  No message other
    than [DATA_LSB], [INC] and [DEC] writes a frame or sends one, so a
    buffered value reaches the network only through one of these three.
    [DATA_MSB] with value 50 buffers 100 on top of the existing bit 0,
    without a transmission, and [DATA_LSB] with value 70 after it sends
    101. *)
Theorem nrpn14_data_value s ch val :
  well_typed s -> g_bufferIndex s < 32 -> g_slot s < 512 ->
  0 <= val < 128 ->
  (exists s1,
     nrpnCC14 ch MIDI_CMD_DATA_MSB val s = Some s1 /\
     g_nrpnVal s1 = Z.lor (Z.land (g_nrpnVal s) 0x01) (Z.shiftl val 1) /\
     g_nrpnVal s1 = g_nrpnVal s mod 2 + 2 * val /\
     g_dmxBuffer s1 = g_dmxBuffer s /\
     g_olaClient s1 = g_olaClient s) /\
  (exists s2 new,
     nrpnCC14 ch MIDI_CMD_DATA_LSB val s = Some s2 /\
     new = (if 63 <? val then Z.lor (g_nrpnVal s) 0x01
            else Z.land (g_nrpnVal s) 0xfe) /\
     new = 2 * (g_nrpnVal s / 2) + (if 63 <? val then 1 else 0) /\
     stores s s2 (g_slot s) new) /\
  (forall msgs, no_outlet msgs ->
     exists s', feed nrpnCC14 msgs s = Some s' /\
                g_dmxBuffer s' = g_dmxBuffer s /\
                g_olaClient s' = g_olaClient s) /\
  (exists s1 s2,
     nrpnCC14 ch MIDI_CMD_DATA_MSB 50 s = Some s1 /\
     g_nrpnVal s1 = g_nrpnVal s mod 2 + 100 /\
     g_dmxBuffer s1 = g_dmxBuffer s /\
     g_olaClient s1 = g_olaClient s /\
     nrpnCC14 ch MIDI_CMD_DATA_LSB 70 s1 = Some s2 /\
     stores s s2 (g_slot s) 101).
Proof.
  intros Hwt%well_typed_WT Hbi Hslot Hval.
  destruct (current_buffer_Frame s Hwt Hbi) as (b & Hb & Hf).
  pose proof (wt_nrpnVal s Hwt) as Hv.
  pose proof (wt_slot s Hwt) as Hs0.
  pose proof (wt_bufferIndex s Hwt) as Hbi0.
  assert (Hs : 0 <= g_slot s < 512) by lia.
  split; [| split; [| split]].
  - eexists. split; [apply nrpnCC14_DATA_MSB_run |].
    destruct (msb_byte (g_nrpnVal s) val Hv Hval) as [Hw Hsum].
    rewrite Hw.
    split; [destruct s; reflexivity |].
    split; [rewrite <- Hsum; destruct s; reflexivity |].
    destruct s; split; reflexivity.
  - eexists. eexists.
    split; [apply (nrpnCC14_DATA_LSB_run s ch val b Hb Hf Hs) |].
    split; [reflexivity |].
    split; [apply lsb_byte; exact Hv |].
    apply (stored_stores s s b); auto; lia.
  - intros msgs Hmsgs. apply nrpnCC14_silent_feed. exact Hmsgs.
  - destruct (msb_byte (g_nrpnVal s) 50 Hv ltac:(lia)) as [Hw Hsum].
    pose proof (Z.mod_pos_bound (g_nrpnVal s) 2 ltac:(lia)) as Hbit.
    set (s1 := set_nrpnVal (g_nrpnVal s mod 2 + 2 * 50) s).
    assert (Hrun1 : nrpnCC14 ch MIDI_CMD_DATA_MSB 50 s = Some s1).
    { rewrite nrpnCC14_DATA_MSB_run, Hw, Hsum. reflexivity. }
    assert (Hb1 : current_buffer s1 = Some b) by (destruct s; exact Hb).
    assert (Hs1 : g_slot s1 = g_slot s) by (destruct s; reflexivity).
    assert (Hv1 : g_nrpnVal s1 = g_nrpnVal s mod 2 + 2 * 50)
      by (destruct s; reflexivity).
    assert (Hnew : (if 63 <? 70 then Z.lor (g_nrpnVal s1) 0x01
                    else Z.land (g_nrpnVal s1) 0xfe) = 101).
    { change (63 <? 70) with true. cbv iota. rewrite lor_0x01, Hv1.
      replace ((g_nrpnVal s mod 2 + 2 * 50) / 2) with 50; [reflexivity |].
      apply Z.div_unique with (g_nrpnVal s mod 2); lia. }
    exists s1. eexists.
    split; [exact Hrun1 |].
    split; [rewrite Hv1; lia |].
    split; [destruct s; reflexivity |].
    split; [destruct s; reflexivity |].
    split.
    { rewrite (nrpnCC14_DATA_LSB_run s1 ch 70 b Hb1 Hf ltac:(lia)).
      rewrite Hnew. reflexivity. }
    assert (Hbi1 : g_bufferIndex s1 = g_bufferIndex s)
      by (destruct s; reflexivity).
    assert (Hu1 : g_universe s1 = g_universe s) by (destruct s; reflexivity).
    assert (Hl1 : g_olaClient s1 = g_olaClient s) by (destruct s; reflexivity).
    rewrite <- Hs1.
    apply (stored_stores s s1 b 101 Hb1 Hf); [lia | lia | assumption..].
Qed.

Lemma nrpn14_data_value_witness :
  well_typed started /\ g_bufferIndex started < 32 /\ g_slot started < 512 /\
  exists s1 s2,
    nrpnCC14 0 MIDI_CMD_DATA_MSB 50 started = Some s1 /\
    g_nrpnVal s1 = 100 /\
    g_olaClient s1 = g_olaClient started /\
    nrpnCC14 0 MIDI_CMD_DATA_LSB 70 s1 = Some s2 /\
    g_nrpnVal s2 = 101.
Proof.
  split; [vm_compute; reflexivity |].
  split; [vm_compute; reflexivity |].
  split; [vm_compute; reflexivity |].
  destruct (nrpn14_data_value started 0 50)
    as (_ & _ & _ & s1 & s2 & H1 & Hv1 & _ & Hl1 & H2 & Hv2 & _);
    [vm_compute; reflexivity | vm_compute; reflexivity
     | vm_compute; reflexivity | lia |].
  exists s1, s2.
  split; [exact H1 |]. split; [exact Hv1 |]. split; [exact Hl1 |].
  split; [exact H2 | exact Hv2].
Defined.

(** ** The channel enable mask *)







Lemma processEvent_dispatch ev s :
  Z.testbit (g_midiChannels s) (Z.land (status ev) 0x0f) = true ->
  (g_enableCC s = true -> Z.land (status ev) 0xf0 = 0xb0 ->
   processEvent ev s =
   resolver (g_mode s) (Z.land (status ev) 0x0f) (data1 ev) (data2 ev) s) /\
  (g_enableNote s = true -> Z.land (status ev) 0xf0 = 0x90 ->
   processEvent ev s = cc7 (Z.land (status ev) 0x0f) (data1 ev) (data2 ev) s).
Proof.
  intros Hbit. unfold processEvent.
  assert (Hc : 0 <= Z.land (status ev) 0x0f)
    by (apply Z.land_nonneg; right; lia).
  rewrite mask_test, Hbit by exact Hc. simpl negb.
  split; intros Hen Hcmd; rewrite Hen, Hcmd.
  - reflexivity.
  - change (144 =? 176) with false. rewrite andb_false_r. reflexivity.
Qed.



(** ** Every state of the callback is in bounds *)

Lemma nrpn_ok_bounded s : nrpn_ok s -> bounded s.
Proof.
  intros Hok. destruct (nrpn_ok_bounds s Hok) as [Hbi Hs].
  destruct Hok as [Hwt _ Hp]. constructor; [assumption | lia | lia | assumption].
Qed.

Lemma bounded_set_slot s x : 0 <= x < 512 -> bounded s -> bounded (set_slot x s).
Proof.
  intros Hx [[W1 W2 W3 W4 W5 W6 W7 W8 W9] Hbi Hs Hp].
  destruct s; constructor; simpl in *; try assumption; try lia.
  constructor; simpl; try assumption. lia.
Qed.

Lemma value_step_bounded s s' : bounded s -> value_step s s' -> bounded s'.
Proof.
  intros [Hwt Hbi Hs Hp] Hstep.
  pose proof (wt_slot s Hwt) as Hs0. pose proof (wt_bufferIndex s Hwt) as Hbi0.
  destruct Hstep as [v Hv | v b Hv Hb Hf].
  - constructor; [apply WT_set_nrpnVal; assumption | | |]; destruct s; assumption.
  - destruct (stored_facts v b s Hb Hf ltac:(lia) ltac:(lia))
      as (_ & E1 & E2 & E3 & _).
    constructor; [apply WT_stored; assumption | | |]; congruence.
Qed.

Lemma cc7_bounded s c k v :
  bounded s -> 0 <= c < 16 -> 0 <= k < 128 ->
  exists s', cc7 c k v s = Some s' /\ bounded s'.
Proof.
  intros [Hwt Hbi Hs Hp] Hc Hk.
  destruct (frame_at_Frame s c Hwt ltac:(lia)) as (b & Hb & Hf).
  rewrite (cc7_run s c k v b ltac:(lia) Hb Hf ltac:(lia)).
  eexists. split; [reflexivity |].
  assert (Hwt1 : WT (set_bufferIndex c
                       (set_universe (wrap8 (c + g_universeBase s)) s))).
  { destruct Hwt as [W1 W2 W3 W4 W5 W6 W7 W8 W9].
    pose proof (wrap8_range (c + g_universeBase s)).
    destruct s; constructor; simpl in *; try assumption; lia. }
  constructor.
  - apply WT_emitted. apply WT_written; [exact Hwt1 | exact Hf |].
    apply wrap8_range.
  - destruct s; simpl. lia.
  - destruct s; exact Hs.
  - destruct s; exact Hp.
Qed.

Lemma cc14_bounded s c k v :
  bounded s -> 0 <= c -> 0 <= k ->
  exists s', cc14 c k v s = Some s' /\ bounded s'.
Proof.
  intros Hbd Hc Hk.
  destruct (Z.lt_ge_cases 65 k) as [Hbig | Hsmall];
    [exists s; split; [apply cc14_ignored; exact Hbig | exact Hbd] |].
  pose proof (cc14_slot_range c k Hc Hk) as Hs.
  pose proof (bounded_set_slot s (cc14_slot c k) Hs Hbd) as [Hwt1 Hbi1 Hs1 Hp1].
  destruct Hbd as [Hwt Hbi _ _].
  destruct (current_buffer_Frame s Hwt Hbi) as (b & Hb & Hf).
  destruct (Frame_Get b (cc14_slot c k) Hf Hs) as (old & Hold & Hbyte).
  destruct (Z.le_gt_cases k 31) as [Hmsb | Hlsb].
  - rewrite (cc14_msb_run s c k v b old Hmsb Hb Hf Hs Hold).
    eexists. split; [reflexivity |].
    constructor;
      [apply WT_written; [exact Hwt1 | exact Hf | apply wrap8_range] | | |];
      destruct s; assumption.
  - rewrite (cc14_lsb_run s c k v b old ltac:(lia) Hb Hf Hs Hold).
    eexists. split; [reflexivity |].
    constructor;
      [apply WT_emitted, WT_written;
         [exact Hwt1 | exact Hf | apply lsb_byte_range; exact Hbyte] | | |];
      destruct s; assumption.
Qed.

(** A value message from a bounded state: the step starts from the state
    itself or, in the [DEC] case of NRPN7, from the state with its slot
    recomputed. *)
Lemma nrpn_value_bounded m s ch cc val :
  is_nrpn m = true -> bounded s ->
  cc <> MIDI_CMD_NRPN_LSB -> cc <> MIDI_CMD_NRPN_MSB ->
  exists s', resolver m ch cc val s = Some s' /\ bounded s'.
Proof.
  intros Hm Hbd Hn1 Hn2.
  assert (Hstep : forall s1, bounded s1 ->
            (exists s', nrpn_INC s1 = Some s' /\ bounded s') /\
            (exists s', nrpn_DEC s1 = Some s' /\ bounded s') /\
            (forall v, 0 <= v < 256 ->
               exists s', (s2 ← dmx_SetChannel (g_slot (set_nrpnVal v s1))
                                 (g_nrpnVal (set_nrpnVal v s1))
                                 (set_nrpnVal v s1);
                           ola_SendDmx s2) = Some s' /\ bounded s')).
  { intros s1 Hbd1. pose proof Hbd1 as [Hwt Hbi Hs Hp].
    destruct (current_buffer_Frame s1 Hwt Hbi) as (b & Hb & Hf).
    pose proof (wt_nrpnVal s1 Hwt) as Hv.
    pose proof (wt_slot s1 Hwt) as Hs0.
    assert (Hst : forall v, 0 <= v < 256 -> bounded (stored v b s1)).
    { intros v Hvr. apply (value_step_bounded s1); [exact Hbd1 |].
      apply step_stored; assumption. }
    split; [| split].
    - rewrite (nrpn_INC_run s1 b Hb Hf ltac:(lia) ltac:(lia)).
      destruct (Z.ltb_spec (g_nrpnVal s1) 255); eexists;
        (split; [reflexivity |]); [apply Hst; lia | exact Hbd1].
    - rewrite (nrpn_DEC_run s1 b Hb Hf ltac:(lia) ltac:(lia)).
      destruct (Z.ltb_spec 0 (g_nrpnVal s1)); eexists;
        (split; [reflexivity |]); [apply Hst; lia | exact Hbd1].
    - intros v Hvr. rewrite (store_pending s1 b v Hb Hf ltac:(lia)).
      eexists. split; [reflexivity | apply Hst; exact Hvr]. }
  destruct (Hstep s Hbd) as (Hinc & Hdec & Hstore).
  pose proof (wt_nrpnVal s (bd_WT s Hbd)) as Hv.
  destruct (Z.eq_dec cc MIDI_CMD_DATA_MSB) as [-> | Hn3];
    [| destruct (Z.eq_dec cc MIDI_CMD_INC) as [-> | Hn4];
       [| destruct (Z.eq_dec cc MIDI_CMD_DEC) as [-> | Hn5]]].
  - destruct m; try discriminate; cbn [resolver].
    + apply (Hstore (wrap8 (Z.shiftl val 1))). apply wrap8_range.
    + eexists. split; [apply nrpnCC14_DATA_MSB_run |].
      apply (value_step_bounded s); [exact Hbd |].
      apply step_pending. apply wrap8_range.
  - destruct m; try discriminate; cbn [resolver]; exact Hinc.
  - destruct m; try discriminate; cbn [resolver]; [| exact Hdec].
    apply (Hstep (set_slot (g_nrpnParam s mod 512) s)).
    apply bounded_set_slot; [apply Z.mod_pos_bound; lia | exact Hbd].
  - destruct m; try discriminate; cbn [resolver].
    + exists s. split; [apply nrpnCC7_unhandled; assumption | exact Hbd].
    + destruct (Z.eq_dec cc MIDI_CMD_DATA_LSB) as [-> | Hn6].
      * change (nrpnCC14 ch MIDI_CMD_DATA_LSB val s)
          with (let s1 := if 63 <? val
                          then set_nrpnVal (Z.lor (g_nrpnVal s) 0x01) s
                          else set_nrpnVal (Z.land (g_nrpnVal s) 0xfe) s in
                s' ← dmx_SetChannel (g_slot s1) (g_nrpnVal s1) s1;
                ola_SendDmx s').
        cbv zeta. pose proof (lsb_byte_range (g_nrpnVal s) val Hv) as Hr.
        destruct (63 <? val); apply Hstore; exact Hr.
      * exists s. split; [apply nrpnCC14_unhandled; assumption | exact Hbd].
Qed.

Lemma resolver_bounded m s c k v :
  bounded s -> 0 <= c < 16 -> 0 <= k < 128 -> 0 <= v < 128 ->
  exists s', resolver m c k v s = Some s' /\ bounded s'.
Proof.
  intros Hbd Hc Hk Hv.
  assert (Hnrpn : is_nrpn m = true ->
            exists s', resolver m c k v s = Some s' /\ bounded s').
  { intros Hm.
    destruct (Z.eq_dec k MIDI_CMD_NRPN_LSB) as [-> | Hn1];
      [| destruct (Z.eq_dec k MIDI_CMD_NRPN_MSB) as [-> | Hn2]].
    - exists (nrpn_LSB v s). split; [apply resolver_NRPN_LSB; exact Hm |].
      destruct Hbd as [Hwt _ _ Hp]. pose proof (wt_nrpnParam s Hwt).
      apply nrpn_ok_bounded.
      constructor; [apply nrpn_LSB_WT; exact Hwt | apply nrpn_LSB_inv |].
      rewrite nrpn_LSB_param.
      destruct (param_after_LSB (g_nrpnParam s) v ltac:(lia) Hv)
        as (-> & -> & Hb). lia.
    - exists (nrpn_MSB v s). split; [apply resolver_NRPN_MSB; exact Hm |].
      destruct Hbd as [Hwt _ _ Hp]. pose proof (wt_nrpnParam s Hwt).
      apply nrpn_ok_bounded.
      constructor; [apply nrpn_MSB_WT; exact Hwt | apply nrpn_MSB_inv |].
      rewrite nrpn_MSB_param.
      destruct (param_after_MSB (g_nrpnParam s) v ltac:(lia) Hv)
        as (-> & -> & Hb). lia.
    - apply nrpn_value_bounded; assumption. }
  destruct m; cbn [resolver].
  - apply cc7_bounded; assumption.
  - apply cc14_bounded; [assumption | lia | lia].
  - apply (Hnrpn eq_refl).
  - apply (Hnrpn eq_refl).
Qed.

Lemma channel_nibble x : 0 <= Z.land x 0x0f < 16.
Proof.
  change 0x0f with (Z.ones 4). rewrite Z.land_ones by lia.
  change (2 ^ 4) with 16. apply Z.mod_pos_bound. lia.
Qed.

Lemma processEvent_bounded ev s :
  bounded s -> data_bytes ev ->
  exists s', processEvent ev s = Some s' /\ bounded s'.
Proof.
  intros Hbd [Hd1 Hd2]. unfold processEvent.
  pose proof (channel_nibble (status ev)) as Hc.
  destruct (g_enableCC s && (Z.land (status ev) 0xf0 =? 0xb0)).
  - destruct (Z.land (Z.shiftl 1 (Z.land (status ev) 0x0f)) (g_midiChannels s) =? 0);
      [exists s; auto |].
    apply resolver_bounded; assumption.
  - destruct (g_enableNote s && (Z.land (status ev) 0xf0 =? 0x90));
      [| exists s; auto].
    destruct (Z.land (Z.shiftl 1 (Z.land (status ev) 0x0f)) (g_midiChannels s) =? 0);
      [exists s; auto |].
    apply cc7_bounded; assumption.
Qed.

(** The callback never reaches outside the store: from the state [main]
    produces, any number of processing cycles whose events carry MIDI data
    bytes run to completion, in every mode and with any listening flags. *)
Lemma onJackProcess_bounded batch : forall s,
  bounded s ->
  Forall (fun e => match e with Some ev => data_bytes ev | None => True end)
         batch ->
  exists s', onJackProcess batch s = Some s' /\ bounded s'.
Proof.
  induction batch as [| e rest IH]; intros s Hbd Hbatch.
  - exists s. auto.
  - inversion Hbatch as [| ? ? He Hrest]; subst.
    destruct e as [ev |]; simpl.
    + destruct (processEvent_bounded ev s Hbd He) as (s1 & Hrun & Hbd1).
      rewrite Hrun. simpl. apply IH; assumption.
    + apply IH; assumption.
Qed.

Lemma main_bounded opts s : main opts = Some s -> bounded s.
Proof. intros Hmain. apply nrpn_ok_bounded. exact (main_nrpn_ok opts s Hmain). Qed.

(** ** The callback as a whole *)

Lemma same_config_refl s : same_config s s.
Proof. repeat split. Qed.

Lemma same_config_trans s1 s2 s3 :
  same_config s1 s2 -> same_config s2 s3 -> same_config s1 s3.
Proof.
  intros (A1 & A2 & A3 & A4 & A5) (B1 & B2 & B3 & B4 & B5).
  repeat split; congruence.
Qed.

Lemma dmx_SetChannel_config slot v s s' :
  dmx_SetChannel slot v s = Some s' -> same_config s s'.
Proof.
  unfold dmx_SetChannel. intros H.
  destruct (current_buffer s) as [b |]; [| discriminate]. simpl in H.
  destruct (SetChannel b slot v) as [b' |]; [| discriminate]. simpl in H.
  injection H as <-. destruct s; repeat split.
Qed.

Lemma ola_SendDmx_config s s' : ola_SendDmx s = Some s' -> same_config s s'.
Proof.
  unfold ola_SendDmx. intros H.
  destruct (current_buffer s) as [b |]; [| discriminate]. simpl in H.
  injection H as <-. destruct s; repeat split.
Qed.

Lemma write_send_config slot v s s' :
  (s1 ← dmx_SetChannel slot v s; ola_SendDmx s1) = Some s' -> same_config s s'.
Proof.
  intros H. destruct (dmx_SetChannel slot v s) as [s1 |] eqn:H1; [| discriminate].
  simpl in H.
  exact (same_config_trans _ _ _ (dmx_SetChannel_config _ _ _ _ H1)
           (ola_SendDmx_config _ _ H)).
Qed.

Lemma cc7_config c k v s s' : cc7 c k v s = Some s' -> same_config s s'.
Proof.
  unfold cc7. intros H. apply write_send_config in H.
  destruct s; exact H.
Qed.

Lemma cc14_config c k v s s' : cc14 c k v s = Some s' -> same_config s s'.
Proof.
  unfold cc14. intros H.
  destruct (65 <? k); [injection H as <-; apply same_config_refl |].
  destruct (dmx_Get _ _) as [old |]; [| discriminate]. simpl in H.
  destruct (31 <? k).
  - apply write_send_config in H. destruct s; exact H.
  - apply dmx_SetChannel_config in H. destruct s; exact H.
Qed.

Lemma nrpn_INC_config s s' : nrpn_INC s = Some s' -> same_config s s'.
Proof.
  unfold nrpn_INC. intros H.
  destruct (g_nrpnVal s <? 255); [| injection H as <-; apply same_config_refl].
  apply write_send_config in H. destruct s; exact H.
Qed.

Lemma nrpn_DEC_config s s' : nrpn_DEC s = Some s' -> same_config s s'.
Proof.
  unfold nrpn_DEC. intros H.
  destruct (0 <? g_nrpnVal s); [| injection H as <-; apply same_config_refl].
  apply write_send_config in H. destruct s; exact H.
Qed.

Lemma nrpnCC7_config c k v s s' : nrpnCC7 c k v s = Some s' -> same_config s s'.
Proof.
  unfold nrpnCC7. intros H.
  destruct (k =? MIDI_CMD_NRPN_LSB);
    [injection H as <-; destruct s; repeat split |].
  destruct (k =? MIDI_CMD_NRPN_MSB);
    [injection H as <-; destruct s; repeat split |].
  destruct (k =? MIDI_CMD_DATA_MSB).
  { apply write_send_config in H. destruct s; exact H. }
  destruct (k =? MIDI_CMD_INC); [exact (nrpn_INC_config s s' H) |].
  destruct (k =? MIDI_CMD_DEC).
  { apply nrpn_DEC_config in H. destruct s; exact H. }
  injection H as <-. apply same_config_refl.
Qed.

Lemma nrpnCC14_config c k v s s' : nrpnCC14 c k v s = Some s' -> same_config s s'.
Proof.
  unfold nrpnCC14. intros H.
  destruct (k =? MIDI_CMD_NRPN_LSB);
    [injection H as <-; destruct s; repeat split |].
  destruct (k =? MIDI_CMD_NRPN_MSB);
    [injection H as <-; destruct s; repeat split |].
  destruct (k =? MIDI_CMD_DATA_MSB);
    [injection H as <-; destruct s; repeat split |].
  destruct (k =? MIDI_CMD_DATA_LSB).
  { apply write_send_config in H.
    destruct (63 <? v); destruct s; exact H. }
  destruct (k =? MIDI_CMD_INC); [exact (nrpn_INC_config s s' H) |].
  destruct (k =? MIDI_CMD_DEC); [exact (nrpn_DEC_config s s' H) |].
  injection H as <-. apply same_config_refl.
Qed.

Lemma processEvent_config ev s s' :
  processEvent ev s = Some s' -> same_config s s'.
Proof.
  unfold processEvent. intros H.
  destruct (g_enableCC s && (Z.land (status ev) 0xf0 =? 0xb0)).
  - destruct (Z.land _ (g_midiChannels s) =? 0);
      [injection H as <-; apply same_config_refl |].
    destruct (g_mode s); cbn [resolver] in H.
    + exact (cc7_config _ _ _ _ _ H).
    + exact (cc14_config _ _ _ _ _ H).
    + exact (nrpnCC7_config _ _ _ _ _ H).
    + exact (nrpnCC14_config _ _ _ _ _ H).
  - destruct (g_enableNote s && (Z.land (status ev) 0xf0 =? 0x90));
      [| injection H as <-; apply same_config_refl].
    destruct (Z.land _ (g_midiChannels s) =? 0);
      [injection H as <-; apply same_config_refl |].
    exact (cc7_config _ _ _ _ _ H).
Qed.

Lemma onJackProcess_config batch : forall s s',
  onJackProcess batch s = Some s' -> same_config s s'.
Proof.
  induction batch as [| e rest IH]; intros s s' H; simpl in H.
  - injection H as <-. apply same_config_refl.
  - destruct e as [ev |]; [| exact (IH s s' H)].
    destruct (processEvent ev s) as [s1 |] eqn:H1; [| discriminate].
    simpl in H.
    exact (same_config_trans _ _ _ (processEvent_config _ _ _ H1) (IH _ _ H)).
Qed.

(** X1.  From the state [main] produces, any number of processing cycles
    whose events carry MIDI data bytes runs to completion in every mode and
    with any listening flags: no cycle reaches outside the 32 frames of 512
    slots, the parameter stays a 14-bit number, and mode, universe base,
    channel mask and listening flags stay as start-up left them. *)
Theorem callback_stays_in_bounds opts s0 batches :
  main opts = Some s0 -> Forall midi_batch batches ->
  exists s',
    cycles batches s0 = Some s' /\
    well_typed s' /\
    0 <= g_bufferIndex s' < 32 /\
    0 <= g_slot s' < 512 /\
    0 <= g_nrpnParam s' <= 16383 /\
    same_config s0 s'.
Proof.
  intros Hmain Hbatches.
  assert (Hgen : forall s, bounded s ->
            exists s', cycles batches s = Some s' /\ bounded s' /\
                       same_config s s').
  { clear Hmain. induction Hbatches as [| batch rest Hbatch _ IH]; intros s Hbd.
    - exists s. split; [reflexivity |]. split; [exact Hbd | apply same_config_refl].
    - destruct (onJackProcess_bounded batch s Hbd Hbatch) as (s1 & Hrun & Hbd1).
      destruct (IH s1 Hbd1) as (s' & Hrest & Hbd' & Hcfg).
      exists s'. simpl. rewrite Hrun. simpl.
      split; [exact Hrest |]. split; [exact Hbd' |].
      exact (same_config_trans _ _ _ (onJackProcess_config _ _ _ Hrun) Hcfg). }
  destruct (Hgen s0 (main_bounded opts s0 Hmain)) as (s' & Hrun & [Hwt Hbi Hs Hp] & Hcfg).
  exists s'. split; [exact Hrun |].
  pose proof (wt_bufferIndex s' Hwt). pose proof (wt_slot s' Hwt).
  pose proof (wt_nrpnParam s' Hwt).
  split; [apply well_typed_WT; exact Hwt |].
  repeat split; try lia; apply Hcfg.
Qed.

Lemma callback_stays_in_bounds_witness :
  main [OptNote; OptCC; OptMode MIDI_MODE_NRPN14] =
    Some (default globals0 (main [OptNote; OptCC; OptMode MIDI_MODE_NRPN14])) /\
  exists s',
    cycles [[Some (mkEvent 0x93 60 100); None; Some (mkEvent 0xb0 99 127)];
            [Some (mkEvent 0xb0 6 50); Some (mkEvent 0xb0 38 70)]]
           (default globals0 (main [OptNote; OptCC; OptMode MIDI_MODE_NRPN14])) =
      Some s' /\
    0 <= g_bufferIndex s' < 32.
Proof.
  split; [vm_compute; reflexivity |].
  destruct (callback_stays_in_bounds
              [OptNote; OptCC; OptMode MIDI_MODE_NRPN14]
              (default globals0 (main [OptNote; OptCC; OptMode MIDI_MODE_NRPN14]))
              [[Some (mkEvent 0x93 60 100); None; Some (mkEvent 0xb0 99 127)];
               [Some (mkEvent 0xb0 6 50); Some (mkEvent 0xb0 38 70)]])
    as (s' & Hrun & _ & Hbi & _).
  - vm_compute. reflexivity.
  - repeat constructor; simpl; lia.
  - exists s'. split; [exact Hrun | exact Hbi].
Defined.

(** X3.  An event whose command is neither Control-Change nor Note-On, a
    Control-Change event while CC listening is off, and a Note-On event
    while note listening is off all leave the state as it is, whatever the
    mode, the channel and the data bytes; so does a whole batch of such
    events. *)
Theorem unlistened_events_ignored s batch :
  Forall (fun e => match e with
                   | None => True
                   | Some ev =>
                       (Z.land (status ev) 0xf0 <> 0xb0 /\
                        Z.land (status ev) 0xf0 <> 0x90) \/
                       (Z.land (status ev) 0xf0 = 0xb0 /\ g_enableCC s = false) \/
                       (Z.land (status ev) 0xf0 = 0x90 /\ g_enableNote s = false)
                   end) batch ->
  onJackProcess batch s = Some s.
Proof.
  induction 1 as [| e rest He _ IH]; [reflexivity |].
  destruct e as [ev |]; simpl; [| exact IH].
  assert (Hev : processEvent ev s = Some s).
  { unfold processEvent.
    destruct He as [[H1 H2] | [[H1 H2] | [H1 H2]]].
    - destruct (Z.eqb_spec (Z.land (status ev) 0xf0) 0xb0); [contradiction |].
      destruct (Z.eqb_spec (Z.land (status ev) 0xf0) 0x90); [contradiction |].
      rewrite !andb_false_r. reflexivity.
    - rewrite H1, H2. cbn [andb]. change (176 =? 144) with false.
      rewrite andb_false_r. reflexivity.
    - rewrite H1, H2. change (144 =? 176) with false.
      rewrite andb_false_r. reflexivity. }
  rewrite Hev. exact IH.
Qed.

Lemma unlistened_events_ignored_witness :
  onJackProcess [Some (mkEvent 0x80 60 0); None; Some (mkEvent 0x95 60 100);
                 Some (mkEvent 0xe0 0 64)] started = Some started.
Proof.
  apply (unlistened_events_ignored started).
  constructor; [left; split; discriminate |].
  constructor; [exact I |].
  constructor; [right; right; split; [reflexivity | vm_compute; reflexivity] |].
  constructor; [left; split; discriminate |].
  constructor.
Defined.

(** ** CC7: writes to one slot compose *)

Lemma WT_lookup_Frame s i b :
  WT s -> g_dmxBuffer s !! i = Some b -> Frame b.
Proof. intros Hwt Hb. exact (Forall_lookup_1 _ _ _ _ (wt_frames s Hwt) Hb). Qed.

(** The store after [cc7]. *)
Lemma cc7_store s c k v b :
  WT s -> 0 <= c < 16 -> 0 <= k < 128 ->
  g_dmxBuffer s !! Z.to_nat c = Some b ->
  exists s',
    cc7 c k v s = Some s' /\ WT s' /\
    g_dmxBuffer s' =
      <[Z.to_nat c := <[Z.to_nat k := wrap8 (Z.shiftl v 1)]> b]> (g_dmxBuffer s) /\
    g_universe s' = wrap8 (c + g_universeBase s) /\
    g_bufferIndex s' = c /\
    same_config s s' /\
    g_nrpnParam s' = g_nrpnParam s /\ g_nrpnVal s' = g_nrpnVal s /\
    g_slot s' = g_slot s.
Proof.
  intros Hwt Hc Hk Hb.
  pose proof (WT_lookup_Frame s _ b Hwt Hb) as Hf.
  assert (Hat : frame_at c s = Some b).
  { unfold frame_at. destruct (Z.ltb_spec c 0); [lia | exact Hb]. }
  rewrite (cc7_run s c k v b ltac:(lia) Hat Hf ltac:(lia)).
  eexists. split; [reflexivity |].
  split.
  { apply WT_emitted, WT_written; [| exact Hf | apply wrap8_range].
    destruct Hwt as [W1 W2 W3 W4 W5 W6 W7 W8 W9].
    pose proof (wrap8_range (c + g_universeBase s)).
    destruct s; constructor; simpl in *; try assumption; lia. }
  destruct s; repeat split.
Qed.

(** X4.  In CC7 mode the last value sent to a controller wins: after a
    message for channel [c], controller [k], a second message for the same
    pair leaves every global but the log of requests as that second message
    alone would; so a repeated message changes no frame. *)
Theorem cc7_last_write_wins s c k v1 v2 :
  well_typed s -> 0 <= c < 16 -> 0 <= k < 128 ->
  exists s1 s12 s2,
    cc7 c k v1 s = Some s1 /\
    cc7 c k v2 s1 = Some s12 /\
    cc7 c k v2 s = Some s2 /\
    same_but_log s2 s12 /\
    (v1 = v2 -> g_dmxBuffer s12 = g_dmxBuffer s1).
Proof.
  intros Hwt%well_typed_WT Hc Hk.
  destruct (lookup_lt_is_Some_2 (g_dmxBuffer s) (Z.to_nat c)) as [b Hb];
    [rewrite (wt_store s Hwt); lia |].
  destruct (cc7_store s c k v1 b Hwt Hc Hk Hb)
    as (s1 & Hrun1 & Hwt1 & Hd1 & Hu1 & Hbi1 & (C1 & C2 & C3 & C4 & C5) & P1 & V1 & S1).
  assert (Hb1 : g_dmxBuffer s1 !! Z.to_nat c =
                Some (<[Z.to_nat k := wrap8 (Z.shiftl v1 1)]> b)).
  { rewrite Hd1. apply list_lookup_insert_eq. rewrite (wt_store s Hwt). lia. }
  destruct (cc7_store s1 c k v2 _ Hwt1 Hc Hk Hb1)
    as (s12 & Hrun12 & _ & Hd12 & Hu12 & Hbi12 & (D1 & D2 & D3 & D4 & D5) & P12 & V12 & S12).
  destruct (cc7_store s c k v2 b Hwt Hc Hk Hb)
    as (s2 & Hrun2 & _ & Hd2 & Hu2 & Hbi2 & (E1 & E2 & E3 & E4 & E5) & P2 & V2 & S2).
  exists s1, s12, s2.
  split; [exact Hrun1 |]. split; [exact Hrun12 |]. split; [exact Hrun2 |].
  assert (Hframes : g_dmxBuffer s12 = g_dmxBuffer s2).
  { rewrite Hd12, Hd1, Hd2, !list_insert_insert_eq. reflexivity. }
  split.
  - unfold same_but_log, same_config.
    repeat split; congruence.
  - intros <-. rewrite Hframes, Hd2, Hd1. reflexivity.
Qed.

Lemma cc7_last_write_wins_witness :
  well_typed started /\
  exists s1 s12,
    cc7 2 7 64 started = Some s1 /\
    cc7 2 7 64 s1 = Some s12 /\
    g_dmxBuffer s12 = g_dmxBuffer s1.
Proof.
  split; [vm_compute; reflexivity |].
  destruct (cc7_last_write_wins started 2 7 64 64)
    as (s1 & s12 & _ & H1 & H12 & _ & _ & Hsame);
    [vm_compute; reflexivity | lia | lia |].
  exists s1, s12. split; [exact H1 |]. split; [exact H12 |].
  exact (Hsame eq_refl).
Defined.

(** X5.  In CC7 mode messages for different slots do not disturb each
    other: two messages that differ in channel or in controller number
    leave the same frames whichever comes first. *)
Theorem cc7_slots_commute s c1 k1 v1 c2 k2 v2 :
  well_typed s ->
  0 <= c1 < 16 -> 0 <= k1 < 128 -> 0 <= c2 < 16 -> 0 <= k2 < 128 ->
  c1 <> c2 \/ k1 <> k2 ->
  exists s12 s21,
    feed cc7 [(c1, k1, v1); (c2, k2, v2)] s = Some s12 /\
    feed cc7 [(c2, k2, v2); (c1, k1, v1)] s = Some s21 /\
    g_dmxBuffer s12 = g_dmxBuffer s21.
Proof.
  intros Hwt%well_typed_WT Hc1 Hk1 Hc2 Hk2 Hne.
  pose proof (wt_store s Hwt) as Hlen.
  destruct (lookup_lt_is_Some_2 (g_dmxBuffer s) (Z.to_nat c1)) as [b1 Hb1];
    [rewrite Hlen; lia |].
  destruct (lookup_lt_is_Some_2 (g_dmxBuffer s) (Z.to_nat c2)) as [b2 Hb2];
    [rewrite Hlen; lia |].
  destruct (cc7_store s c1 k1 v1 b1 Hwt Hc1 Hk1 Hb1)
    as (s1 & Hrun1 & Hwt1 & Hd1 & _).
  destruct (cc7_store s c2 k2 v2 b2 Hwt Hc2 Hk2 Hb2)
    as (s2 & Hrun2 & Hwt2 & Hd2 & _).
  set (w1 := wrap8 (Z.shiftl v1 1)) in *.
  set (w2 := wrap8 (Z.shiftl v2 1)) in *.
  destruct (Z.eq_dec c1 c2) as [Hc | Hc].
  - subst c2. assert (Hk : k1 <> k2) by (destruct Hne; [contradiction | assumption]).
    assert (b2 = b1) by congruence. subst b2.
    assert (Hb12 : g_dmxBuffer s1 !! Z.to_nat c1 = Some (<[Z.to_nat k1 := w1]> b1))
      by (rewrite Hd1; apply list_lookup_insert_eq; rewrite Hlen; lia).
    assert (Hb21 : g_dmxBuffer s2 !! Z.to_nat c1 = Some (<[Z.to_nat k2 := w2]> b1))
      by (rewrite Hd2; apply list_lookup_insert_eq; rewrite Hlen; lia).
    destruct (cc7_store s1 c1 k2 v2 _ Hwt1 Hc1 Hk2 Hb12) as (s12 & Hrun12 & _ & Hd12 & _).
    destruct (cc7_store s2 c1 k1 v1 _ Hwt2 Hc1 Hk1 Hb21) as (s21 & Hrun21 & _ & Hd21 & _).
    exists s12, s21. simpl. rewrite Hrun1, Hrun2. simpl. rewrite Hrun12, Hrun21.
    split; [reflexivity |]. split; [reflexivity |].
    rewrite Hd12, Hd21, Hd1, Hd2, !list_insert_insert_eq.
    fold w1 w2. f_equal. apply list_insert_insert_ne. lia.
  - assert (Hb12 : g_dmxBuffer s1 !! Z.to_nat c2 = Some b2)
      by (rewrite Hd1, list_lookup_insert_ne by lia; exact Hb2).
    assert (Hb21 : g_dmxBuffer s2 !! Z.to_nat c1 = Some b1)
      by (rewrite Hd2, list_lookup_insert_ne by lia; exact Hb1).
    destruct (cc7_store s1 c2 k2 v2 _ Hwt1 Hc2 Hk2 Hb12) as (s12 & Hrun12 & _ & Hd12 & _).
    destruct (cc7_store s2 c1 k1 v1 _ Hwt2 Hc1 Hk1 Hb21) as (s21 & Hrun21 & _ & Hd21 & _).
    exists s12, s21. simpl. rewrite Hrun1, Hrun2. simpl. rewrite Hrun12, Hrun21.
    split; [reflexivity |]. split; [reflexivity |].
    rewrite Hd12, Hd21, Hd1, Hd2. fold w1 w2.
    apply list_insert_insert_ne. lia.
Qed.

Lemma cc7_slots_commute_witness :
  well_typed started /\
  exists s12 s21,
    feed cc7 [(0, 5, 100); (3, 5, 20)] started = Some s12 /\
    feed cc7 [(3, 5, 20); (0, 5, 100)] started = Some s21 /\
    g_dmxBuffer s12 = g_dmxBuffer s21.
Proof.
  split; [vm_compute; reflexivity |].
  apply (cc7_slots_commute started 0 5 100 3 5 20);
    [vm_compute; reflexivity | lia | lia | lia | lia | left; lia].
Defined.

(** ** CC14: the two phases together *)

Lemma cc14_slot_lsb c k : cc14_slot c (k + 32) = cc14_slot c k.
Proof.
  unfold cc14_slot. f_equal. f_equal. f_equal.
  replace (k + 32) with (k + 1 * 32) by lia. apply Z.mod_add. lia.
Qed.

Lemma cc14_slot_low c k : 0 <= c -> 0 <= k -> 0 <= cc14_slot c k < 256.
Proof.
  intros Hc Hk. rewrite cc14_slot_value by assumption.
  pose proof (Z.mod_pos_bound k 32 ltac:(lia)).
  change 256 with (8 * 32) at 1 2. rewrite Z.mul_mod_distr_r by lia.
  pose proof (Z.mod_pos_bound c 8 ltac:(lia)). lia.
Qed.

(** X6.  In CC14 mode the most-significant message for controller [k] of
    0..31 followed by the least-significant message for controller
    [k + 32] on the same channel leaves [2 * v + 1] in the slot when the
    second value exceeds 63 and [2 * v] otherwise, whatever the slot held
    before; nothing is sent after the first message and the full frame,
    holding that value, after the second. *)
Theorem cc14_assembles_value s c k v w :
  well_typed s -> g_bufferIndex s < 32 ->
  0 <= c < 16 -> 0 <= k <= 31 -> 0 <= v < 128 ->
  exists s1 s2 b2,
    cc14 c k v s = Some s1 /\
    cc14 c (k + 32) w s1 = Some s2 /\
    sent_since s s1 [] /\
    frame_at (g_bufferIndex s) s2 = Some b2 /\
    Get b2 (cc14_slot c k) = Some (2 * v + (if 63 <? w then 1 else 0)) /\
    sent_since s1 s2 [(g_universe s, b2)].
Proof.
  intros Hwt%well_typed_WT Hbi Hc Hk Hv.
  destruct (current_buffer_Frame s Hwt Hbi) as (b & Hb & Hf).
  pose proof (cc14_slot_range c k ltac:(lia) ltac:(lia)) as Hs.
  destruct (Frame_Get b (cc14_slot c k) Hf Hs) as (old & Hold & Hbyte).
  pose proof (cc14_msb_run s c k v b old ltac:(lia) Hb Hf Hs Hold) as Hrun1.
  destruct (msb_byte old v Hbyte Hv) as [Hw Hv1].
  rewrite Hw, Hv1 in Hrun1.
  pose proof (Z.mod_pos_bound old 2 ltac:(lia)) as Hbit.
  set (v1 := old mod 2 + 2 * v) in *.
  set (b1 := <[Z.to_nat (cc14_slot c k) := v1]> b) in *.
  set (s1 := written (cc14_slot c k) v1 b (set_slot (cc14_slot c k) s)) in *.
  assert (Hv1r : 0 <= v1 < 256) by (subst v1; lia).
  assert (Hb1 : current_buffer s1 = Some b1).
  { apply current_buffer_written. rewrite current_buffer_set_slot. exact Hb. }
  assert (Hf1 : Frame b1) by (apply Frame_insert; assumption).
  assert (Hold1 : Get b1 (cc14_slot c (k + 32)) = Some v1).
  { rewrite cc14_slot_lsb. apply Get_insert_eq; assumption. }
  assert (Hs' : 0 <= cc14_slot c (k + 32) < 512) by (rewrite cc14_slot_lsb; exact Hs).
  pose proof (cc14_lsb_run s1 c (k + 32) w b1 v1 ltac:(lia) Hb1 Hf1 Hs' Hold1)
    as Hrun2.
  rewrite (lsb_byte v1 w Hv1r) in Hrun2.
  replace (v1 / 2) with v in Hrun2
    by (subst v1; apply Z.div_unique with (old mod 2); lia).
  rewrite cc14_slot_lsb in Hrun2.
  set (v2 := 2 * v + (if 63 <? w then 1 else 0)) in *.
  assert (Hbi1 : g_bufferIndex s1 = g_bufferIndex s) by (destruct s; reflexivity).
  assert (Hat : frame_at (g_bufferIndex s)
            (emitted (<[Z.to_nat (cc14_slot c k) := v2]> b1)
               (written (cc14_slot c k) v2 b1 (set_slot (cc14_slot c k) s1))) =
          Some (<[Z.to_nat (cc14_slot c k) := v2]> b1)).
  { rewrite frame_at_emitted, <- Hbi1.
    apply (frame_at_written (set_slot (cc14_slot c k) s1)).
    rewrite current_buffer_set_slot. exact Hb1. }
  eexists s1, _, _.
  split; [exact Hrun1 |]. split; [exact Hrun2 |].
  split; [unfold sent_since; destruct s; simpl; symmetry; apply app_nil_r |].
  split; [exact Hat |].
  split; [apply (Get_insert_eq b1 (cc14_slot c k) v2 Hf1 Hs) |].
  unfold sent_since. destruct s; reflexivity.
Qed.

Lemma cc14_assembles_value_witness :
  well_typed started /\ g_bufferIndex started < 32 /\
  exists s1 s2 b2,
    cc14 1 31 127 started = Some s1 /\
    cc14 1 (31 + 32) 64 s1 = Some s2 /\
    frame_at (g_bufferIndex started) s2 = Some b2 /\
    Get b2 (cc14_slot 1 31) = Some 255.
Proof.
  split; [vm_compute; reflexivity |].
  split; [vm_compute; reflexivity |].
  destruct (cc14_assembles_value started 1 31 127 64)
    as (s1 & s2 & b2 & H1 & H2 & _ & H3 & H4 & _);
    [vm_compute; reflexivity | vm_compute; reflexivity | lia | lia | lia |].
  exists s1, s2, b2. split; [exact H1 |]. split; [exact H2 |].
  split; [exact H3 | exact H4].
Defined.

(** One CC14 message from a state in bounds. *)
Lemma cc14_step s c k v :
  bounded s -> 0 <= c < 16 -> 0 <= k < 128 ->
  exists s',
    cc14 c k v s = Some s' /\ bounded s' /\
    g_universe s' = g_universe s /\
    g_bufferIndex s' = g_bufferIndex s /\
    (k <= 65 -> g_slot s' = cc14_slot c k) /\
    (forall i, i <> g_bufferIndex s -> frame_at i s' = frame_at i s) /\
    (forall slot, 0 <= slot -> slot <> cc14_slot c k ->
       slot_at (g_bufferIndex s) slot s' = slot_at (g_bufferIndex s) slot s) /\
    exists l, sent_since s s' l /\ Forall (fun r => fst r = g_universe s) l.
Proof.
  intros Hbd Hc Hk.
  destruct (cc14_bounded s c k v Hbd ltac:(lia) ltac:(lia)) as (s' & Hrun & Hbd').
  exists s'. split; [exact Hrun |]. split; [exact Hbd' |].
  clear Hbd'. destruct Hbd as [Hwt Hbi _ _].
  pose proof (wt_bufferIndex s Hwt) as Hbi0.
  destruct (current_buffer_Frame s Hwt Hbi) as (b & Hb & Hf).
  pose proof (cc14_slot_range c k ltac:(lia) ltac:(lia)) as Hs.
  destruct (Frame_Get b (cc14_slot c k) Hf Hs) as (old & Hold & Hbyte).
  assert (Hb0 : current_buffer (set_slot (cc14_slot c k) s) = Some b)
    by (rewrite current_buffer_set_slot; exact Hb).
  assert (Hsame : forall x slot, 0 <= slot -> slot <> cc14_slot c k ->
            Get (<[Z.to_nat (cc14_slot c k) := x]> b) slot = Get b slot).
  { intros x slot H0 Hne. apply Get_insert_ne; lia. }
  assert (Hfr : frame_at (g_bufferIndex s) s = Some b) by exact Hb.
  destruct (Z.lt_ge_cases 65 k) as [Hbig | Hsmall];
    [| destruct (Z.le_gt_cases k 31) as [Hmsb | Hlsb]].
  - rewrite (cc14_ignored c k v s Hbig) in Hrun. injection Hrun as <-.
    do 2 (split; [reflexivity |]). split; [lia |].
    do 2 (split; [reflexivity |]).
    exists []. split; [| constructor]. unfold sent_since. symmetry. apply app_nil_r.
  - rewrite (cc14_msb_run s c k v b old Hmsb Hb Hf Hs Hold) in Hrun.
    injection Hrun as <-.
    do 3 (split; [destruct s; reflexivity |]).
    split.
    { intros i Hi. rewrite (frame_at_written_ne (set_slot (cc14_slot c k) s)).
      - destruct s; reflexivity.
      - destruct s; simpl in *; lia.
      - destruct s; exact Hi. }
    split.
    { intros slot H0 Hne.
      rewrite (slot_at_frame _ _ _ _ Hfr).
      erewrite slot_at_frame;
        [| replace (g_bufferIndex s)
             with (g_bufferIndex (set_slot (cc14_slot c k) s))
             by (destruct s; reflexivity);
           apply frame_at_written; exact Hb0].
      apply Hsame; assumption. }
    exists []. split; [| constructor].
    unfold sent_since. destruct s; simpl. symmetry. apply app_nil_r.
  - rewrite (cc14_lsb_run s c k v b old ltac:(lia) Hb Hf Hs Hold) in Hrun.
    injection Hrun as <-.
    do 3 (split; [destruct s; reflexivity |]).
    split.
    { intros i Hi. rewrite frame_at_emitted.
      rewrite (frame_at_written_ne (set_slot (cc14_slot c k) s)).
      - destruct s; reflexivity.
      - destruct s; simpl in *; lia.
      - destruct s; exact Hi. }
    split.
    { intros slot H0 Hne.
      rewrite (slot_at_frame _ _ _ _ Hfr).
      erewrite slot_at_frame;
        [| rewrite frame_at_emitted;
           replace (g_bufferIndex s)
             with (g_bufferIndex (set_slot (cc14_slot c k) s))
             by (destruct s; reflexivity);
           apply frame_at_written; exact Hb0].
      apply Hsame; assumption. }
    eexists. split; [unfold sent_since; destruct s; reflexivity |].
    repeat constructor.
Qed.

(** X7.  A CC14 message never reaches the upper half of a frame: on every
    channel 0..15 the slot it addresses is below 256, and slots 256..511 of
    every frame are after the message what they were before. *)
Theorem cc14_upper_half_untouched s c k v :
  well_typed s -> g_bufferIndex s < 32 -> g_slot s < 512 ->
  g_nrpnParam s <= 16383 ->
  0 <= c < 16 -> 0 <= k < 128 ->
  exists s',
    cc14 c k v s = Some s' /\
    (k <= 65 -> 0 <= g_slot s' < 256) /\
    (forall i slot, 256 <= slot -> slot_at i slot s' = slot_at i slot s).
Proof.
  intros Hwt%well_typed_WT Hbi Hs Hp Hc Hk.
  destruct (cc14_step s c k v (mkBounded s Hwt Hbi Hs Hp) Hc Hk)
    as (s' & Hrun & _ & _ & _ & Hslot & Hfr & Hsl & _).
  pose proof (cc14_slot_low c k ltac:(lia) ltac:(lia)) as Hlow.
  exists s'. split; [exact Hrun |].
  split; [intros Hle; rewrite (Hslot Hle); exact Hlow |].
  intros i slot Hhigh.
  destruct (Z.eq_dec i (g_bufferIndex s)) as [-> | Hne].
  - apply Hsl; lia.
  - unfold slot_at. rewrite (Hfr i Hne). reflexivity.
Qed.

Lemma cc14_upper_half_untouched_witness :
  well_typed started /\ g_bufferIndex started < 32 /\ g_slot started < 512 /\
  g_nrpnParam started <= 16383 /\
  exists s', cc14 15 63 127 started = Some s' /\ 0 <= g_slot s' < 256.
Proof.
  split; [vm_compute; reflexivity |].
  split; [vm_compute; reflexivity |].
  split; [vm_compute; reflexivity |].
  split; [vm_compute; discriminate |].
  destruct (cc14_upper_half_untouched started 15 63 127)
    as (s' & Hrun & Hslot & _);
    [vm_compute; reflexivity | vm_compute; reflexivity | vm_compute; reflexivity
     | vm_compute; discriminate | lia | lia |].
  exists s'. split; [exact Hrun | apply Hslot; lia].
Defined.

(** Controller messages of one resolver inside their MIDI ranges. *)
Lemma cc14_feed msgs : forall s,
  bounded s ->
  Forall (fun msg => 0 <= fst (fst msg) < 16 /\ 0 <= snd (fst msg) < 128) msgs ->
  exists s',
    feed cc14 msgs s = Some s' /\ bounded s' /\
    g_universe s' = g_universe s /\
    g_bufferIndex s' = g_bufferIndex s /\
    (forall i, i <> g_bufferIndex s -> frame_at i s' = frame_at i s) /\
    exists l, sent_since s s' l /\ Forall (fun r => fst r = g_universe s) l.
Proof.
  induction msgs as [| [[c k] v] rest IH]; intros s Hbd Hmsgs.
  - exists s. split; [reflexivity |]. split; [exact Hbd |].
    do 3 (split; [reflexivity |]).
    exists []. split; [| constructor]. unfold sent_since. symmetry. apply app_nil_r.
  - inversion Hmsgs as [| ? ? [Hc Hk] Hrest]; subst. simpl in Hc, Hk.
    destruct (cc14_step s c k v Hbd Hc Hk)
      as (s1 & Hrun & Hbd1 & U1 & B1 & _ & F1 & _ & l1 & Hl1 & Hu1).
    destruct (IH s1 Hbd1 Hrest) as (s' & Hfeed & Hbd' & U2 & B2 & F2 & l2 & Hl2 & Hu2).
    exists s'. simpl. rewrite Hrun. simpl.
    split; [exact Hfeed |]. split; [exact Hbd' |].
    do 2 (split; [congruence |]).
    split.
    { intros i Hi. rewrite F2 by congruence. apply F1. exact Hi. }
    exists (l1 ++ l2). split.
    + unfold sent_since in *. rewrite Hl2, Hl1. symmetry. apply app_assoc.
    + apply Forall_app. split; [exact Hu1 |]. rewrite <- U1. exact Hu2.
Qed.

(** X8.  CC14 mode drives one universe: whatever Control-Change messages
    arrive after start-up, on whatever channels, the buffer index stays 0
    and the universe stays the universe base, so that frames 1..31 are
    never written and every transmission goes to the universe base. *)
Theorem cc14_single_universe opts s0 msgs :
  main opts = Some s0 ->
  Forall (fun msg => 0 <= fst (fst msg) < 16 /\ 0 <= snd (fst msg) < 128) msgs ->
  exists s',
    feed cc14 msgs s0 = Some s' /\
    g_bufferIndex s' = 0 /\
    g_universe s' = g_universeBase s0 /\
    (forall i, i <> 0 -> frame_at i s' = frame_at i s0) /\
    exists l, sent_since s0 s' l /\
              Forall (fun r => fst r = g_universeBase s0) l.
Proof.
  intros Hmain Hmsgs.
  destruct (main_boot opts s0 Hmain) as ([Hu Hbi _ _ _ _] & _).
  destruct (cc14_feed msgs s0 (main_bounded opts s0 Hmain) Hmsgs)
    as (s' & Hfeed & _ & U & B & F & l & Hl & Hul).
  exists s'. split; [exact Hfeed |].
  split; [congruence |]. split; [congruence |].
  split; [intros i Hi; apply F; congruence |].
  exists l. split; [exact Hl |]. rewrite <- Hu. exact Hul.
Qed.

Lemma cc14_single_universe_witness :
  main [OptMode MIDI_MODE_CC14; OptUniverse 7] =
    Some (default globals0 (main [OptMode MIDI_MODE_CC14; OptUniverse 7])) /\
  exists s',
    feed cc14 [(9, 3, 100); (9, 35, 90); (2, 64, 0)]
         (default globals0 (main [OptMode MIDI_MODE_CC14; OptUniverse 7])) =
      Some s' /\
    g_bufferIndex s' = 0 /\
    g_universe s' =
      g_universeBase (default globals0 (main [OptMode MIDI_MODE_CC14; OptUniverse 7])).
Proof.
  split; [vm_compute; reflexivity |].
  destruct (cc14_single_universe [OptMode MIDI_MODE_CC14; OptUniverse 7]
              (default globals0 (main [OptMode MIDI_MODE_CC14; OptUniverse 7]))
              [(9, 3, 100); (9, 35, 90); (2, 64, 0)])
    as (s' & Hfeed & Hbi & Hu & _).
  - vm_compute. reflexivity.
  - repeat constructor; simpl; lia.
  - exists s'. split; [exact Hfeed |]. split; [exact Hbi | exact Hu].
Defined.

(** ** NRPN: selection and value messages together *)

Lemma nrpn_LSB_readdress val s :
  nrpn_LSB val s =
  readdress (wrap16 (Z.lor (Z.land (g_nrpnParam s) 0x3f80) val)) s.
Proof. reflexivity. Qed.

Lemma nrpn_MSB_readdress val s :
  nrpn_MSB val s =
  readdress (wrap16 (Z.lor (Z.land (g_nrpnParam s) 0x7f) (Z.shiftl val 7))) s.
Proof. reflexivity. Qed.

Lemma readdress_twice p q s : readdress p (readdress q s) = readdress p s.
Proof. destruct s; reflexivity. Qed.

Lemma readdress_param p s : g_nrpnParam (readdress p s) = p.
Proof. destruct s; reflexivity. Qed.

(** Selecting most-significant part [a] and least-significant part [b], in
    either order, addresses parameter [128 * a + b]. *)
Lemma selection_readdress s a b :
  WT s -> g_nrpnParam s <= 16383 -> 0 <= a < 128 -> 0 <= b < 128 ->
  nrpn_LSB b (nrpn_MSB a s) = readdress (128 * a + b) s /\
  nrpn_MSB a (nrpn_LSB b s) = readdress (128 * a + b) s.
Proof.
  intros Hwt Hp Ha Hb. pose proof (wt_nrpnParam s Hwt) as Hr.
  pose proof (Z.mod_pos_bound (g_nrpnParam s) 128 ltac:(lia)) as Hlow.
  split.
  - rewrite nrpn_LSB_readdress, nrpn_MSB_readdress, readdress_param, readdress_twice.
    destruct (param_after_MSB (g_nrpnParam s) a ltac:(lia) Ha) as (-> & -> & Hb1).
    destruct (param_after_LSB (g_nrpnParam s mod 128 + 128 * a) b Hb1 Hb)
      as (-> & -> & _).
    f_equal. f_equal. f_equal.
    symmetry. apply Z.div_unique with (g_nrpnParam s mod 128); lia.
  - rewrite nrpn_MSB_readdress, nrpn_LSB_readdress, readdress_param, readdress_twice.
    destruct (param_after_LSB (g_nrpnParam s) b ltac:(lia) Hb) as (-> & -> & Hb1).
    destruct (param_after_MSB (128 * (g_nrpnParam s / 128) + b) a ltac:(lia) Ha)
      as (-> & -> & _).
    f_equal. rewrite Z.add_comm. f_equal.
    symmetry. apply Z.mod_unique_pos with (g_nrpnParam s / 128); lia.
Qed.

Lemma readdress_ok p s :
  WT s -> 0 <= p <= 16383 ->
  nrpn_ok (readdress p s) /\
  g_universeBase (readdress p s) = g_universeBase s /\
  g_nrpnVal (readdress p s) = g_nrpnVal s /\
  g_dmxBuffer (readdress p s) = g_dmxBuffer s /\
  g_olaClient (readdress p s) = g_olaClient s.
Proof.
  intros [W1 W2 W3 W4 W5 W6 W7 W8 W9] Hp.
  assert (Hq : 0 <= p / 512 < 32)
    by (split; [apply Z.div_pos; lia | apply Z.div_lt_upper_bound; lia]).
  pose proof (Z.mod_pos_bound p 512 ltac:(lia)) as Hm.
  split; [| destruct s; repeat split].
  constructor.
  - destruct s; constructor; simpl in *; try assumption; try apply wrap8_range; lia.
  - unfold nrpn_inv. destruct s; simpl.
    split; [reflexivity |]. split; [apply wrap8_small; lia | reflexivity].
  - rewrite readdress_param. lia.
Qed.

(** X9.  In the NRPN modes the two halves of a parameter number may be
    selected in either order: [NRPN_MSB a] then [NRPN_LSB b] and
    [NRPN_LSB b] then [NRPN_MSB a] reach the same state, whose parameter is
    [128 * a + b], with buffer index and slot computed from it. *)
Theorem nrpn_selection_order m s ch a b :
  is_nrpn m = true -> well_typed s -> g_nrpnParam s <= 16383 ->
  0 <= a < 128 -> 0 <= b < 128 ->
  exists s',
    feed (resolver m) [(ch, MIDI_CMD_NRPN_MSB, a); (ch, MIDI_CMD_NRPN_LSB, b)] s =
      Some s' /\
    feed (resolver m) [(ch, MIDI_CMD_NRPN_LSB, b); (ch, MIDI_CMD_NRPN_MSB, a)] s =
      Some s' /\
    g_nrpnParam s' = 128 * a + b /\
    g_bufferIndex s' = (128 * a + b) / 512 /\
    g_slot s' = (128 * a + b) mod 512.
Proof.
  intros Hm Hwt%well_typed_WT Hp Ha Hb.
  destruct (selection_readdress s a b Hwt Hp Ha Hb) as [H1 H2].
  exists (readdress (128 * a + b) s).
  split.
  { cbn [feed]. rewrite (resolver_NRPN_MSB m ch a s Hm). cbn [mbind option_bind].
    rewrite (resolver_NRPN_LSB m ch b _ Hm), H1. reflexivity. }
  split.
  { cbn [feed]. rewrite (resolver_NRPN_LSB m ch b s Hm). cbn [mbind option_bind].
    rewrite (resolver_NRPN_MSB m ch a _ Hm), H2. reflexivity. }
  destruct (readdress_ok (128 * a + b) s Hwt ltac:(lia)) as ([_ (Hs & Hbi & _) _] & _).
  rewrite readdress_param in *.
  split; [reflexivity |]. split; assumption.
Qed.

Lemma nrpn_selection_order_witness :
  is_nrpn MIDI_MODE_NRPN7 = true /\ well_typed started /\
  g_nrpnParam started <= 16383 /\
  exists s',
    feed nrpnCC7 [(0, MIDI_CMD_NRPN_MSB, 2); (0, MIDI_CMD_NRPN_LSB, 10)] started =
      Some s' /\
    feed nrpnCC7 [(0, MIDI_CMD_NRPN_LSB, 10); (0, MIDI_CMD_NRPN_MSB, 2)] started =
      Some s' /\
    g_nrpnParam s' = 266.
Proof.
  split; [reflexivity |].
  split; [vm_compute; reflexivity |].
  split; [vm_compute; discriminate |].
  destruct (nrpn_selection_order MIDI_MODE_NRPN7 started 0 2 10)
    as (s' & H1 & H2 & H3 & _);
    [reflexivity | vm_compute; reflexivity | vm_compute; discriminate | lia | lia |].
  exists s'. split; [exact H1 |]. split; [exact H2 | exact H3].
Defined.

Lemma feed_step h c k v rest s s1 :
  h c k v s = Some s1 -> feed h ((c, k, v) :: rest) s = feed h rest s1.
Proof. intros H. simpl. rewrite H. reflexivity. Qed.

Lemma nrpnCC7_NRPN_MSB ch a s :
  nrpnCC7 ch MIDI_CMD_NRPN_MSB a s = Some (nrpn_MSB a s).
Proof. reflexivity. Qed.

Lemma nrpnCC7_NRPN_LSB ch b s :
  nrpnCC7 ch MIDI_CMD_NRPN_LSB b s = Some (nrpn_LSB b s).
Proof. reflexivity. Qed.

Lemma nrpnCC14_NRPN_MSB ch a s :
  nrpnCC14 ch MIDI_CMD_NRPN_MSB a s = Some (nrpn_MSB a s).
Proof. reflexivity. Qed.

Lemma nrpnCC14_NRPN_LSB ch b s :
  nrpnCC14 ch MIDI_CMD_NRPN_LSB b s = Some (nrpn_LSB b s).
Proof. reflexivity. Qed.

(** X10.  NRPN7 sets a DMX slot in three messages: after [NRPN_MSB a],
    [NRPN_LSB b] and [DATA_MSB v] the slot [(128a + b) mod 512] of the
    frame at buffer index [(128a + b) / 512] holds [2 * v]; the only
    transmission is that frame, sent after the third message to the
    universe of that buffer index. *)
Theorem nrpn7_sets_parameter s ch a b v :
  well_typed s -> g_nrpnParam s <= 16383 ->
  0 <= a < 128 -> 0 <= b < 128 -> 0 <= v < 128 ->
  exists s' f,
    feed nrpnCC7 [(ch, MIDI_CMD_NRPN_MSB, a); (ch, MIDI_CMD_NRPN_LSB, b);
                  (ch, MIDI_CMD_DATA_MSB, v)] s = Some s' /\
    g_nrpnVal s' = 2 * v /\
    frame_at ((128 * a + b) / 512) s' = Some f /\
    Get f ((128 * a + b) mod 512) = Some (2 * v) /\
    sent_since s s' [(wrap8 ((128 * a + b) / 512 + g_universeBase s), f)].
Proof.
  intros Hwt%well_typed_WT Hp Ha Hb Hv.
  destruct (selection_readdress s a b Hwt Hp Ha Hb) as [H1 _].
  set (p := 128 * a + b) in *.
  destruct (readdress_ok p s Hwt ltac:(lia)) as (Hok & Hbase & _ & _ & Hlog).
  destruct (nrpn_ok_bounds _ Hok) as [Hbi Hs].
  pose proof Hok as [Hwt2 (Hslot & Hbuf & Hu) _].
  rewrite readdress_param in Hslot, Hbuf.
  destruct (current_buffer_Frame _ Hwt2 ltac:(lia)) as (f0 & Hf0 & Hfr0).
  destruct (stored_facts (wrap8 (Z.shiftl v 1)) f0 (readdress p s) Hf0 Hfr0 Hs
              ltac:(lia))
    as (E1 & _ & _ & _ & _ & _ & Hat & _ & _ & Hsent).
  rewrite shiftl1_double, (wrap8_small (2 * v)) in * by lia.
  eexists. eexists.
  split.
  { rewrite (feed_step _ _ _ _ _ _ _ (nrpnCC7_NRPN_MSB ch a s)).
    rewrite (feed_step _ _ _ _ _ _ _ (nrpnCC7_NRPN_LSB ch b (nrpn_MSB a s))).
    rewrite H1.
    rewrite (feed_step _ _ _ _ _ _ _
               (nrpnCC7_DATA_MSB_run _ ch v f0 Hf0 Hfr0 Hs)).
    rewrite shiftl1_double, (wrap8_small (2 * v)) by lia. reflexivity. }
  split; [exact E1 |].
  split; [rewrite <- Hbuf; exact Hat |].
  split; [rewrite <- Hslot; apply Get_insert_eq; assumption |].
  unfold sent_since in *. rewrite Hsent, Hlog, Hu, Hbuf, Hbase. reflexivity.
Qed.

Lemma nrpn7_sets_parameter_witness :
  well_typed started /\ g_nrpnParam started <= 16383 /\
  exists s' f,
    feed nrpnCC7 [(0, MIDI_CMD_NRPN_MSB, 2); (0, MIDI_CMD_NRPN_LSB, 10);
                  (0, MIDI_CMD_DATA_MSB, 50)] started = Some s' /\
    frame_at ((128 * 2 + 10) / 512) s' = Some f /\
    Get f ((128 * 2 + 10) mod 512) = Some (2 * 50).
Proof.
  split; [vm_compute; reflexivity |].
  split; [vm_compute; discriminate |].
  destruct (nrpn7_sets_parameter started 0 2 10 50)
    as (s' & f & H1 & _ & H2 & H3 & _);
    [vm_compute; reflexivity | vm_compute; discriminate | lia | lia | lia |].
  exists s', f. split; [exact H1 |]. split; [exact H2 | exact H3].
Defined.

(** X11.  NRPN14 sets a DMX slot in four messages: after [NRPN_MSB a],
    [NRPN_LSB b], [DATA_MSB v] and [DATA_LSB w] the addressed slot holds
    [2 * v + 1] when [w] exceeds 63 and [2 * v] otherwise, whatever the
    pending value was before; the only transmission is the frame holding
    that value, sent after the fourth message. *)
Theorem nrpn14_sets_parameter s ch a b v w :
  well_typed s -> g_nrpnParam s <= 16383 ->
  0 <= a < 128 -> 0 <= b < 128 -> 0 <= v < 128 ->
  exists s' f,
    feed nrpnCC14 [(ch, MIDI_CMD_NRPN_MSB, a); (ch, MIDI_CMD_NRPN_LSB, b);
                   (ch, MIDI_CMD_DATA_MSB, v); (ch, MIDI_CMD_DATA_LSB, w)] s =
      Some s' /\
    g_nrpnVal s' = 2 * v + (if 63 <? w then 1 else 0) /\
    frame_at ((128 * a + b) / 512) s' = Some f /\
    Get f ((128 * a + b) mod 512) = Some (2 * v + (if 63 <? w then 1 else 0)) /\
    sent_since s s' [(wrap8 ((128 * a + b) / 512 + g_universeBase s), f)].
Proof.
  intros Hwt%well_typed_WT Hp Ha Hb Hv.
  destruct (selection_readdress s a b Hwt Hp Ha Hb) as [H1 _].
  set (p := 128 * a + b) in *.
  destruct (readdress_ok p s Hwt ltac:(lia)) as (Hok & Hbase & _ & _ & Hlog).
  destruct (nrpn_ok_bounds _ Hok) as [Hbi Hs].
  pose proof Hok as [Hwt2 (Hslot & Hbuf & Hu) _].
  rewrite readdress_param in Hslot, Hbuf.
  pose proof (wt_nrpnVal _ Hwt2) as Hold.
  destruct (msb_byte (g_nrpnVal (readdress p s)) v Hold Hv) as [Hw Hsum].
  pose proof (Z.mod_pos_bound (g_nrpnVal (readdress p s)) 2 ltac:(lia)) as Hbit.
  set (v1 := g_nrpnVal (readdress p s) mod 2 + 2 * v) in *.
  set (s3 := set_nrpnVal v1 (readdress p s)).
  destruct (current_buffer_Frame _ Hwt2 ltac:(lia)) as (f0 & Hf0 & Hfr0).
  assert (Hf3 : current_buffer s3 = Some f0)
    by (unfold s3; destruct (readdress p s); exact Hf0).
  assert (E3 : g_slot s3 = g_slot (readdress p s) /\
               g_bufferIndex s3 = g_bufferIndex (readdress p s) /\
               g_universe s3 = g_universe (readdress p s) /\
               g_olaClient s3 = g_olaClient (readdress p s) /\
               g_nrpnVal s3 = v1)
    by (unfold s3; destruct (readdress p s); repeat split).
  destruct E3 as (Es & Eb & Eu & El & Ev).
  set (v2 := 2 * v + (if 63 <? w then 1 else 0)).
  assert (Hv2 : (if 63 <? w then Z.lor (g_nrpnVal s3) 0x01
                 else Z.land (g_nrpnVal s3) 0xfe) = v2).
  { rewrite lsb_byte by (rewrite Ev; subst v1; lia). rewrite Ev.
    replace (v1 / 2) with v; [reflexivity |].
    subst v1. apply Z.div_unique with (g_nrpnVal (readdress p s) mod 2); lia. }
  destruct (stored_facts v2 f0 s3 Hf3 Hfr0 ltac:(lia) ltac:(lia))
    as (E1 & _ & _ & _ & _ & _ & Hat & _ & _ & Hsent).
  eexists. eexists.
  split.
  { rewrite (feed_step _ _ _ _ _ _ _ (nrpnCC14_NRPN_MSB ch a s)).
    rewrite (feed_step _ _ _ _ _ _ _ (nrpnCC14_NRPN_LSB ch b (nrpn_MSB a s))).
    rewrite H1.
    assert (Hstep : nrpnCC14 ch MIDI_CMD_DATA_MSB v (readdress p s) = Some s3)
      by (rewrite nrpnCC14_DATA_MSB_run, Hw, Hsum; reflexivity).
    rewrite (feed_step _ _ _ _ _ _ _ Hstep).
    rewrite (feed_step _ _ _ _ _ _ _
               (nrpnCC14_DATA_LSB_run s3 ch w f0 Hf3 Hfr0 ltac:(lia))).
    rewrite Hv2. reflexivity. }
  split; [exact E1 |].
  split; [rewrite <- Hbuf, <- Eb; exact Hat |].
  split; [rewrite <- Hslot, <- Es; apply Get_insert_eq; [assumption | lia] |].
  unfold sent_since in *. rewrite Hsent, El, Hlog, Eu, Hu, Hbuf, Hbase, Es.
  reflexivity.
Qed.

Lemma nrpn14_sets_parameter_witness :
  well_typed started /\ g_nrpnParam started <= 16383 /\
  exists s' f,
    feed nrpnCC14 [(0, MIDI_CMD_NRPN_MSB, 127); (0, MIDI_CMD_NRPN_LSB, 127);
                   (0, MIDI_CMD_DATA_MSB, 127); (0, MIDI_CMD_DATA_LSB, 127)]
         started = Some s' /\
    frame_at ((128 * 127 + 127) / 512) s' = Some f /\
    Get f ((128 * 127 + 127) mod 512) = Some (2 * 127 + 1).
Proof.
  split; [vm_compute; reflexivity |].
  split; [vm_compute; discriminate |].
  destruct (nrpn14_sets_parameter started 0 127 127 127 127)
    as (s' & f & H1 & _ & H2 & H3 & _);
    [vm_compute; reflexivity | vm_compute; discriminate | lia | lia | lia |].
  exists s', f. split; [exact H1 |]. split; [exact H2 | exact H3].
Defined.

(** ** NRPN: relative control *)

Lemma slot_is_pending_stored v b s :
  current_buffer s = Some b -> Frame b -> 0 <= g_slot s < 512 ->
  0 <= g_bufferIndex s -> slot_is_pending (stored v b s).
Proof.
  intros Hb Hf Hs Hbi.
  destruct (stored_facts v b s Hb Hf Hs Hbi)
    as (E1 & _ & E2 & E3 & _ & _ & _ & Hslot & _).
  unfold slot_is_pending. rewrite E1, E2, E3. exact Hslot.
Qed.

(** One [INC] message. *)
Lemma nrpn_INC_step m s ch val :
  is_nrpn m = true -> nrpn_ok s ->
  exists s',
    resolver m ch MIDI_CMD_INC val s = Some s' /\ nrpn_ok s' /\
    g_nrpnVal s' = Z.min 255 (g_nrpnVal s + 1) /\
    (g_nrpnVal s < 255 \/ slot_is_pending s -> slot_is_pending s').
Proof.
  intros Hm Hok. destruct (nrpn_ok_bounds s Hok) as [Hbi Hs].
  pose proof Hok as [Hwt Hinv Hp].
  destruct (current_buffer_Frame s Hwt ltac:(lia)) as (b & Hb & Hf).
  pose proof (wt_nrpnVal s Hwt) as Hv.
  assert (Hrun : resolver m ch MIDI_CMD_INC val s = nrpn_INC s)
    by (destruct m; try discriminate; reflexivity).
  rewrite Hrun, (nrpn_INC_run s b Hb Hf Hs ltac:(lia)).
  destruct (Z.ltb_spec (g_nrpnVal s) 255) as [Hlt | Hge].
  - assert (Hst : value_step s (stored (g_nrpnVal s + 1) b s))
      by (apply step_stored; [lia | assumption..]).
    destruct (value_step_effect s _ Hok Hst) as (Hok' & _).
    eexists. split; [reflexivity |]. split; [exact Hok' |].
    split; [| intros _; apply slot_is_pending_stored; [assumption.. | lia]].
    destruct (stored_facts (g_nrpnVal s + 1) b s Hb Hf Hs ltac:(lia)) as (-> & _).
    lia.
  - exists s. split; [reflexivity |]. split; [exact Hok |].
    split; [lia |]. intros [Hlt | Hq]; [lia | exact Hq].
Qed.

(** One [DEC] message. *)
Lemma nrpn_DEC_step m s ch val :
  is_nrpn m = true -> nrpn_ok s ->
  exists s',
    resolver m ch MIDI_CMD_DEC val s = Some s' /\ nrpn_ok s' /\
    g_nrpnVal s' = Z.max 0 (g_nrpnVal s - 1) /\
    (0 < g_nrpnVal s \/ slot_is_pending s -> slot_is_pending s').
Proof.
  intros Hm Hok. destruct (nrpn_ok_bounds s Hok) as [Hbi Hs].
  pose proof Hok as [Hwt Hinv Hp].
  destruct (current_buffer_Frame s Hwt ltac:(lia)) as (b & Hb & Hf).
  pose proof (wt_nrpnVal s Hwt) as Hv.
  assert (Hrun : resolver m ch MIDI_CMD_DEC val s = nrpn_DEC s).
  { destruct m; try discriminate; [| reflexivity].
    change (resolver MIDI_MODE_NRPN7 ch MIDI_CMD_DEC val s)
      with (nrpn_DEC (set_slot (g_nrpnParam s mod 512) s)).
    rewrite set_slot_same by apply Hinv. reflexivity. }
  rewrite Hrun, (nrpn_DEC_run s b Hb Hf Hs ltac:(lia)).
  destruct (Z.ltb_spec 0 (g_nrpnVal s)) as [Hlt | Hge].
  - assert (Hst : value_step s (stored (g_nrpnVal s - 1) b s))
      by (apply step_stored; [lia | assumption..]).
    destruct (value_step_effect s _ Hok Hst) as (Hok' & _).
    eexists. split; [reflexivity |]. split; [exact Hok' |].
    split; [| intros _; apply slot_is_pending_stored; [assumption.. | lia]].
    destruct (stored_facts (g_nrpnVal s - 1) b s Hb Hf Hs ltac:(lia)) as (-> & _).
    lia.
  - exists s. split; [reflexivity |]. split; [exact Hok |].
    split; [lia |]. intros [Hlt | Hq]; [lia | exact Hq].
Qed.

Lemma nrpn_INC_feed m ch val n : forall s,
  is_nrpn m = true -> nrpn_ok s ->
  exists s',
    feed (resolver m) (replicate n (ch, MIDI_CMD_INC, val)) s = Some s' /\
    nrpn_ok s' /\
    g_nrpnVal s' = Z.min 255 (g_nrpnVal s + Z.of_nat n) /\
    ((0 < n)%nat /\ g_nrpnVal s < 255 \/ slot_is_pending s -> slot_is_pending s').
Proof.
  induction n as [| n IH]; intros s Hm Hok.
  - pose proof (wt_nrpnVal s (ok_WT s Hok)).
    exists s. split; [reflexivity |]. split; [exact Hok |].
    split; [simpl; lia |]. intros [[H0 _] | Hq]; [lia | exact Hq].
  - destruct (nrpn_INC_step m s ch val Hm Hok) as (s1 & Hrun & Hok1 & Hv1 & Hq1).
    destruct (IH s1 Hm Hok1) as (s' & Hfeed & Hok' & Hv' & Hq').
    exists s'. rewrite replicate_S, (feed_step _ _ _ _ _ _ _ Hrun).
    split; [exact Hfeed |]. split; [exact Hok' |].
    split; [rewrite Hv', Hv1; lia |].
    intros Hpre. apply Hq'. right. apply Hq1.
    destruct Hpre as [[_ Hlt] | Hq]; [left; exact Hlt | right; exact Hq].
Qed.

Lemma nrpn_DEC_feed m ch val n : forall s,
  is_nrpn m = true -> nrpn_ok s ->
  exists s',
    feed (resolver m) (replicate n (ch, MIDI_CMD_DEC, val)) s = Some s' /\
    nrpn_ok s' /\
    g_nrpnVal s' = Z.max 0 (g_nrpnVal s - Z.of_nat n) /\
    ((0 < n)%nat /\ 0 < g_nrpnVal s \/ slot_is_pending s -> slot_is_pending s').
Proof.
  induction n as [| n IH]; intros s Hm Hok.
  - pose proof (wt_nrpnVal s (ok_WT s Hok)).
    exists s. split; [reflexivity |]. split; [exact Hok |].
    split; [simpl; lia |]. intros [[H0 _] | Hq]; [lia | exact Hq].
  - destruct (nrpn_DEC_step m s ch val Hm Hok) as (s1 & Hrun & Hok1 & Hv1 & Hq1).
    destruct (IH s1 Hm Hok1) as (s' & Hfeed & Hok' & Hv' & Hq').
    exists s'. rewrite replicate_S, (feed_step _ _ _ _ _ _ _ Hrun).
    split; [exact Hfeed |]. split; [exact Hok' |].
    split; [rewrite Hv', Hv1; lia |].
    intros Hpre. apply Hq'. right. apply Hq1.
    destruct Hpre as [[_ Hlt] | Hq]; [left; exact Hlt | right; exact Hq].
Qed.

(** X12.  In the NRPN modes the pending value is a saturating counter:
    [n] [INC] messages in a row leave it at the smaller of 255 and the old
    value plus [n], and [n] [DEC] messages at the larger of 0 and the old
    value minus [n]; when the run changed the value, the addressed slot
    holds the result. *)
Theorem nrpn_inc_saturates m s ch val n :
  is_nrpn m = true -> well_typed s -> nrpn_inv s -> g_nrpnParam s <= 16383 ->
  exists s_up s_down,
    feed (resolver m) (replicate n (ch, MIDI_CMD_INC, val)) s = Some s_up /\
    g_nrpnVal s_up = Z.min 255 (g_nrpnVal s + Z.of_nat n) /\
    ((0 < n)%nat -> g_nrpnVal s < 255 -> slot_is_pending s_up) /\
    feed (resolver m) (replicate n (ch, MIDI_CMD_DEC, val)) s = Some s_down /\
    g_nrpnVal s_down = Z.max 0 (g_nrpnVal s - Z.of_nat n) /\
    ((0 < n)%nat -> 0 < g_nrpnVal s -> slot_is_pending s_down).
Proof.
  intros Hm Hwt%well_typed_WT Hinv Hp.
  destruct (nrpn_INC_feed m ch val n s Hm (mkOk s Hwt Hinv Hp))
    as (s_up & Hup & _ & Hvup & Hqup).
  destruct (nrpn_DEC_feed m ch val n s Hm (mkOk s Hwt Hinv Hp))
    as (s_down & Hdown & _ & Hvdown & Hqdown).
  exists s_up, s_down.
  split; [exact Hup |]. split; [exact Hvup |].
  split; [intros; apply Hqup; left; split; assumption |].
  split; [exact Hdown |]. split; [exact Hvdown |].
  intros; apply Hqdown; left; split; assumption.
Qed.

Lemma nrpn_inc_saturates_witness :
  is_nrpn MIDI_MODE_NRPN14 = true /\ well_typed started /\ nrpn_inv started /\
  g_nrpnParam started <= 16383 /\
  exists s_up,
    feed nrpnCC14 (replicate 300 (0, MIDI_CMD_INC, 0)) started = Some s_up /\
    g_nrpnVal s_up = 255.
Proof.
  assert (Hinv : nrpn_inv started) by (repeat split; vm_compute; reflexivity).
  split; [reflexivity |].
  split; [vm_compute; reflexivity |].
  split; [exact Hinv |].
  split; [vm_compute; discriminate |].
  destruct (nrpn_inc_saturates MIDI_MODE_NRPN14 started 0 0 300)
    as (s_up & _ & Hup & Hv & _);
    [reflexivity | vm_compute; reflexivity | exact Hinv
     | vm_compute; discriminate |].
  exists s_up. split; [exact Hup |]. rewrite Hv. vm_compute. reflexivity.
Defined.

(** X13.  Away from the ends of its range the pending value survives an
    [INC] followed by a [DEC], and a [DEC] followed by an [INC], and the
    addressed slot then holds it; at 255 the pair [INC], [DEC] ends at 254,
    and at 0 the pair [DEC], [INC] ends at 1. *)
Theorem nrpn_inc_dec_round_trip m s ch val :
  is_nrpn m = true -> well_typed s -> nrpn_inv s -> g_nrpnParam s <= 16383 ->
  exists s1 s2,
    feed (resolver m) [(ch, MIDI_CMD_INC, val); (ch, MIDI_CMD_DEC, val)] s =
      Some s1 /\
    feed (resolver m) [(ch, MIDI_CMD_DEC, val); (ch, MIDI_CMD_INC, val)] s =
      Some s2 /\
    (g_nrpnVal s < 255 -> g_nrpnVal s1 = g_nrpnVal s /\ slot_is_pending s1) /\
    (0 < g_nrpnVal s -> g_nrpnVal s2 = g_nrpnVal s /\ slot_is_pending s2) /\
    (g_nrpnVal s = 255 -> g_nrpnVal s1 = 254) /\
    (g_nrpnVal s = 0 -> g_nrpnVal s2 = 1).
Proof.
  intros Hm Hwt%well_typed_WT Hinv Hp.
  pose proof (mkOk s Hwt Hinv Hp) as Hok.
  pose proof (wt_nrpnVal s Hwt) as Hv.
  destruct (nrpn_INC_step m s ch val Hm Hok) as (u & Hu & Hoku & Hvu & Hqu).
  destruct (nrpn_DEC_step m u ch val Hm Hoku) as (s1 & Hs1 & _ & Hv1 & Hq1).
  destruct (nrpn_DEC_step m s ch val Hm Hok) as (d & Hd & Hokd & Hvd & Hqd).
  destruct (nrpn_INC_step m d ch val Hm Hokd) as (s2 & Hs2 & _ & Hv2 & Hq2).
  exists s1, s2.
  split; [rewrite (feed_step _ _ _ _ _ _ _ Hu), (feed_step _ _ _ _ _ _ _ Hs1);
          reflexivity |].
  split; [rewrite (feed_step _ _ _ _ _ _ _ Hd), (feed_step _ _ _ _ _ _ _ Hs2);
          reflexivity |].
  split; [intros Hlt; split; [lia | apply Hq1; left; lia] |].
  split; [intros Hgt; split; [lia | apply Hq2; left; lia] |].
  split; intros; lia.
Qed.

Lemma nrpn_inc_dec_round_trip_witness :
  is_nrpn MIDI_MODE_NRPN7 = true /\ well_typed started /\ nrpn_inv started /\
  g_nrpnParam started <= 16383 /\
  exists s1,
    feed nrpnCC7 [(0, MIDI_CMD_INC, 0); (0, MIDI_CMD_DEC, 0)] started = Some s1 /\
    g_nrpnVal s1 = g_nrpnVal started.
Proof.
  assert (Hinv : nrpn_inv started) by (repeat split; vm_compute; reflexivity).
  split; [reflexivity |].
  split; [vm_compute; reflexivity |].
  split; [exact Hinv |].
  split; [vm_compute; discriminate |].
  destruct (nrpn_inc_dec_round_trip MIDI_MODE_NRPN7 started 0 0)
    as (s1 & _ & H1 & _ & Hback & _);
    [reflexivity | vm_compute; reflexivity | exact Hinv
     | vm_compute; discriminate |].
  exists s1. split; [exact H1 |].
  apply Hback. vm_compute. reflexivity.
Defined.

(** ** NRPN: one session for all channels *)

Lemma status_nibbles c :
  0 <= c < 16 ->
  Z.land (0xb0 + c) 0xf0 = 0xb0 /\ Z.land (0xb0 + c) 0x0f = c.
Proof.
  intros Hc.
  assert (c = 0 \/ c = 1 \/ c = 2 \/ c = 3 \/ c = 4 \/ c = 5 \/ c = 6 \/ c = 7 \/
          c = 8 \/ c = 9 \/ c = 10 \/ c = 11 \/ c = 12 \/ c = 13 \/ c = 14 \/
          c = 15) as Hcases by lia.
  repeat (destruct Hcases as [-> | Hcases]; [split; reflexivity |]).
  subst c. split; reflexivity.
Qed.

(** X14.  The NRPN modes keep one session for all channels: a
    Control-Change event does the same whichever enabled channel it arrives
    on. *)
Theorem nrpn_ignores_channel s c1 c2 k v :
  is_nrpn (g_mode s) = true -> g_enableCC s = true ->
  0 <= c1 < 16 -> 0 <= c2 < 16 ->
  Z.testbit (g_midiChannels s) c1 = true ->
  Z.testbit (g_midiChannels s) c2 = true ->
  processEvent (mkEvent (0xb0 + c1) k v) s =
  processEvent (mkEvent (0xb0 + c2) k v) s.
Proof.
  intros Hm Hcc Hc1 Hc2 Hb1 Hb2.
  destruct (status_nibbles c1 Hc1) as [Hcmd1 Hch1].
  destruct (status_nibbles c2 Hc2) as [Hcmd2 Hch2].
  pose proof (processEvent_dispatch (mkEvent (0xb0 + c1) k v) s) as [D1 _].
  { cbn [status]. rewrite Hch1. exact Hb1. }
  pose proof (processEvent_dispatch (mkEvent (0xb0 + c2) k v) s) as [D2 _].
  { cbn [status]. rewrite Hch2. exact Hb2. }
  rewrite (D1 Hcc Hcmd1), (D2 Hcc Hcmd2).
  cbn [status data1 data2]. rewrite Hch1, Hch2.
  destruct (g_mode s); try discriminate; reflexivity.
Qed.

Lemma nrpn_ignores_channel_witness :
  is_nrpn (g_mode started_without_5) = true /\
  g_enableCC started_without_5 = true /\
  processEvent (mkEvent (0xb0 + 0) MIDI_CMD_DATA_MSB 50) started_without_5 =
  processEvent (mkEvent (0xb0 + 9) MIDI_CMD_DATA_MSB 50) started_without_5.
Proof.
  split; [vm_compute; reflexivity |].
  split; [vm_compute; reflexivity |].
  apply (nrpn_ignores_channel started_without_5 0 9);
    [vm_compute; reflexivity | vm_compute; reflexivity | lia | lia
     | vm_compute; reflexivity | vm_compute; reflexivity].
Defined.

(** ** The command line *)

(** What [main] does after the command line is parsed leaves the
    configuration alone, but for the default of the listening flags. *)
Lemma main_config opts s :
  main opts = Some s ->
  exists s1,
    parseCommandLine opts globals0 = Some s1 /\
    g_mode s = g_mode s1 /\
    g_universeBase s = g_universeBase s1 /\
    g_midiChannels s = g_midiChannels s1 /\
    g_enableNote s = g_enableNote s1 /\
    g_enableCC s = g_enableCC s1 || negb (g_enableNote s1).
Proof.
  unfold main. intros Hrun.
  destruct (parseCommandLine opts globals0) as [s1 |] eqn:Hparse;
    [| discriminate].
  cbn [mbind option_bind] in Hrun.
  exists s1. split; [reflexivity |].
  destruct (parseCommandLine_boot opts globals0 s1 boot_inv_globals0 Hparse)
    as ([_ Hbi _ _ _ Hwt] & _ & _).
  set (s2 := if negb (g_enableNote s1) && negb (g_enableCC s1)
             then set_enableCC true s1 else s1) in *.
  assert (Hs2 : g_mode s2 = g_mode s1 /\
                g_universeBase s2 = g_universeBase s1 /\
                g_midiChannels s2 = g_midiChannels s1 /\
                g_enableNote s2 = g_enableNote s1 /\
                g_enableCC s2 = g_enableCC s1 || negb (g_enableNote s1) /\
                current_buffer s2 = current_buffer s1).
  { subst s2. destruct s1 as [note cc ? ? ? ? ? ? ? ? ? ?]; simpl.
    destruct note, cc; repeat split. }
  destruct Hs2 as (<- & <- & <- & <- & <- & Hb2).
  destruct (current_buffer_Frame s1 Hwt ltac:(lia)) as (b & Hb & _).
  rewrite <- Hb2 in Hb.
  change (Z.to_nat MAX_MIDI_UNIVERSE) with (S 31) in Hrun.
  rewrite (initLoop_run 31 0 s2 b Hb) in Hrun. injection Hrun as <-.
  destruct s2; repeat split.
Qed.

Lemma parseCommandLine_app a b s :
  parseCommandLine (a ++ b) s = (s' ← parseCommandLine a s; parseCommandLine b s').
Proof.
  revert s. induction a as [| o rest IH]; intros s; [reflexivity |].
  simpl. destruct (applyOption o s) as [s1 |]; simpl; [apply IH | reflexivity].
Qed.




(** The bits of the mask after [-x chan]. *)
Lemma excludeChannel_bits chan s s' k :
  excludeChannel chan s = Some s' -> 0 <= k < 16 ->
  Z.testbit (g_midiChannels s') k =
  Z.testbit (g_midiChannels s) k && negb (k =? chan - 1).
Proof.
  unfold excludeChannel. intros Hrun Hk.
  destruct (Z.ltb_spec chan 1); [discriminate |].
  destruct (Z.ltb_spec 16 chan); [discriminate |].
  simpl in Hrun. injection Hrun as <-.
  replace (g_midiChannels
             (set_midiChannels
                (Z.land (g_midiChannels s)
                   (wrap16 (Z.lnot (wrap16 (Z.shiftl 1 (chan - 1)))))) s))
    with (Z.land (g_midiChannels s)
            (wrap16 (Z.lnot (wrap16 (Z.shiftl 1 (chan - 1))))))
    by (destruct s; reflexivity).
  rewrite Z.land_spec. f_equal.
  unfold wrap16. change 65536 with (2 ^ 16).
  rewrite Z.mod_pow2_bits_low by lia.
  rewrite Z.lnot_spec by lia.
  rewrite Z.mod_pow2_bits_low by lia.
  rewrite Z.shiftl_spec by lia. f_equal.
  destruct (Z.eqb_spec k (chan - 1)) as [-> | Hne].
  - rewrite Z.sub_diag. reflexivity.
  - destruct (Z.lt_ge_cases k (chan - 1)).
    + apply Z.testbit_neg_r. lia.
    + replace (k - (chan - 1)) with (Z.succ (k - (chan - 1) - 1)) by lia.
      change 1 with (2 * 0 + 1) at 1.
      rewrite Z.testbit_odd_succ by lia. apply Z.testbit_0_l.
Qed.

Lemma parseCommandLine_mask opts k : forall s s',
  parseCommandLine opts s = Some s' -> 0 <= k < 16 ->
  (Z.testbit (g_midiChannels s') k = true <->
   Z.testbit (g_midiChannels s) k = true /\ ~ In (OptExclude (k + 1)) opts).
Proof.
  induction opts as [| o rest IH]; intros s s' Hrun Hk; simpl in Hrun.
  - injection Hrun as <-. simpl. tauto.
  - destruct (applyOption o s) as [s1 |] eqn:Ho; [| discriminate].
    simpl in Hrun. rewrite (IH s1 s' Hrun Hk).
    assert (Hstep : Z.testbit (g_midiChannels s1) k = true <->
                    Z.testbit (g_midiChannels s) k = true /\ o <> OptExclude (k + 1)).
    { destruct o; simpl in Ho;
        try (injection Ho as <-; destruct s; simpl;
             split; [intros; split; [assumption | discriminate] | tauto]).
      rewrite (excludeChannel_bits chan s s1 k Ho Hk).
      rewrite andb_true_iff, negb_true_iff, Z.eqb_neq.
      split; intros [H1 H2]; (split; [exact H1 |]).
      - intros [= ->]. lia.
      - intros ->. apply H2. f_equal. lia. }
    rewrite Hstep. simpl. intuition congruence.
Qed.

(** X16.  The enable mask that the callback sees has bit [k] set, for [k]
    of 0..15, exactly when channel [k + 1] was not excluded on the command
    line: exclusions add up, in any order and however often repeated, and
    nothing else touches the mask. *)
Theorem main_mask_is_the_exclusions opts s k :
  main opts = Some s -> 0 <= k < 16 ->
  (Z.testbit (g_midiChannels s) k = true <-> ~ In (OptExclude (k + 1)) opts).
Proof.
  intros Hmain Hk.
  destruct (main_config opts s Hmain) as (s1 & Hparse & _ & _ & -> & _).
  rewrite (parseCommandLine_mask opts k globals0 s1 Hparse Hk).
  assert (Hall : Z.testbit (g_midiChannels globals0) k = true).
  { change (g_midiChannels globals0) with (Z.ones 16).
    apply Z.ones_spec_low. lia. }
  tauto.
Qed.

Lemma main_mask_is_the_exclusions_witness :
  main [OptExclude 5; OptExclude 5; OptExclude 16] =
    Some (default globals0 (main [OptExclude 5; OptExclude 5; OptExclude 16])) /\
  Z.testbit
    (g_midiChannels
       (default globals0 (main [OptExclude 5; OptExclude 5; OptExclude 16]))) 0 =
    true /\
  Z.testbit
    (g_midiChannels
       (default globals0 (main [OptExclude 5; OptExclude 5; OptExclude 16]))) 4 <>
    true.
Proof.
  assert (Hmain : main [OptExclude 5; OptExclude 5; OptExclude 16] =
            Some (default globals0
                    (main [OptExclude 5; OptExclude 5; OptExclude 16])))
    by (vm_compute; reflexivity).
  split; [exact Hmain |]. split.
  - apply (main_mask_is_the_exclusions _ _ 0 Hmain); [lia |].
    intros [H | [H | [H | []]]]; discriminate.
  - intros Hbit.
    apply (main_mask_is_the_exclusions _ _ 4 Hmain) in Hbit; [| lia].
    apply Hbit. left. reflexivity.
Defined.

Lemma parseCommandLine_flags opts : forall s s',
  parseCommandLine opts s = Some s' ->
  (g_enableNote s' = true <-> g_enableNote s = true \/ In OptNote opts) /\
  (g_enableCC s' = true <-> g_enableCC s = true \/ In OptCC opts).
Proof.
  induction opts as [| o rest IH]; intros s s' Hrun; simpl in Hrun.
  - injection Hrun as <-. simpl. tauto.
  - destruct (applyOption o s) as [s1 |] eqn:Ho; [| discriminate].
    simpl in Hrun. destruct (IH s1 s' Hrun) as [-> ->].
    assert (Hstep : (g_enableNote s1 = true <->
                     g_enableNote s = true \/ o = OptNote) /\
                    (g_enableCC s1 = true <->
                     g_enableCC s = true \/ o = OptCC)).
    { destruct o; simpl in Ho;
        [| | | | unfold excludeChannel in Ho;
                 destruct ((chan <? 1) || (16 <? chan)); [discriminate |]];
        injection Ho as <-; destruct s; simpl;
        split; split; try tauto; try (intros [? | ?]; [assumption | discriminate]). }
    destruct Hstep as [-> ->]. simpl. intuition congruence.
Qed.

(** X17.  After start-up note listening is on exactly when [-n] was given,
    and CC listening is on exactly when [-c] was given or [-n] was not: the
    callback always listens for at least one of the two. *)
Theorem main_listening_flags opts s :
  main opts = Some s ->
  (g_enableNote s = true <-> In OptNote opts) /\
  (g_enableCC s = true <-> In OptCC opts \/ ~ In OptNote opts) /\
  (g_enableNote s = true \/ g_enableCC s = true).
Proof.
  intros Hmain.
  destruct (main_config opts s Hmain) as (s1 & Hparse & _ & _ & _ & Hn & Hc).
  destruct (parseCommandLine_flags opts globals0 s1 Hparse) as [Hnote Hcc].
  simpl in Hnote, Hcc.
  assert (Hnote' : g_enableNote s1 = true <-> In OptNote opts)
    by (rewrite Hnote; intuition discriminate).
  assert (Hcc' : g_enableCC s1 = true <-> In OptCC opts)
    by (rewrite Hcc; intuition discriminate).
  rewrite Hn, Hc. clear Hnote Hcc Hn Hc.
  destruct (g_enableNote s1), (g_enableCC s1); simpl; intuition discriminate.
Qed.

Lemma main_listening_flags_witness :
  main [OptNote] = Some (default globals0 (main [OptNote])) /\
  g_enableNote (default globals0 (main [OptNote])) = true /\
  g_enableCC (default globals0 (main [OptNote])) = false.
Proof.
  assert (Hmain : main [OptNote] = Some (default globals0 (main [OptNote])))
    by (vm_compute; reflexivity).
  split; [exact Hmain |].
  destruct (main_listening_flags _ _ Hmain) as (Hn & _ & _).
  split; [apply Hn; left; reflexivity | vm_compute; reflexivity].
Defined.

Lemma parseCommandLine_no_universe opts : forall s s',
  no_universe_option opts -> parseCommandLine opts s = Some s' ->
  g_universeBase s' = g_universeBase s /\ g_universe s' = g_universe s.
Proof.
  induction opts as [| o rest IH]; intros s s' Hno Hrun; simpl in Hrun.
  - injection Hrun as <-. auto.
  - inversion Hno as [| ? ? Ho Hrest]; subst.
    destruct (applyOption o s) as [s1 |] eqn:Happ; [| discriminate].
    simpl in Hrun. destruct (IH s1 s' Hrest Hrun) as [-> ->].
    destruct o; simpl in Happ; try contradiction;
      [| | | unfold excludeChannel in Happ;
             destruct ((chan <? 1) || (16 <? chan)); [discriminate |]];
      injection Happ as <-; destruct s; split; reflexivity.
Qed.

Lemma parseCommandLine_no_mode opts : forall s s',
  no_mode_option opts -> parseCommandLine opts s = Some s' ->
  g_mode s' = g_mode s.
Proof.
  induction opts as [| o rest IH]; intros s s' Hno Hrun; simpl in Hrun.
  - injection Hrun as <-. auto.
  - inversion Hno as [| ? ? Ho Hrest]; subst.
    destruct (applyOption o s) as [s1 |] eqn:Happ; [| discriminate].
    simpl in Hrun. rewrite (IH s1 s' Hrest Hrun).
    destruct o; simpl in Happ; try contradiction;
      [| | | unfold excludeChannel in Happ;
             destruct ((chan <? 1) || (16 <? chan)); [discriminate |]];
      injection Happ as <-; destruct s; reflexivity.
Qed.

(** X18.  Of several [-u] options the last one counts, and its number is
    kept modulo 256 in the [uint8_t] universe base; of several [-m] options
    the last one counts; without them the universe base is 1 and the mode
    CC7.  The current universe starts out as the universe base. *)
Theorem main_last_option_wins opts s :
  main opts = Some s ->
  (forall pre u post, opts = pre ++ OptUniverse u :: post ->
     no_universe_option post -> g_universeBase s = u mod 256) /\
  (no_universe_option opts -> g_universeBase s = 1) /\
  (forall pre m post, opts = pre ++ OptMode m :: post ->
     no_mode_option post -> g_mode s = m) /\
  (no_mode_option opts -> g_mode s = MIDI_MODE_CC7) /\
  g_universe s = g_universeBase s.
Proof.
  intros Hmain.
  destruct (main_config opts s Hmain) as (s1 & Hparse & Hmode & Hbase & _).
  destruct (main_boot opts s Hmain) as ([Hu _ _ _ _ _] & _).
  split; [| split; [| split; [| split]]].
  - intros pre u post -> Hno. rewrite Hbase.
    rewrite parseCommandLine_app in Hparse.
    destruct (parseCommandLine pre globals0) as [s0 |]; [| discriminate].
    cbn [mbind option_bind parseCommandLine applyOption] in Hparse.
    destruct (parseCommandLine_no_universe post _ s1 Hno Hparse) as [-> _].
    destruct s0; reflexivity.
  - intros Hno. rewrite Hbase.
    destruct (parseCommandLine_no_universe opts _ s1 Hno Hparse) as [-> _].
    reflexivity.
  - intros pre m post -> Hno. rewrite Hmode.
    rewrite parseCommandLine_app in Hparse.
    destruct (parseCommandLine pre globals0) as [s0 |]; [| discriminate].
    cbn [mbind option_bind parseCommandLine applyOption] in Hparse.
    rewrite (parseCommandLine_no_mode post _ s1 Hno Hparse).
    destruct s0; reflexivity.
  - intros Hno. rewrite Hmode, (parseCommandLine_no_mode opts _ s1 Hno Hparse).
    reflexivity.
  - exact Hu.
Qed.

Lemma main_last_option_wins_witness :
  main [OptUniverse 3; OptMode MIDI_MODE_CC14; OptUniverse 260] =
    Some (default globals0
            (main [OptUniverse 3; OptMode MIDI_MODE_CC14; OptUniverse 260])) /\
  g_universeBase
    (default globals0
       (main [OptUniverse 3; OptMode MIDI_MODE_CC14; OptUniverse 260])) = 4.
Proof.
  assert (Hmain : main [OptUniverse 3; OptMode MIDI_MODE_CC14; OptUniverse 260] =
            Some (default globals0
                    (main [OptUniverse 3; OptMode MIDI_MODE_CC14; OptUniverse 260])))
    by (vm_compute; reflexivity).
  split; [exact Hmain |].
  destruct (main_last_option_wins _ _ Hmain) as (Hlast & _).
  rewrite (Hlast [OptUniverse 3; OptMode MIDI_MODE_CC14] 260 []);
    [reflexivity | reflexivity | constructor].
Defined.

(** ** Console output and option arguments *)

Lemma debug_silent msg c : debug msg c = c <-> g_verbose c <= 2.
Proof.
  unfold debug. destruct (Z.ltb_spec 2 (g_verbose c)); split; intros H0;
    try reflexivity; try lia.
  apply (f_equal stderr) in H0. simpl in H0.
  exfalso. exact (app_singleton_neq _ _ H0).
Qed.

Lemma info_silent msg c : info msg c = c <-> g_verbose c <= 1.
Proof.
  unfold info. destruct (Z.ltb_spec 1 (g_verbose c)); split; intros H0;
    try reflexivity; try lia.
  apply (f_equal stdout) in H0. simpl in H0.
  exfalso. exact (app_singleton_neq _ _ H0).
Qed.

Lemma error_silent msg c : error msg c = c <-> g_verbose c = 0.
Proof.
  unfold error. destruct (Z.eqb_spec (g_verbose c) 0); split; intros H0;
    try reflexivity; try lia.
  apply (f_equal stderr) in H0. simpl in H0.
  apply (f_equal length) in H0. rewrite length_app in H0. simpl in H0. lia.
Qed.

(** X19.  The three console functions are graded: what [debug] writes at a
    level it writes at every higher level, and likewise [info] and
    [error]; whenever [debug] writes, [info] does, and whenever [info]
    writes, [error] does; at level 0 none of them writes anything, and
    none of them changes the level or the other stream. *)
Theorem console_graded msg c c' :
  0 <= g_verbose c -> g_verbose c <= g_verbose c' ->
  (debug msg c <> c -> debug msg c' <> c') /\
  (info msg c <> c -> info msg c' <> c') /\
  (error msg c <> c -> error msg c' <> c') /\
  (debug msg c <> c -> info msg c <> c) /\
  (info msg c <> c -> error msg c <> c) /\
  (g_verbose c = 0 -> debug msg c = c /\ info msg c = c /\ error msg c = c) /\
  g_verbose (debug msg c) = g_verbose c /\ stdout (debug msg c) = stdout c /\
  g_verbose (info msg c) = g_verbose c /\ stderr (info msg c) = stderr c /\
  g_verbose (error msg c) = g_verbose c /\ stdout (error msg c) = stdout c.
Proof.
  intros H0 Hle.
  rewrite !debug_silent, !info_silent, !error_silent.
  repeat split; try lia;
    try (unfold debug; destruct (2 <? g_verbose c); reflexivity);
    try (unfold info; destruct (1 <? g_verbose c); reflexivity);
    try (unfold error; destruct (g_verbose c =? 0); reflexivity).
Qed.

Lemma console_graded_witness :
  0 <= g_verbose (mkConsole 1 [] []) /\
  g_verbose (mkConsole 1 [] []) <= g_verbose (mkConsole 3 [] []) /\
  error "no port" (mkConsole 3 [] []) <> mkConsole 3 [] [].
Proof.
  split; [simpl; lia |]. split; [simpl; lia |].
  destruct (console_graded "no port" (mkConsole 1 [] []) (mkConsole 3 [] []))
    as (_ & _ & Herr & _); [simpl; lia | simpl; lia |].
  apply Herr. discriminate.
Defined.

(** X20.  [-V] goes on exactly when its number, reduced modulo 256 as the
    [uint8_t] level stores it, is at most 3, and that reduced number is the
    new level; so 256 is taken as level 0.  A number that is refused has
    already become the level when the error is reported: the message is
    written even when the level before was 0.  Without an argument the
    program leaves with the message written only if the level before was
    not 0. *)
Theorem optVerbose_accepts optarg c :
  (forall c',
     optVerbose optarg c = Continue c' <->
     exists v, optarg = Some v /\ v mod 256 <= 3 /\
               c' = mkConsole (v mod 256) (stdout c) (stderr c)) /\
  (forall v, optarg = Some v -> 3 < v mod 256 ->
     optVerbose optarg c =
     Exit 1 (mkConsole (v mod 256) (stdout c)
               (stderr c ++ ["ERROR: ";
                             "Verbose must be in range 0..3" +:+ newline]))) /\
  (optarg = None ->
     optVerbose optarg c =
     Exit 1 (if g_verbose c =? 0 then c
             else mkConsole (g_verbose c) (stdout c)
                    (stderr c ++ ["ERROR: ";
                                  "Verbose must be in range 0..3" +:+ newline]))).
Proof.
  split; [| split].
  - intros c'. unfold optVerbose. destruct optarg as [v |].
    + simpl. unfold wrap8.
      destruct (Z.leb_spec (v mod 256) 3) as [Hle | Hgt].
      * split.
        -- intros [= <-]. exists v. auto.
        -- intros (v' & [= <-] & _ & ->). reflexivity.
      * split; [discriminate |].
        intros (v' & [= <-] & Hle & _). lia.
    + split; [discriminate |]. intros (v & Hv & _). discriminate.
  - intros v -> Hgt. unfold optVerbose, wrap8. simpl.
    destruct (Z.leb_spec (v mod 256) 3) as [Hle | _]; [lia |].
    unfold error. simpl.
    destruct (Z.eqb_spec (v mod 256) 0) as [H0 | _]; [lia | reflexivity].
  - intros ->. reflexivity.
Qed.

Lemma modeSearch_names a :
  (modeSearch a modeNames 0 (wrap8 (-1)) <=? 3) = true ->
  modeNames !! Z.to_nat (modeSearch a modeNames 0 (wrap8 (-1))) = Some a.
Proof.
  unfold modeNames. cbn [modeSearch].
  destruct (String.eqb_spec a "cc7") as [-> | _]; [reflexivity |].
  destruct (String.eqb_spec a "cc14") as [-> | _]; [reflexivity |].
  destruct (String.eqb_spec a "nrpn7") as [-> | _]; [reflexivity |].
  destruct (String.eqb_spec a "nrpn14") as [-> | _]; [reflexivity |].
  discriminate.
Qed.

(** X21.  [-m] accepts exactly the four mode names, spelled as in
    [modeNames]: the mode it sets is the index of the name in that table,
    so that [modeNames[g_mode]], which [main] prints, is the argument
    again; any other argument, and a missing one, ends the program with
    exit code 1. *)
Theorem optMode_round_trip optarg c :
  (forall i,
     optMode optarg c = Continue i <->
     exists m a, i = mode_index m /\ optarg = Some a /\
                 modeNames !! Z.to_nat i = Some a) /\
  ((forall m, optarg <> modeNames !! Z.to_nat (mode_index m)) ->
   exists c', optMode optarg c = Exit 1 c').
Proof.
  assert (Hidx : forall i, 0 <= i <= 3 -> exists m, i = mode_index m).
  { intros i Hi.
    assert (i = 0 \/ i = 1 \/ i = 2 \/ i = 3) as [-> | [-> | [-> | ->]]] by lia;
      [exists MIDI_MODE_CC7 | exists MIDI_MODE_CC14
       | exists MIDI_MODE_NRPN7 | exists MIDI_MODE_NRPN14]; reflexivity. }
  assert (Hrange : forall a, 0 <= modeSearch a modeNames 0 (wrap8 (-1))).
  { intros a. unfold modeNames. cbn [modeSearch].
    repeat (destruct (String.eqb a _); [vm_compute; discriminate |]).
    vm_compute. discriminate. }
  split.
  - intros i. unfold optMode. split.
    + destruct optarg as [a |]; [| discriminate].
      cbv zeta.
      destruct (modeSearch a modeNames 0 (wrap8 (-1)) <=? 3) eqn:Hle;
        [| discriminate].
      intros [= <-]. apply Z.leb_le in Hle as Hle'.
      destruct (Hidx _ (conj (Hrange a) Hle')) as [m Hm].
      exists m, a. split; [exact Hm |]. split; [reflexivity |].
      apply modeSearch_names. exact Hle.
    + intros (m & a & -> & -> & Hname).
      destruct m; injection Hname as <-; reflexivity.
  - intros Hnone. unfold optMode. cbv zeta.
    destruct optarg as [a |]; [| eexists; reflexivity].
    destruct (modeSearch a modeNames 0 (wrap8 (-1)) <=? 3) eqn:Hle;
      [| eexists; reflexivity].
    exfalso. apply Z.leb_le in Hle as Hle'.
    destruct (Hidx _ (conj (Hrange a) Hle')) as [m Hm].
    apply (Hnone m). rewrite <- Hm. symmetry. apply modeSearch_names. exact Hle.
Qed.

Lemma optMode_round_trip_witness :
  optMode (Some "nrpn7") (mkConsole 2 [] []) = Continue 2 /\
  exists c', optMode (Some "NRPN7") (mkConsole 2 [] []) = Exit 1 c'.
Proof.
  destruct (optMode_round_trip (Some "nrpn7") (mkConsole 2 [] [])) as [Hok _].
  destruct (optMode_round_trip (Some "NRPN7") (mkConsole 2 [] [])) as [_ Hbad].
  split.
  - apply Hok. exists MIDI_MODE_NRPN7, "nrpn7". repeat split.
  - apply Hbad. intros m. destruct m; discriminate.
Defined.

Lemma comma_separated_true l :
  comma_separated true l = map (fun m => (", %u", m)) l.
Proof. destruct l; reflexivity. Qed.

Lemma channelLoop_enabled n : forall chan comma mask,
  0 <= chan ->
  channelLoop n chan comma mask =
  comma_separated comma (enabled_channels (chan + 1) n mask).
Proof.
  induction n as [| n IH]; intros chan comma mask H0; [reflexivity |].
  unfold enabled_channels.
  rewrite seqZ_cons by lia.
  replace (Z.pred (Z.of_nat (S n))) with (Z.of_nat n) by lia.
  replace (Z.succ (chan + 1)) with (chan + 1 + 1) by lia.
  cbn [channelLoop List.filter].
  replace (chan + 1 - 1) with chan by lia.
  rewrite mask_test by exact H0.
  pose proof (IH (chan + 1) comma mask ltac:(lia)) as IHc.
  pose proof (IH (chan + 1) true mask ltac:(lia)) as IHt.
  unfold enabled_channels in IHc, IHt.
  destruct (Z.testbit mask chan); cbn [negb].
  - destruct comma.
    + rewrite IHt, comma_separated_true. reflexivity.
    + rewrite IHt, comma_separated_true. reflexivity.
  - exact IHc.
Qed.

(** X22.  The start-up report lists exactly the enabled channels, as
    numbers 1..16 in increasing order, the first without and every later
    one with a leading comma; after [main] has parsed the command line
    these are the channels that were not excluded. *)
Theorem listChannels_lists_enabled mask :
  listChannels mask = comma_separated false (enabled_channels 1 16 mask) /\
  map snd (listChannels mask) = enabled_channels 1 16 mask /\
  (forall opts s n, main opts = Some s -> mask = g_midiChannels s ->
     (In n (map snd (listChannels mask)) <->
      1 <= n <= 16 /\ ~ In (OptExclude n) opts)).
Proof.
  assert (Hlist : listChannels mask =
                  comma_separated false (enabled_channels 1 16 mask))
    by (apply (channelLoop_enabled 16 0 false mask); lia).
  assert (Hnums : map snd (listChannels mask) = enabled_channels 1 16 mask).
  { rewrite Hlist. destruct (enabled_channels 1 16 mask) as [| x l];
      [reflexivity |].
    simpl. f_equal. rewrite map_map. simpl. apply map_id. }
  split; [exact Hlist |]. split; [exact Hnums |].
  intros opts s n Hmain ->. rewrite Hnums. unfold enabled_channels.
  rewrite filter_In, <- list_elem_of_In, elem_of_seqZ.
  destruct (main_config opts s Hmain) as (s1 & Hparse & _ & _ & Hmask & _).
  split.
  - intros [Hr Hbit]. split; [lia |].
    rewrite Hmask in Hbit.
    apply (parseCommandLine_mask opts (n - 1) globals0 s1 Hparse ltac:(lia)) in Hbit.
    replace (n - 1 + 1) with n in Hbit by lia. tauto.
  - intros [Hr Hno]. split; [lia |].
    rewrite Hmask.
    apply (parseCommandLine_mask opts (n - 1) globals0 s1 Hparse ltac:(lia)).
    replace (n - 1 + 1) with n by lia. split; [| exact Hno].
    change (g_midiChannels globals0) with (Z.ones 16).
    apply Z.ones_spec_low. lia.
Qed.
